(** * MISP to STIX 2 translation: a shallow embedding of [misp2stix2.py]

    The development follows [app/files/scripts/stix2/misp2stix2.py].  The
    class [StixBuilder] becomes a record of its instance attributes, every
    method a computation in a state-and-exception monad in which a raised
    exception keeps the mutations made before it, as in Python.  Keyword
    dictionaries handed to the stix2 constructors are kept as insertion-ordered
    association lists of dynamically typed values. *)

From Stdlib Require Import ZArith Ascii.
From stdpp Require Import base option list strings gmap pretty.

Open Scope Z_scope.
Open Scope nat_scope.

Set Warnings "-register-all".

(** ** Python strings *)

Module Str.

Definition dquote : string := String (ascii_of_nat 34) "".
Definition apostrophe : string := String (ascii_of_nat 39) "".

Definition startswith (p s : string) : bool := String.prefix p s.

Definition endswith (p s : string) : bool :=
  String.prefix (String.rev p) (String.rev s).

(** [sub in s] *)
Fixpoint contains (sub s : string) : bool :=
  String.prefix sub s ||
  match s with
  | EmptyString => false
  | String _ s' => contains sub s'
  end.

(** [s.replace(old, new)] for a non-empty [old]: [skip] counts the
    characters of a matched occurrence that are still to be dropped. *)
Fixpoint replace_go (old new s : string) (skip : nat) : string :=
  match s with
  | EmptyString => EmptyString
  | String c s' =>
      match skip with
      | S k => replace_go old new s' k
      | O =>
          if String.prefix old s
          then new +:+ replace_go old new s' (String.length old - 1)
          else String c (replace_go old new s' 0)
      end
  end.

Definition replace (old new s : string) : string := replace_go old new s 0.

(** [s.split(sep)] for a non-empty [sep]; [cur] is the current piece,
    reversed. *)
Fixpoint split_go (sep s : string) (skip : nat) (cur : string) : list string :=
  match s with
  | EmptyString => [String.rev cur]
  | String c s' =>
      match skip with
      | S k => split_go sep s' k cur
      | O =>
          if String.prefix sep s
          then String.rev cur :: split_go sep s' (String.length sep - 1) EmptyString
          else split_go sep s' 0 (String c cur)
      end
  end.

Definition split (sep s : string) : list string := split_go sep s 0 EmptyString.

(** *** Code points

    A string of the script is kept as the bytes of its UTF-8 encoding, which
    is how the event file holds it.  Searching, splitting and replacing work
    on the bytes as they do on the characters; what depends on the kind of a
    character (white space, digits) reads the code points. *)

(** The payload of a continuation byte. *)
Definition continuation (c : ascii) : option N :=
  let n := N_of_ascii c in
  if (128 <=? n)%N && (n <? 192)%N then Some (n - 128)%N else None.

(** The code points of a string, each with its bytes.  A byte that starts no
    well-formed sequence stands for itself. *)
Fixpoint scan (s : string) : list (N * string) :=
  match s with
  | EmptyString => []
  | String c0 s1 =>
      let n0 := N_of_ascii c0 in
      let alone := (n0, String c0 EmptyString) :: scan s1 in
      if (n0 <? 192)%N then alone
      else
        match s1 with
        | String c1 s2 =>
            match continuation c1 with
            | Some x1 =>
                if (n0 <? 224)%N
                then (((n0 - 192) * 64 + x1)%N, String c0 (String c1 EmptyString))
                       :: scan s2
                else
                  match s2 with
                  | String c2 s3 =>
                      match continuation c2 with
                      | Some x2 =>
                          if (n0 <? 240)%N
                          then ((((n0 - 224) * 64 + x1) * 64 + x2)%N,
                                String c0 (String c1 (String c2 EmptyString)))
                                 :: scan s3
                          else
                            match s3 with
                            | String c3 s4 =>
                                match continuation c3 with
                                | Some x3 =>
                                    (((((n0 - 240) * 64 + x1) * 64 + x2) * 64 + x3)%N,
                                     String c0 (String c1 (String c2 (String c3 EmptyString))))
                                      :: scan s4
                                | None => alone
                                end
                            | EmptyString => alone
                            end
                      | None => alone
                      end
                  | EmptyString => alone
                  end
            | None => alone
            end
        | EmptyString => alone
        end
  end.

Definition code_points (s : string) : list N := (scan s).*1.

Definition between (low high c : N) : bool := (low <=? c)%N && (c <=? high)%N.

(** [c.isspace()]: the white space of Unicode. *)
Definition whitespace (c : N) : bool :=
  between 9 13 c || between 28 32 c || (c =? 133)%N || (c =? 160)%N || (c =? 5760)%N
  || between 8192 8202 c || between 8232 8233 c || (c =? 8239)%N || (c =? 8287)%N
  || (c =? 12288)%N.

(** The white space [int()] skips around a literal: that of Unicode, less
    the four ASCII separators U+001C to U+001F. *)
Definition int_space (c : N) : bool := whitespace c && negb (between 28 31 c).

(** The code points of the digit zero of every script that has decimal
    digits (Unicode 14.0); the nine other digits follow each of them. *)
Definition decimal_zeros : list N :=
  [48; 1632; 1776; 1984; 2406; 2534; 2662; 2790; 2918; 3046; 3174; 3302; 3430; 3558;
   3664; 3792; 3872; 4160; 4240; 6112; 6160; 6470; 6608; 6784; 6800; 6992; 7088; 7232;
   7248; 42528; 43216; 43264; 43472; 43504; 43600; 44016; 65296; 66720; 68912; 69734;
   69872; 69942; 70096; 70384; 70736; 70864; 71248; 71360; 71472; 71904; 72016; 72784;
   73040; 73120; 92768; 92864; 93008; 120782; 120792; 120802; 120812; 120822; 123200;
   123632; 125264; 130032]%N.

(** The value of a decimal digit. *)
Definition decimal_of (c : N) : option Z :=
  (fun zero => Z.of_N (c - zero)) <$>
    head (filter (fun zero => between zero (zero + 9) c = true) decimal_zeros).

(** The characters that are digits without being decimal digits:
    superscripts, subscripts, circled digits and the like. *)
Definition other_digits : list (N * N) :=
  [(178, 179); (185, 185); (4969, 4977); (6618, 6618); (8304, 8304); (8308, 8313);
   (8320, 8329); (9312, 9320); (9332, 9340); (9352, 9360); (9450, 9450); (9461, 9469);
   (9471, 9471); (10102, 10110); (10112, 10120); (10122, 10130); (68160, 68163);
   (69216, 69224); (69714, 69722); (127232, 127242)]%N.

(** [c.isdigit()] *)
Definition digit (c : N) : bool :=
  bool_decide (is_Some (decimal_of c))
  || existsb (fun range => between range.1 range.2 c) other_digits.

Fixpoint drop_while {A} (p : A -> bool) (l : list A) : list A :=
  match l with
  | [] => []
  | x :: l' => if p x then drop_while p l' else l
  end.

(** What is left of a list once the elements that satisfy [p] are taken off
    both ends. *)
Definition trim {A} (p : A -> bool) (l : list A) : list A :=
  rev (drop_while p (rev (drop_while p l))).

(** [s.strip()] *)
Definition strip (s : string) : string :=
  String.concat EmptyString (trim (fun x => whitespace x.1) (scan s)).*2.

Definition lower_ascii (c : ascii) : ascii :=
  let n := nat_of_ascii c in
  if (65 <=? n) && (n <=? 90) then ascii_of_nat (n + 32) else c.

Fixpoint lower (s : string) : string :=
  match s with
  | EmptyString => EmptyString
  | String c s' => String (lower_ascii c) (lower s')
  end.

(** [s.isdigit()] *)
Definition isdigit (s : string) : bool :=
  match code_points s with
  | [] => false
  | l => forallb digit l
  end.

(** The digits of an [int()] literal: single underscores are allowed between
    digits.  [prev] tells whether the previous character was a digit. *)
Fixpoint int_digits (l : list N) (acc : Z) (prev : bool) : option Z :=
  match l with
  | [] => if prev then Some acc else None
  | c :: l' =>
      match decimal_of c with
      | Some d => int_digits l' (10 * acc + d)%Z true
      | None =>
          if (c =? 95)%N && prev
          then int_digits l' acc false
          else None
      end
  end.

(** The number of digits [int()] takes in one literal: the default of
    [sys.int_info], in the interpreters that have the limit (3.11 and later,
    and the later releases of 3.7 to 3.10). *)
Definition int_max_str_digits : N := 4300.

(** An [int()] literal without its sign.  A literal of more digits than the
    limit is refused, whatever its digits. *)
Definition int_literal (l : list N) : option Z :=
  if (int_max_str_digits <? N.of_nat (length (omap decimal_of l)))%N then None
  else int_digits l 0%Z false.

(** [int(s)] on a string, base ten; [None] stands for [ValueError]. *)
Definition to_int (s : string) : option Z :=
  match trim int_space (code_points s) with
  | c :: l =>
      if (c =? 45)%N then Z.opp <$> int_literal l
      else if (c =? 43)%N then int_literal l
      else int_literal (c :: l)
  | [] => None
  end.

(** [s[n:]] *)
Fixpoint drop (n : nat) (s : string) : string :=
  match n, s with
  | S k, String _ s' => drop k s'
  | _, _ => s
  end.

(** [sep.join(parts)] *)
Definition join (sep : string) (parts : list string) : string :=
  String.concat sep parts.

(** [str(b)] for a boolean *)
Definition of_bool (b : bool) : string := if b then "True" else "False".

(** [str(n)] for a natural number *)
Definition of_nat (n : nat) : string := pretty n.

End Str.

(** ** Python values and stix2 objects *)

Inductive exn :=
| KeyError | ValueError | TypeError | NameError | AttributeError | IndexError
| OverflowError | OSError
| InvalidValueError | TLPMarkingDefinitionError | STIXError | PyException.

#[global] Instance exn_eq_dec : EqDecision exn.
Proof. solve_decision. Defined.

Inductive outcome (A : Type) : Type :=
| Return (a : A)
| Raise (e : exn).
Arguments Return {A} a.
Arguments Raise {A} e.

(** A class generated by the [@CustomObject] decorator: its type name, the
    [labels] and [markings] captured by its property list when it was
    generated, and whether [add_object_custom] generated it. *)
Record custom_class := {
  custom_type : string;
  custom_labels : list string;
  custom_markings : list string;
  custom_from_object : bool }.

Inductive stix_class :=
| Identity | Indicator | ObservedData | Report | Relationship | MarkingDefinition
| AttackPattern | CourseOfAction | IntrusionSet | Malware | ThreatActor | Tool
| Vulnerability | WindowsPESection
| Custom (c : custom_class).

#[global] Instance custom_class_eq_dec : EqDecision custom_class.
Proof. solve_decision. Defined.
#[global] Instance stix_class_eq_dec : EqDecision stix_class.
Proof. solve_decision. Defined.

Inductive pyval :=
| PNone
| PBool (b : bool)
| PInt (z : Z)
| PStr (s : string)
| PTime (seconds : Z)
| PList (l : list pyval)
| PDict (d : list (string * pyval))
| PObj (c : stix_class) (kw : list (string * pyval)).

Abbreviation pydict := (list (string * pyval)).

(** Insertion-ordered dictionaries with string keys. *)
Section Dict.
Context {V : Type}.

Fixpoint dict_get (k : string) (d : list (string * V)) : option V :=
  match d with
  | [] => None
  | (k', v) :: d' => if decide (k = k') then Some v else dict_get k d'
  end.

Definition dict_has (k : string) (d : list (string * V)) : bool :=
  bool_decide (is_Some (dict_get k d)).

(** [d[k] = v]: an existing key keeps its position. *)
Fixpoint dict_set (k : string) (v : V) (d : list (string * V)) : list (string * V) :=
  match d with
  | [] => [(k, v)]
  | (k', v') :: d' =>
      if decide (k = k') then (k, v) :: d' else (k', v') :: dict_set k v d'
  end.

Definition dict_keys (d : list (string * V)) : list string := d.*1.
Definition dict_values (d : list (string * V)) : list V := d.*2.

End Dict.

(** [d.update(e)] *)
Definition dict_update {V} (e d : list (string * V)) : list (string * V) :=
  foldl (fun acc kv => dict_set kv.1 kv.2 acc) d e.

(** An object built by a stix2 constructor: its class and the keyword
    arguments it was built from. *)
Record stix_object := {
  cls : stix_class;
  kwargs : pydict }.

Definition getitem (k : string) (o : stix_object) : option pyval :=
  dict_get k (kwargs o).

(** [stix_object.id] *)
Definition stix_id (o : stix_object) : string :=
  match getitem "id" o with
  | Some (PStr i) => i
  | _ => ""
  end.

Definition PStrs (l : list string) : pyval := PList (PStr <$> l).

(** ** The MISP event format *)

Record Tag := { tag_name : string }.

Record GalaxyCluster := {
  collection_uuid : string;
  cluster_description : string;
  cluster_value : string;
  cluster_tag_name : string;
  cluster_meta : option (list (string * list string)) }.

Record Galaxy := {
  galaxy_type : option string;
  galaxy_name : string;
  galaxy_description : option string;
  galaxy_uuid : string;
  galaxy_GalaxyCluster : list GalaxyCluster }.

Record Attribute := {
  attr_type : string;
  attr_category : string;
  attr_to_ids : bool;
  attr_value : string;
  attr_uuid : string;
  attr_timestamp : string;
  attr_comment : string;
  attr_data : option string;
  attr_object_relation : string;
  attr_first_seen : option string;
  attr_last_seen : option string;
  attr_Tag : list Tag;
  attr_Galaxy : list Galaxy }.

(** An entry of [ObjectReference]; [ref_Object_name] is
    [reference['Object']['name']]. *)
Record ObjectReference := {
  referenced_uuid : string;
  relationship_type : string;
  ref_Object_name : string }.

Record MispObject := {
  obj_name : string;
  obj_uuid : string;
  obj_meta_category : option string;
  obj_description : string;
  obj_timestamp : string;
  obj_first_seen : option string;
  obj_last_seen : option string;
  obj_Attribute : list Attribute;
  obj_ObjectReference : list ObjectReference }.

Record Org := { org_name : string; org_uuid : string }.

Record Event := {
  event_uuid : string;
  event_info : string;
  event_date : string;
  event_publish_timestamp : string;
  event_timestamp : string;
  event_Orgc : Org;
  event_Attribute : list Attribute;
  event_Object : list MispObject;
  event_Galaxy : list Galaxy;
  event_Tag : list Tag }.

#[global] Instance Tag_eq_dec : EqDecision Tag.
Proof. solve_decision. Defined.
#[global] Instance GalaxyCluster_eq_dec : EqDecision GalaxyCluster.
Proof. solve_decision. Defined.
#[global] Instance Galaxy_eq_dec : EqDecision Galaxy.
Proof. solve_decision. Defined.
#[global] Instance Attribute_eq_dec : EqDecision Attribute.
Proof. solve_decision. Defined.
#[global] Instance ObjectReference_eq_dec : EqDecision ObjectReference.
Proof. solve_decision. Defined.
#[global] Instance MispObject_eq_dec : EqDecision MispObject.
Proof. solve_decision. Defined.

(** ** The builder's state *)

(** The instance attributes of [StixBuilder].  [entropy] counts the
    identifiers drawn so far from the random generator behind [uuid.uuid4()]
    and the identifiers stix2 generates on its own. *)
Record StixBuilder := {
  orgs : list string;
  galaxies : list string;
  ids : gmap string string;
  custom_objects : list (string * custom_class);
  misp_event : option Event;
  report_id : string;
  identity_id : string;
  SDOs : list stix_object;
  object_refs : list string;
  links : list Attribute;
  markings : list (string * stix_object);
  defined : list (string * list string);
  to_define : list (string * list (string * string));
  objects_to_parse : list (string * list (string * (bool * MispObject)));
  entropy : nat }.

(** [StixBuilder.__init__] *)
Definition __init__ : StixBuilder :=
  {| orgs := []; galaxies := []; ids := ∅; custom_objects := [];
     misp_event := None; report_id := ""; identity_id := "";
     SDOs := []; object_refs := []; links := []; markings := [];
     defined := []; to_define := []; objects_to_parse := []; entropy := 0 |}.

Definition set_orgs v s := Build_StixBuilder v (galaxies s) (ids s) (custom_objects s)
  (misp_event s) (report_id s) (identity_id s) (SDOs s) (object_refs s) (links s)
  (markings s) (defined s) (to_define s) (objects_to_parse s) (entropy s).
Definition set_galaxies v s := Build_StixBuilder (orgs s) v (ids s) (custom_objects s)
  (misp_event s) (report_id s) (identity_id s) (SDOs s) (object_refs s) (links s)
  (markings s) (defined s) (to_define s) (objects_to_parse s) (entropy s).
Definition set_ids v s := Build_StixBuilder (orgs s) (galaxies s) v (custom_objects s)
  (misp_event s) (report_id s) (identity_id s) (SDOs s) (object_refs s) (links s)
  (markings s) (defined s) (to_define s) (objects_to_parse s) (entropy s).
Definition set_custom_objects v s := Build_StixBuilder (orgs s) (galaxies s) (ids s) v
  (misp_event s) (report_id s) (identity_id s) (SDOs s) (object_refs s) (links s)
  (markings s) (defined s) (to_define s) (objects_to_parse s) (entropy s).
Definition set_misp_event v s := Build_StixBuilder (orgs s) (galaxies s) (ids s)
  (custom_objects s) v (report_id s) (identity_id s) (SDOs s) (object_refs s) (links s)
  (markings s) (defined s) (to_define s) (objects_to_parse s) (entropy s).
Definition set_report_id v s := Build_StixBuilder (orgs s) (galaxies s) (ids s)
  (custom_objects s) (misp_event s) v (identity_id s) (SDOs s) (object_refs s) (links s)
  (markings s) (defined s) (to_define s) (objects_to_parse s) (entropy s).
Definition set_identity_id v s := Build_StixBuilder (orgs s) (galaxies s) (ids s)
  (custom_objects s) (misp_event s) (report_id s) v (SDOs s) (object_refs s) (links s)
  (markings s) (defined s) (to_define s) (objects_to_parse s) (entropy s).
Definition set_SDOs v s := Build_StixBuilder (orgs s) (galaxies s) (ids s)
  (custom_objects s) (misp_event s) (report_id s) (identity_id s) v (object_refs s) (links s)
  (markings s) (defined s) (to_define s) (objects_to_parse s) (entropy s).
Definition set_object_refs v s := Build_StixBuilder (orgs s) (galaxies s) (ids s)
  (custom_objects s) (misp_event s) (report_id s) (identity_id s) (SDOs s) v (links s)
  (markings s) (defined s) (to_define s) (objects_to_parse s) (entropy s).
Definition set_links v s := Build_StixBuilder (orgs s) (galaxies s) (ids s)
  (custom_objects s) (misp_event s) (report_id s) (identity_id s) (SDOs s) (object_refs s) v
  (markings s) (defined s) (to_define s) (objects_to_parse s) (entropy s).
Definition set_markings v s := Build_StixBuilder (orgs s) (galaxies s) (ids s)
  (custom_objects s) (misp_event s) (report_id s) (identity_id s) (SDOs s) (object_refs s)
  (links s) v (defined s) (to_define s) (objects_to_parse s) (entropy s).
Definition set_defined v s := Build_StixBuilder (orgs s) (galaxies s) (ids s)
  (custom_objects s) (misp_event s) (report_id s) (identity_id s) (SDOs s) (object_refs s)
  (links s) (markings s) v (to_define s) (objects_to_parse s) (entropy s).
Definition set_to_define v s := Build_StixBuilder (orgs s) (galaxies s) (ids s)
  (custom_objects s) (misp_event s) (report_id s) (identity_id s) (SDOs s) (object_refs s)
  (links s) (markings s) (defined s) v (objects_to_parse s) (entropy s).
Definition set_objects_to_parse v s := Build_StixBuilder (orgs s) (galaxies s) (ids s)
  (custom_objects s) (misp_event s) (report_id s) (identity_id s) (SDOs s) (object_refs s)
  (links s) (markings s) (defined s) (to_define s) v (entropy s).
Definition set_entropy v s := Build_StixBuilder (orgs s) (galaxies s) (ids s)
  (custom_objects s) (misp_event s) (report_id s) (identity_id s) (SDOs s) (object_refs s)
  (links s) (markings s) (defined s) (to_define s) (objects_to_parse s) v.

(** ** State and exceptions *)

Definition M (A : Type) : Type := StixBuilder -> outcome A * StixBuilder.

Definition ret {A} (a : A) : M A := fun s => (Return a, s).
Definition raise {A} (e : exn) : M A := fun s => (Raise e, s).
Definition bind {A B} (m : M A) (f : A -> M B) : M B :=
  fun s => match m s with
           | (Return a, s') => f a s'
           | (Raise e, s') => (Raise e, s')
           end.
Definition gets {A} (f : StixBuilder -> A) : M A := fun s => (Return (f s), s).
Definition modify (f : StixBuilder -> StixBuilder) : M unit := fun s => (Return tt, f s).
Definition lift {A} (o : outcome A) : M A := fun s => (o, s).

(** [try: m  except <catches>: h]; the state reached when the exception was
    raised is the one the handler starts from. *)
Definition try_except {A} (m : M A) (catches : exn -> bool) (h : M A) : M A :=
  fun s => match m s with
           | (Raise e, s') => if catches e then h s' else (Raise e, s')
           | r => r
           end.

#[global] Instance M_ret : MRet M := @ret.
#[global] Instance M_bind : MBind M := fun A B f m => bind m f.

(** [for x in l: body(x)] *)
Fixpoint for_each {A} (l : list A) (body : A -> M unit) : M unit :=
  match l with
  | [] => ret tt
  | x :: l' => body x;; for_each l' body
  end.

(** The pure fragment: computations that can raise but do not touch [self]. *)
Definition obind {A B} (o : outcome A) (f : A -> outcome B) : outcome B :=
  match o with
  | Return a => f a
  | Raise e => Raise e
  end.

Definition of_option {A} (e : exn) (o : option A) : outcome A :=
  match o with
  | Some a => Return a
  | None => Raise e
  end.

Definition any_exception (_ : exn) : bool := true.
Definition only (e : exn) (e' : exn) : bool := bool_decide (e = e').

(** ** Collaborators

    What the script imports: the stix2 object model, the tables of
    [misp2stix2_mapping], the category list of pymisp, and the standard
    library.  A stix2 constructor either accepts its keyword arguments or
    raises; every object the builder handles carries its identifier under
    ["id"]. *)

(** An entry of [mispTypesMapping].  [pattern_clauses] lists the comparison
    clauses the entry's pattern function produces for a value (and a payload,
    when one is given). *)
Record type_mapping := {
  to_call : option string;
  observable : option (string -> pyval -> option string -> outcome pyval);
  pattern_clauses : option (string -> pyval -> option string -> outcome (list string));
  vulnerability_args : option (string -> pyval) }.

(** Modelled from the spec: the pattern functions of [mispTypesMapping], defined
    in [misp2stix2_mapping], which is not part of the reviewed source.  They
    produce one comparison clause per mapped field; the clauses are joined
    with AND and the whole expression is wrapped in one bracket pair. *)
Definition pattern_expression (clauses : list string) : string :=
  "[" +:+ Str.join " AND " clauses +:+ "]".

(** An entry of [objectsMapping]: the method to call and the format string
    of a comparison clause. *)
Record object_mapping := {
  object_to_call : option string;
  object_pattern : option string }.

Record Env := {
  (* stix2, re, uuid, str *)
  validate : stix_class -> pydict -> option exn;
  CustomObject : custom_class -> option exn;
  uuid4 : nat -> string;
  TLP_WHITE : stix_object;
  TLP_GREEN : stix_object;
  TLP_AMBER : stix_object;
  TLP_RED : stix_object;
  SocketExt_allowed : option (string -> list string);
  re_match : string -> string -> bool;
  str_format : string -> list pyval -> outcome string;
  repr : pyval -> string;
  (* misp2stix2_mapping *)
  mispTypesMapping : string -> option type_mapping;
  objectsMapping : string -> option object_mapping;
  tlp_markings : string -> option string;
  relationshipsSpecifications : string -> option (string -> option string);
  defineProtocols : string -> option string;
  fileMapping : list (string * string);
  hash_types : list string;
  peMapping : string -> option string;
  peSectionMapping : string -> option string;
  attackPatternObjectMapping : string -> option string;
  attack_pattern_reference_mapping : string -> option (string * string);
  vulnerabilityMapping : string -> option string;
  (* pymisp: the keys of [category_type_mappings] in describeTypes.json *)
  category_type_mappings : list string;
  (* the observable and pattern builders of the object kinds other than
     [file], by method name *)
  resolve_method : string -> option (list Attribute -> string -> M pyval) }.

(** ** Module constants *)

Definition misp_hash_types : list string :=
  ["authentihash"; "ssdeep"; "imphash"; "md5"; "sha1"; "sha224";
   "sha256"; "sha384"; "sha512"; "sha512/224"; "sha512/256"; "tlsh"].
Definition attack_pattern_galaxies_list : list string :=
  ["mitre-attack-pattern"; "mitre-enterprise-attack-attack-pattern";
   "mitre-mobile-attack-attack-pattern"; "mitre-pre-attack-attack-pattern"].
Definition course_of_action_galaxies_list : list string :=
  ["mitre-course-of-action"; "mitre-enterprise-attack-course-of-action";
   "mitre-mobile-attack-course-of-action"].
Definition intrusion_set_galaxies_list : list string :=
  ["mitre-enterprise-attack-intrusion-set"; "mitre-mobile-attack-intrusion-set";
   "mitre-pre-attack-intrusion-set"; "mitre-intrusion-set"].
Definition malware_galaxies_list : list string :=
  ["android"; "banker"; "stealer"; "backdoor"; "ransomware"; "mitre-malware";
   "mitre-enterprise-attack-malware"; "mitre-mobile-attack-malware"].
Definition threat_actor_galaxies_list : list string :=
  ["threat-actor"; "microsoft-activity-group"].
Definition tool_galaxies_list : list string :=
  ["botnet"; "rat"; "exploit-kit"; "tds"; "tool"; "mitre-tool";
   "mitre-enterprise-attack-tool"; "mitre-mobile-attack-tool"].
Definition _MISP_event_tags : list string :=
  ["Threat-Report"; "misp:tool=" +:+ Str.dquote +:+ "misp2stix2" +:+ Str.dquote].
Definition _time_fields : list (string * (string * string)) :=
  [("indicator", ("valid_from", "valid_until"));
   ("observed-data", ("first_observed", "last_observed"))].

(** [dict.fromkeys(keys, v)] *)
Definition fromkeys {V} (keys : list string) (v : V) : list (string * V) :=
  (fun k => (k, v)) <$> keys.

(** [load_galaxy_mapping] *)
Definition galaxies_mapping : list (string * (string * string)) :=
  dict_update (fromkeys tool_galaxies_list ("tool", "add_tool"))
  (dict_update (fromkeys threat_actor_galaxies_list ("threat-actor", "add_threat_actor"))
  (dict_update (fromkeys malware_galaxies_list ("malware", "add_malware"))
  (dict_update (fromkeys intrusion_set_galaxies_list ("intrusion-set", "add_intrusion_set"))
  (dict_update (fromkeys course_of_action_galaxies_list ("course-of-action", "add_course_of_action"))
  (dict_update (fromkeys attack_pattern_galaxies_list ("attack-pattern", "add_attack_pattern"))
     [("branded-vulnerability", ("vulnerability", "add_vulnerability_from_galaxy"))]))))).

(** [load_objects_mapping]: the builder methods of each object name. *)
Definition objects_mapping : list (string * list (string * string)) :=
  [("asn", [("observable", "resolve_asn_observable"); ("pattern", "resolve_asn_pattern")]);
   ("credential", [("observable", "resolve_credential_observable");
                   ("pattern", "resolve_credential_pattern")]);
   ("domain-ip", [("observable", "resolve_domain_ip_observable");
                  ("pattern", "resolve_domain_ip_pattern")]);
   ("email", [("observable", "resolve_email_object_observable");
              ("pattern", "resolve_email_object_pattern")]);
   ("file", [("observable", "resolve_file_observable"); ("pattern", "resolve_file_pattern")]);
   ("ip-port", [("observable", "resolve_ip_port_observable");
                ("pattern", "resolve_ip_port_pattern")]);
   ("network-connection", [("observable", "resolve_network_connection_observable");
                           ("pattern", "resolve_network_connection_pattern")]);
   ("network-socket", [("observable", "resolve_network_socket_observable");
                       ("pattern", "resolve_network_socket_pattern")]);
   ("process", [("observable", "resolve_process_observable");
                ("pattern", "resolve_process_pattern")]);
   ("registry-key", [("observable", "resolve_regkey_observable");
                     ("pattern", "resolve_regkey_pattern")]);
   ("stix2-pattern", [("pattern", "resolve_stix2_pattern")]);
   ("url", [("observable", "resolve_url_observable"); ("pattern", "resolve_url_pattern")]);
   ("user-account", [("observable", "resolve_user_account_observable");
                     ("pattern", "resolve_user_account_pattern")]);
   ("x509", [("observable", "resolve_x509_observable"); ("pattern", "resolve_x509_pattern")])].

(** [str(x)] for an optional string, [None] printing as its name. *)
Definition str_option (o : option string) : string := default "None" o.

(** Truth value of an optional string. *)
Definition truthy (o : option string) : bool :=
  match o with
  | Some s => bool_decide (s ≠ "")
  | None => false
  end.

(** [d[k].append(x)] on a [defaultdict(list)] *)
Definition dict_append {V} (k : string) (x : V) (d : list (string * list V)) :
    list (string * list V) :=
  dict_set k (default [] (dict_get k d) ++ [x]) d.

Definition quoted (s : string) : string := Str.dquote +:+ s +:+ Str.dquote.

(** ** The methods of [StixBuilder] *)

Section Methods.
Context (E : Env).

(** Calling a stix2 class on keyword arguments. *)
Definition construct (c : stix_class) (kw : pydict) : M stix_object :=
  match validate E c kw with
  | Some e => raise e
  | None => mret {| cls := c; kwargs := kw |}
  end.

(** [uuid.uuid4()], and the identifiers stix2 draws for objects built
    without one. *)
Definition fresh_uuid : M string :=
  n ← gets entropy;
  modify (set_entropy (S n));;
  mret (uuid4 E n).

(** [self.misp_event] *)
Definition get_misp_event : M Event :=
  ev ← gets misp_event;
  lift (of_option AttributeError ev).

(** [initialize_misp_types]: every category of pymisp's
    [category_type_mappings] becomes a key of [mispTypesMapping], routed to
    [handle_person]. *)
Definition initialize_misp_types (t : string) : option type_mapping :=
  if bool_decide (t ∈ category_type_mappings E)
  then Some {| to_call := Some "handle_person"; observable := None;
               pattern_clauses := None; vulnerability_args := None |}
  else mispTypesMapping E t.

(** [mispTypesMapping[t][field]] *)
Definition types_lookup {A} (t : string) (field : type_mapping -> option A) : outcome A :=
  of_option KeyError (initialize_misp_types t ≫= field).

(** [mispTypesMapping[t]['pattern']]: the pattern function of an entry. *)
Definition mapping_pattern (t : string) :
    outcome (string -> pyval -> option string -> outcome pyval) :=
  obind (types_lookup t pattern_clauses) (fun clauses =>
    Return (fun t' v data =>
      obind (clauses t' v data) (fun cs => Return (PStr (pattern_expression cs))))).

(** [datetime.datetime.utcfromtimestamp(z)], on a platform whose [time_t]
    has 64 bits; a date is kept as its POSIX seconds.  The seconds have to
    fit [time_t], the C library has to be able to break them down, and the
    year has to lie between 1 and 9999. *)
Definition utcfromtimestamp (z : Z) : outcome pyval :=
  if (z <? -9223372036854775808)%Z || (9223372036854775807 <? z)%Z
  then Raise OverflowError
  else if (z <? -67768040609740800)%Z || (67768036191676799 <? z)%Z
  then Raise OSError
  else if (z <? -62135596800)%Z || (253402300799 <? z)%Z
  then Raise ValueError
  else Return (PTime z).

(** [get_datetime_from_timestamp] *)
Definition get_datetime_from_timestamp (timestamp : string) : outcome pyval :=
  match Str.to_int timestamp with
  | Some z => utcfromtimestamp z
  | None => Raise ValueError
  end.

(** [handle_time_fields] *)
Definition handle_time_fields (first_seen last_seen : option string)
    (timestamp : pyval) (stix_type : string) : outcome pydict :=
  obind (of_option KeyError (dict_get stix_type _time_fields)) (fun fields =>
    let pick (o : option string) :=
      if truthy o then PStr (default "" o) else timestamp in
    Return [("created", timestamp); ("modified", timestamp);
            (fields.1, pick first_seen); (fields.2, pick last_seen)]).

(** [append_object] *)
Definition append_object (stix_object : stix_object) (id_mapping : bool) : M unit :=
  modify (fun s => set_SDOs (SDOs s ++ [stix_object]) s);;
  modify (fun s => set_object_refs (object_refs s ++ [stix_id stix_object]) s);;
  if id_mapping then
    match Str.split "--" (stix_id stix_object) with
    | [object_type; uuid] => modify (fun s => set_ids (<[uuid := object_type]> (ids s)) s)
    | _ => raise ValueError
    end
  else mret tt.

(** [create_killchain] *)
Definition create_killchain (category : option string) : pyval :=
  PList [PDict [("kill_chain_name", PStr "misp-category");
                ("phase_name", match category with Some c => PStr c | None => PNone end)]].

(** The tags of a record, split as [create_labels] and [eventReport] do:
    names starting with [tlp:] are markings, the others extend [labels]. *)
Fixpoint split_tags (tags : list Tag) (labels markings : list string) :
    list string * list string :=
  match tags with
  | [] => (labels, markings)
  | tag :: rest =>
      let name := tag_name tag in
      if Str.startswith "tlp:" name
      then split_tags rest labels (markings ++ [name])
      else split_tags rest (labels ++ [name]) markings
  end.

(** [create_labels] *)
Definition create_labels (attribute : Attribute) : list string * list string :=
  split_tags (attr_Tag attribute)
    ["misp:type=" +:+ quoted (attr_type attribute);
     "misp:category=" +:+ quoted (attr_category attribute);
     "misp:to_ids=" +:+ quoted (Str.of_bool (attr_to_ids attribute))] [].

(** [create_object_labels] *)
Definition create_object_labels (name : string) (category : option string)
    (to_ids : bool) : list string :=
  ["misp:type=" +:+ quoted name;
   "misp:category=" +:+ quoted (str_option category);
   "misp:to_ids=" +:+ quoted (Str.of_bool to_ids);
   "from_object"].

(** [globals()[name]], for the marking definitions the module imports. *)
Definition globals (name : string) : option stix_object :=
  if decide (name = "TLP_WHITE") then Some (TLP_WHITE E)
  else if decide (name = "TLP_GREEN") then Some (TLP_GREEN E)
  else if decide (name = "TLP_AMBER") then Some (TLP_AMBER E)
  else if decide (name = "TLP_RED") then Some (TLP_RED E)
  else None.

(** The keyword arguments [create_marking] builds for a tag
    [definition_type:definition]. *)
Definition marking_kwargs (marking_id definition_type definition : string) : pydict :=
  [("type", PStr "marking-definition"); ("id", PStr marking_id);
   ("definition_type", PStr definition_type);
   ("definition", PDict [(definition_type, PStr definition)])].

Definition marking_rejected (e : exn) : bool :=
  bool_decide (e = TLPMarkingDefinitionError) || bool_decide (e = ValueError).

(** [create_marking]; the result is the marking identifier, or [None]. *)
Definition create_marking (tag : string) : M (option string) :=
  match tlp_markings E tag with
  | Some name =>
      marking_definition ← lift (of_option KeyError (globals name));
      modify (fun s => set_markings (dict_set tag marking_definition (markings s)) s);;
      mret (Some (stix_id marking_definition))
  | None =>
      u ← fresh_uuid;
      let marking_id := "marking-definition--" +:+ u in
      match Str.split ":" tag with
      | [definition_type; definition] =>
          try_except
            (marking_definition ← construct MarkingDefinition
               (marking_kwargs marking_id definition_type definition);
             modify (fun s => set_markings (dict_set tag marking_definition (markings s)) s);;
             mret (Some marking_id))
            marking_rejected
            (mret None)
      | _ => raise ValueError
      end
  end.

(** [if marking_id:] *)
Definition keep_marking_id (marking_id : option string) (marking_ids : list string) :
    list string :=
  if truthy marking_id then marking_ids ++ [default "" marking_id] else marking_ids.

(** [handle_tags]; [marking_ids] is the list built so far. *)
Fixpoint handle_tags_from (marking_ids : list string) (tags : list string) :
    M (list string) :=
  match tags with
  | [] => mret marking_ids
  | tag :: rest =>
      known ← gets markings;
      marking_id ← match dict_get tag known with
                   | Some marking => mret (Some (stix_id marking))
                   | None => create_marking tag
                   end;
      handle_tags_from (keep_marking_id marking_id marking_ids) rest
  end.

Definition handle_tags (tags : list string) : M (list string) :=
  handle_tags_from [] tags.

(** *** Galaxies *)

(** [generate_galaxy_args] *)
Definition generate_galaxy_args (galaxy : Galaxy) (b_killchain b_alias : bool)
    (sdo_type : string) : M pydict :=
  cluster ← lift (of_option IndexError (head (galaxy_GalaxyCluster galaxy)));
  let cluster_uuid := collection_uuid cluster in
  let sdo_id := sdo_type +:+ "--" +:+ cluster_uuid in
  family_text ← lift (of_option KeyError (galaxy_description galaxy));
  let description := family_text +:+ " | " +:+ cluster_description cluster in
  let labels := ["misp:name=" +:+ quoted (galaxy_name galaxy)] in
  event ← get_misp_event;
  modified ← lift (get_datetime_from_timestamp (event_timestamp event));
  let sdo_args :=
    [("id", PStr sdo_id); ("type", PStr sdo_type); ("created", PStr (event_date event));
     ("modified", modified); ("name", PStr (cluster_value cluster));
     ("description", PStr description); ("interoperability", PBool true)] in
  sdo_args ← (if b_killchain then
                phase ← lift (of_option KeyError (galaxy_type galaxy));
                mret (dict_set "kill_chain_phases"
                        (PList [PDict [("kill_chain_name", PStr "misp-category");
                                       ("phase_name", PStr phase)]]) sdo_args)
              else mret sdo_args);
  let labels := if bool_decide (cluster_tag_name cluster ≠ "")
                then labels ++ [cluster_tag_name cluster] else labels in
  meta ← lift (of_option TypeError (cluster_meta cluster));
  let sdo_args := match dict_get "synonyms" meta with
                  | Some synonyms =>
                      if b_alias then dict_set "aliases" (PStrs synonyms) sdo_args
                      else sdo_args
                  | None => sdo_args
                  end in
  mret (dict_set "labels" (PStrs labels) sdo_args).

(** [add_attack_pattern] *)
Definition add_attack_pattern (galaxy : Galaxy) : M unit :=
  a_p_args ← generate_galaxy_args galaxy true false "attack-pattern";
  created_by ← gets identity_id;
  attack_pattern ← construct AttackPattern
    (dict_set "created_by_ref" (PStr created_by) a_p_args);
  append_object attack_pattern true.

(** [add_coa_stix_object] *)
Definition add_coa_stix_object (coa_args : pydict) : M unit :=
  created_by ← gets identity_id;
  course_of_action ← construct CourseOfAction
    (dict_set "created_by_ref" (PStr created_by) coa_args ++ [("allow_custom", PBool true)]);
  append_object course_of_action true.

(** [add_course_of_action] *)
Definition add_course_of_action (misp_object : Galaxy) : M unit :=
  coa_args ← generate_galaxy_args misp_object false false "course-of-action";
  add_coa_stix_object coa_args.

(** [add_intrusion_set] *)
Definition add_intrusion_set (galaxy : Galaxy) : M unit :=
  i_s_args ← generate_galaxy_args galaxy false true "intrusion-set";
  created_by ← gets identity_id;
  intrusion_set ← construct IntrusionSet
    (dict_set "created_by_ref" (PStr created_by) i_s_args);
  append_object intrusion_set true.

(** [add_malware] *)
Definition add_malware (galaxy : Galaxy) : M unit :=
  malware_args ← generate_galaxy_args galaxy true false "malware";
  created_by ← gets identity_id;
  malware ← construct Malware (dict_set "created_by_ref" (PStr created_by) malware_args);
  append_object malware true.

(** [add_threat_actor] *)
Definition add_threat_actor (galaxy : Galaxy) : M unit :=
  t_a_args ← generate_galaxy_args galaxy false true "threat-actor";
  created_by ← gets identity_id;
  threat_actor ← construct ThreatActor
    (dict_set "created_by_ref" (PStr created_by) t_a_args);
  append_object threat_actor true.

(** [add_tool] *)
Definition add_tool (galaxy : Galaxy) : M unit :=
  tool_args ← generate_galaxy_args galaxy true false "tool";
  created_by ← gets identity_id;
  tool ← construct Tool (dict_set "created_by_ref" (PStr created_by) tool_args);
  append_object tool true.

(** [add_vulnerability_from_galaxy] *)
Definition add_vulnerability_from_galaxy (attribute : Galaxy) : M unit :=
  let vulnerability_id := "vulnerability--" +:+ galaxy_uuid attribute in
  cluster ← lift (of_option IndexError (head (galaxy_GalaxyCluster attribute)));
  let name := cluster_value cluster in
  meta ← lift (of_option KeyError (cluster_meta cluster));
  aliases ← match meta with
            | [] => mret []
            | _ => lift (of_option KeyError (dict_get "aliases" meta))
            end;
  args_of ← lift (types_lookup "vulnerability" vulnerability_args);
  let vulnerability_data := match aliases with
                            | [] => [args_of name]
                            | _ => args_of <$> aliases
                            end in
  let labels := ["misp:type=" +:+ quoted (str_option (galaxy_type attribute))] in
  let labels := if bool_decide (cluster_tag_name cluster ≠ "")
                then labels ++ [cluster_tag_name cluster] else labels in
  let description := str_option (galaxy_description attribute) +:+ " | "
                     +:+ cluster_description cluster in
  created_by ← gets identity_id;
  vulnerability ← construct Vulnerability
    [("id", PStr vulnerability_id); ("type", PStr "vulnerability"); ("name", PStr name);
     ("external_references", PList vulnerability_data);
     ("created_by_ref", PStr created_by); ("labels", PStrs labels);
     ("description", PStr description); ("interoperability", PBool true)];
  append_object vulnerability true.

(** [getattr(self, to_call)(galaxy)], for the names of [galaxies_mapping]. *)
Definition call_galaxy_method (to_call : string) (galaxy : Galaxy) : M unit :=
  if decide (to_call = "add_attack_pattern") then add_attack_pattern galaxy
  else if decide (to_call = "add_course_of_action") then add_course_of_action galaxy
  else if decide (to_call = "add_intrusion_set") then add_intrusion_set galaxy
  else if decide (to_call = "add_malware") then add_malware galaxy
  else if decide (to_call = "add_threat_actor") then add_threat_actor galaxy
  else if decide (to_call = "add_tool") then add_tool galaxy
  else if decide (to_call = "add_vulnerability_from_galaxy")
       then add_vulnerability_from_galaxy galaxy
  else raise AttributeError.

(** [parse_galaxy] *)
Definition parse_galaxy (galaxy : Galaxy) (source_id : string) : M unit :=
  let galaxy_type := galaxy_type galaxy in
  cluster ← lift (of_option IndexError (head (galaxy_GalaxyCluster galaxy)));
  let galaxy_uuid := collection_uuid cluster in
  match galaxy_type ≫= (fun t => dict_get t galaxies_mapping) with
  | None => mret tt
  | Some (stix_type, to_call) =>
      seen ← gets galaxies;
      (if bool_decide (galaxy_uuid ∈ seen) then mret tt
       else call_galaxy_method to_call galaxy;;
            modify (fun s => set_galaxies (galaxies s ++ [galaxy_uuid]) s));;
      modify (fun s =>
        set_defined (dict_append source_id (stix_type +:+ "--" +:+ galaxy_uuid) (defined s)) s)
  end.

(** [parse_galaxies] *)
Definition parse_galaxies (galaxies : list Galaxy) (source_id : string) : M unit :=
  for_each galaxies (fun galaxy => parse_galaxy galaxy source_id).

(** *** Attributes *)

(** [define_attribute_value] *)
Definition define_attribute_value (value comment : string) : outcome pyval :=
  let as_number (text : string) : outcome pyval :=
    let digits := if Str.isdigit text then text
                  else default "" (head (Str.split " " (Str.drop 2 text))) in
    match Str.to_int digits with
    | Some z => Return (PInt z)
    | None => Raise ValueError
    end in
  if Str.isdigit value || Str.startswith "AS" value then as_number value
  else if Str.startswith "AS" comment || Str.isdigit comment then as_number comment
  else Return PNone.

(** The substitution [define_pattern] applies to a string value. *)
Definition escape_value (v : pyval) : pyval :=
  match v with
  | PStr text =>
      PStr (Str.replace Str.dquote "##QUOTE##"
              (Str.replace Str.apostrophe "##APOSTROPHE##" text))
  | _ => v
  end.

(** [define_pattern] *)
Definition define_pattern (attribute_type : string) (attribute_value : pyval) :
    outcome pyval :=
  let attribute_value := escape_value attribute_value in
  obind (mapping_pattern attribute_type) (fun pattern =>
    if decide (attribute_type = "malware-sample")
    then pattern "filename|md5" attribute_value None
    else pattern attribute_type attribute_value None).

(** [observable['0']['protocols'].append(protocol)] *)
Definition append_protocol (protocol : string) (observable : pyval) : outcome pyval :=
  match observable with
  | PDict nodes =>
      match dict_get "0" nodes with
      | Some (PDict node) =>
          match dict_get "protocols" node with
          | Some (PList protocols) =>
              Return (PDict (dict_set "0"
                (PDict (dict_set "protocols" (PList (protocols ++ [PStr protocol])) node))
                nodes))
          | Some _ => Raise AttributeError
          | None => Raise KeyError
          end
      | Some _ => Raise TypeError
      | None => Raise KeyError
      end
  | _ => Raise TypeError
  end.

(** [define_observable] *)
Definition define_observable (attribute_type : string) (attribute_value : pyval) :
    outcome pyval :=
  obind (types_lookup attribute_type observable) (fun build =>
    if decide (attribute_type = "malware-sample")
    then build "filename|md5" attribute_value None
    else
      obind (build attribute_type attribute_value None) (fun observable =>
        if decide (attribute_type = "port")
        then
          let protocol := match attribute_value with
                          | PStr port => default "tcp" (defineProtocols E port)
                          | _ => "tcp"
                          end in
          append_protocol protocol observable
        else Return observable)).

(** The value an attribute is translated from: the AS number for the type
    [AS], the value itself otherwise. *)
Definition translated_value (attribute : Attribute) : outcome pyval :=
  if decide (attr_type attribute = "AS")
  then define_attribute_value (attr_value attribute) (attr_comment attribute)
  else Return (PStr (attr_value attribute)).

(** [add_custom] *)
Definition add_custom (attribute : Attribute) : M unit :=
  let attribute_type :=
    Str.lower (Str.replace " " "-" (Str.replace "|" "-" (attr_type attribute))) in
  let custom_object_id := "x-misp-object-" +:+ attribute_type +:+ "--" +:+ attr_uuid attribute in
  let custom_object_type := "x-misp-object-" +:+ attribute_type in
  let '(labels, markings) := create_labels attribute in
  timestamp ← lift (get_datetime_from_timestamp (attr_timestamp attribute));
  created_by ← gets identity_id;
  let custom_object_args :=
    [("id", PStr custom_object_id); ("x_misp_category", PStr (attr_category attribute));
     ("created", timestamp); ("modified", timestamp); ("labels", PStrs labels);
     ("x_misp_value", PStr (attr_value attribute)); ("created_by_ref", PStr created_by)] in
  let custom_object_args :=
    if bool_decide (attr_comment attribute ≠ "")
    then dict_set "x_misp_comment" (PStr (attr_comment attribute)) custom_object_args
    else custom_object_args in
  '(markings, custom_object_args) ←
    match markings with
    | [] => mret (markings, custom_object_args)
    | _ => markings ← handle_tags markings;
           mret (markings, dict_set "object_marking_refs" (PStrs markings) custom_object_args)
    end;
  known ← gets custom_objects;
  custom ← match dict_get custom_object_type known with
           | None =>
               let generated := {| custom_type := custom_object_type;
                                   custom_labels := labels;
                                   custom_markings := markings;
                                   custom_from_object := false |} in
               match CustomObject E generated with
               | Some e => raise e
               | None =>
                   modify (fun s =>
                     set_custom_objects
                       (dict_set custom_object_type generated (custom_objects s)) s);;
                   mret generated
               end
           | Some cached => mret cached
           end;
  custom_object ← construct (Custom custom) custom_object_args;
  append_object custom_object true.

(** [add_identity]: the dictionary literal reads the local name [identity]
    before the function binds it. *)
Definition add_identity (attribute : Attribute) : M unit :=
  let identity_id := "identity--" +:+ attr_uuid attribute in
  let name := attr_value attribute in
  let '(labels, markings) := create_labels attribute in
  raise NameError.

(** [add_indicator] *)
Definition add_indicator (attribute : Attribute) : M unit :=
  let attribute_type := attr_type attribute in
  let indicator_id := "indicator--" +:+ attr_uuid attribute in
  parse_galaxies (attr_Galaxy attribute) indicator_id;;
  let category := attr_category attribute in
  let killchain := create_killchain (Some category) in
  let '(labels, markings) := create_labels attribute in
  attribute_value ← lift (translated_value attribute);
  pattern ← lift (if truthy (attr_data attribute)
                  then obind (mapping_pattern attribute_type) (fun pattern =>
                         pattern attribute_type attribute_value (attr_data attribute))
                  else define_pattern attribute_type attribute_value);
  timestamp ← lift (get_datetime_from_timestamp (attr_timestamp attribute));
  created_by ← gets identity_id;
  let indicator_args :=
    [("id", PStr indicator_id); ("type", PStr "indicator"); ("labels", PStrs labels);
     ("kill_chain_phases", killchain); ("created_by_ref", PStr created_by);
     ("pattern", pattern); ("interoperability", PBool true)] in
  time_fields ← lift (handle_time_fields (attr_first_seen attribute)
                        (attr_last_seen attribute) timestamp "indicator");
  let indicator_args := dict_update time_fields indicator_args in
  let indicator_args :=
    if bool_decide (attr_comment attribute ≠ "")
    then dict_set "description" (PStr (attr_comment attribute)) indicator_args
    else indicator_args in
  indicator_args ←
    match markings with
    | [] => mret indicator_args
    | _ => marking_ids ← handle_tags markings;
           mret (dict_set "object_marking_refs" (PStrs marking_ids) indicator_args)
    end;
  indicator ← construct Indicator indicator_args;
  append_object indicator true.

(** [add_observed_data] *)
Definition add_observed_data (attribute : Attribute) : M unit :=
  let attribute_type := attr_type attribute in
  let observed_data_id := "observed-data--" +:+ attr_uuid attribute in
  parse_galaxies (attr_Galaxy attribute) observed_data_id;;
  timestamp ← lift (get_datetime_from_timestamp (attr_timestamp attribute));
  let '(labels, markings) := create_labels attribute in
  attribute_value ← lift (translated_value attribute);
  observable ← lift (if truthy (attr_data attribute)
                     then obind (types_lookup attribute_type observable) (fun build =>
                            build attribute_type attribute_value (attr_data attribute))
                     else define_observable attribute_type attribute_value);
  created_by ← gets identity_id;
  let observed_data_args :=
    [("id", PStr observed_data_id); ("type", PStr "observed-data");
     ("number_observed", PInt 1); ("objects", observable);
     ("created_by_ref", PStr created_by); ("labels", PStrs labels);
     ("interoperability", PBool true)] in
  time_fields ← lift (handle_time_fields (attr_first_seen attribute)
                        (attr_last_seen attribute) timestamp "observed-data");
  let observed_data_args := dict_update time_fields observed_data_args in
  observed_data_args ←
    match markings with
    | [] => mret observed_data_args
    | _ => marking_ids ← handle_tags markings;
           mret (dict_set "object_marking_refs" (PStrs marking_ids) observed_data_args)
    end;
  observed_data ← construct ObservedData observed_data_args;
  append_object observed_data true.

(** [add_vulnerability] *)
Definition add_vulnerability (attribute : Attribute) : M unit :=
  let vulnerability_id := "vulnerability--" +:+ attr_uuid attribute in
  let name := attr_value attribute in
  args_of ← lift (types_lookup "vulnerability" vulnerability_args);
  let vulnerability_data := [args_of name] in
  let '(labels, markings) := create_labels attribute in
  created_by ← gets identity_id;
  let vulnerability_args :=
    [("id", PStr vulnerability_id); ("type", PStr "vulnerability"); ("name", PStr name);
     ("external_references", PList vulnerability_data);
     ("created_by_ref", PStr created_by); ("labels", PStrs labels);
     ("interoperability", PBool true)] in
  vulnerability_args ←
    match markings with
    | [] => mret vulnerability_args
    | _ => marking_ids ← handle_tags markings;
           mret (dict_set "object_marking_refs" (PStrs marking_ids) vulnerability_args)
    end;
  vulnerability ← construct Vulnerability vulnerability_args;
  append_object vulnerability true.

(** [handle_person] *)
Definition handle_person (attribute : Attribute) : M unit :=
  if decide (attr_category attribute = "Person") then add_identity attribute
  else add_custom attribute.

(** [handle_usual_type] *)
Definition handle_usual_type (attribute : Attribute) : M unit :=
  try_except
    (if attr_to_ids attribute then add_indicator attribute
     else add_observed_data attribute)
    any_exception
    (add_custom attribute).

(** [handle_link] *)
Definition handle_link (attribute : Attribute) : M unit :=
  modify (fun s => set_links (links s ++ [attribute]) s).

(** [getattr(self, to_call)(attribute)], for the methods that take an
    attribute. *)
Definition call_attribute_method (to_call : string) (attribute : Attribute) : M unit :=
  if decide (to_call = "handle_person") then handle_person attribute
  else if decide (to_call = "handle_usual_type") then handle_usual_type attribute
  else if decide (to_call = "handle_link") then handle_link attribute
  else if decide (to_call = "add_vulnerability") then add_vulnerability attribute
  else if decide (to_call = "add_custom") then add_custom attribute
  else if decide (to_call = "add_identity") then add_identity attribute
  else if decide (to_call = "add_indicator") then add_indicator attribute
  else if decide (to_call = "add_observed_data") then add_observed_data attribute
  else raise AttributeError.

(** *** Objects *)

(** [str(v)] *)
Definition py_str (v : pyval) : string :=
  match v with
  | PStr text => text
  | _ => repr E v
  end.

(** Truth value of a Python value. *)
Definition py_truthy (v : pyval) : bool :=
  match v with
  | PNone => false
  | PBool b => b
  | PInt z => bool_decide (z ≠ 0%Z)
  | PStr text => bool_decide (text ≠ "")
  | PTime _ => true
  | PList l => bool_decide (l ≠ [])
  | PDict d => bool_decide (d ≠ [])
  | PObj _ _ => true
  end.

Definition is_str (text : string) (v : pyval) : bool :=
  match v with
  | PStr text' => bool_decide (text = text')
  | _ => false
  end.

(** A list value, as the code indexes and measures it. *)
Definition as_list (v : pyval) : outcome (list pyval) :=
  match v with
  | PList l => Return l
  | _ => Raise TypeError
  end.

(** [value[0] if len(value) == 1 else value] *)
Definition single_or_list (value : list pyval) : pyval :=
  match value with
  | [v] => v
  | _ => PList value
  end.

(** [fetch_ids_flag] *)
Fixpoint fetch_ids_flag (attributes : list Attribute) : bool :=
  match attributes with
  | [] => false
  | attribute :: rest => if attr_to_ids attribute then true else fetch_ids_flag rest
  end.

(** [fetch_custom_values]; [values] is the [defaultdict(list)] of the loop. *)
Fixpoint fetch_custom_values_from (values : list (string * list pyval))
    (attributes : list Attribute) (object_id : string) : M pydict :=
  match attributes with
  | [] => mret (prod_map id single_or_list <$> values)
  | attribute :: rest =>
      parse_galaxies (attr_Galaxy attribute) object_id;;
      let attribute_type := attr_type attribute +:+ "_" +:+ attr_object_relation attribute in
      fetch_custom_values_from
        (dict_append attribute_type (PStr (attr_value attribute)) values) rest object_id
  end.

Definition fetch_custom_values (attributes : list Attribute) (object_id : string) :
    M pydict :=
  fetch_custom_values_from [] attributes object_id.

(** [add_object_custom]; a dictionary has no attribute [comment], so the
    comment is never copied. *)
Definition add_object_custom (misp_object : MispObject) (to_ids : bool) : M unit :=
  let name := obj_name misp_object in
  let custom_object_id := "x-misp-object-" +:+ name +:+ "--" +:+ obj_uuid misp_object in
  let custom_object_type := "x-misp-object-" +:+ name in
  let category := obj_meta_category misp_object in
  let labels := create_object_labels name category to_ids in
  values ← fetch_custom_values (obj_Attribute misp_object) custom_object_id;
  timestamp ← lift (get_datetime_from_timestamp (obj_timestamp misp_object));
  created_by ← gets identity_id;
  let custom_object_args :=
    [("id", PStr custom_object_id); ("x_misp_values", PDict values);
     ("created", timestamp); ("modified", timestamp); ("labels", PStrs labels);
     ("x_misp_category", match category with Some c => PStr c | None => PNone end);
     ("created_by_ref", PStr created_by)] in
  known ← gets custom_objects;
  custom ← match dict_get custom_object_type known with
           | None =>
               let generated := {| custom_type := custom_object_type;
                                   custom_labels := labels;
                                   custom_markings := [];
                                   custom_from_object := true |} in
               match CustomObject E generated with
               | Some e => raise e
               | None =>
                   modify (fun s =>
                     set_custom_objects
                       (dict_set custom_object_type generated (custom_objects s)) s);;
                   mret generated
               end
           | Some cached => mret cached
           end;
  custom_object ← construct (Custom custom) custom_object_args;
  append_object custom_object true.

(** [_parse_attribute] *)
Definition _parse_attribute (attribute : Attribute) : string :=
  match attr_data attribute with
  | Some data =>
      if bool_decide (attr_type attribute ∈ ["attachment"; "malware-sample"])
      then Str.replace " | " "|" (attr_value attribute) +:+ " | " +:+ data
      else attr_value attribute
  | None => attr_value attribute
  end.

(** [create_file_attributes_dict]; [attributes_dict] is the
    [defaultdict(list)] of the loop. *)
Fixpoint create_file_attributes_dict_from (attributes_dict : list (string * list pyval))
    (attributes : list Attribute) (object_id : string) : M pydict :=
  match attributes with
  | [] =>
      mret ((fun kv : string * list pyval =>
               (kv.1, if bool_decide (kv.1 ∈ ["filename"; "path"; "fullpath"])
                      then PList kv.2 else single_or_list kv.2)) <$> attributes_dict)
  | attribute :: rest =>
      let attributes_dict :=
        dict_append (attr_object_relation attribute) (PStr (_parse_attribute attribute))
          attributes_dict in
      parse_galaxies (attr_Galaxy attribute) object_id;;
      create_file_attributes_dict_from attributes_dict rest object_id
  end.

Definition create_file_attributes_dict (attributes : list Attribute) (object_id : string) :
    M pydict :=
  create_file_attributes_dict_from [] attributes object_id.

(** The dictionary both file builders merge into the attributes read from
    the object. *)
Definition file_paths_update : pydict :=
  [("path", PList [PStr "/home/chrisr3d/git/"]);
   ("fullpath", PList [PStr "/home/chrisr3d/git/MISP/cleanMISP/app/files/scripts/stix2"])].

(** [_handle_multiple_file_fields_observable] *)
Definition _handle_multiple_file_fields_observable (file_observable : pydict)
    (values : list pyval) (feature : string) : outcome pydict :=
  match values with
  | [] => Raise IndexError
  | [v] => Return (dict_set ("x_misp_multiple_" +:+ feature) v file_observable)
  | _ => Return (dict_set ("x_misp_multiple_" +:+ feature +:+ "s") (PList values)
                   file_observable)
  end.

(** [_handle_multiple_file_fields_pattern] *)
Definition _handle_multiple_file_fields_pattern (patterns : list string)
    (values : list pyval) (feature : string) : outcome (list string) :=
  let clause (value : pyval) :=
    "file:" +:+ feature +:+ " = '" +:+ py_str value +:+ "'" in
  match values with
  | [] => Raise IndexError
  | [v] => Return (patterns ++ [clause v])
  | _ => Return (patterns ++ (clause <$> values))
  end.

(** [_create_artifact_observable] *)
Definition _create_artifact_observable (value : pyval) : outcome (pydict * pyval) :=
  let artifact := [("type", PStr "artifact")] in
  match value with
  | PStr text =>
      if Str.contains " | " text then
        match Str.split " | " text with
        | [value'; data] => Return (dict_set "payload_bin" (PStr data) artifact, PStr value')
        | _ => Raise ValueError
        end
      else Return (artifact, value)
  | PList l => if existsb (is_str " | ") l then Raise AttributeError
               else Return (artifact, value)
  | _ => Raise TypeError
  end.

(** [d[outer][inner] = v] on a [defaultdict(dict)] *)
Definition set_nested (outer inner : string) (v : pyval) (d : pydict) : outcome pydict :=
  match dict_get outer d with
  | None => Return (dict_set outer (PDict [(inner, v)]) d)
  | Some (PDict sub) => Return (dict_set outer (PDict (dict_set inner v sub)) d)
  | Some _ => Raise TypeError
  end.

(** The loop of [resolve_file_observable] over [fileMapping.items()]. *)
Fixpoint file_observable_fields (mapping : list (string * string))
    (attributes_dict file_observable : pydict) : outcome pydict :=
  match mapping with
  | [] => Return file_observable
  | (key, feature) :: rest =>
      match dict_get key attributes_dict with
      | Some value =>
          obind (if bool_decide (key ∈ hash_types E)
                 then set_nested "hashes" feature value file_observable
                 else Return (dict_set feature value file_observable))
                (file_observable_fields rest attributes_dict)
      | None => file_observable_fields rest attributes_dict file_observable
      end
  end.

(** [resolve_file_observable], after the attributes were read. *)
Definition file_observable_of (attributes_dict : pydict) : outcome pyval :=
  let observable : pydict := [] in
  let file_observable : pydict := [("type", PStr "file")] in
  let n_object := 0 in
  let attributes_dict := dict_update file_paths_update attributes_dict in
  obind (file_observable_fields (fileMapping E) attributes_dict file_observable)
    (fun file_observable =>
  obind (match dict_get "filename" attributes_dict with
         | Some filename =>
             obind (as_list filename) (fun names =>
               match names with
               | [] => Raise IndexError
               | first :: others =>
                   let file_observable := dict_set "name" first file_observable in
                   match others with
                   | [] => Return file_observable
                   | _ => _handle_multiple_file_fields_observable file_observable others
                            "filename"
                   end
               end)
         | None => Return file_observable
         end) (fun file_observable =>
  obind (match dict_get "path" attributes_dict with
         | Some path =>
             obind (as_list path) (fun paths =>
               match paths with
               | [] => Raise IndexError
               | first :: others =>
                   let observable :=
                     dict_set (Str.of_nat n_object)
                       (PDict [("type", PStr "directory"); ("path", first)]) observable in
                   let file_observable :=
                     dict_set "parent_directory_ref" (PStr (Str.of_nat n_object))
                       file_observable in
                   match others with
                   | [] => Return (observable, file_observable, n_object + 1)
                   | _ => Raise NameError
                   end
               end)
         | None => Return (observable, file_observable, n_object)
         end) (fun '(observable, file_observable, n_object) =>
  obind (match dict_get "fullpath" attributes_dict with
         | Some fullpath =>
             obind (as_list fullpath) (fun fullpaths =>
               if dict_has "parent_directory_ref" file_observable
               then
                 obind (_handle_multiple_file_fields_observable file_observable fullpaths
                          "fullpath")
                   (fun file_observable => Return (observable, file_observable, n_object))
               else
                 match fullpaths with
                 | [] => Raise IndexError
                 | first :: _ =>
                     let observable :=
                       dict_set (Str.of_nat n_object)
                         (PDict [("type", PStr "directory"); ("path", first)]) observable in
                     let file_observable :=
                       dict_set "parent_directory_ref" (PStr (Str.of_nat n_object))
                         file_observable in
                     obind (of_option KeyError (dict_get "path" attributes_dict)) (fun path =>
                     obind (as_list path) (fun paths =>
                       if bool_decide (1 < length paths) then Raise NameError
                       else Return (observable, file_observable, n_object + 1)))
                 end)
         | None => Return (observable, file_observable, n_object)
         end) (fun '(observable, file_observable, n_object) =>
  obind (match dict_get "malware-sample" attributes_dict with
         | Some sample =>
             obind (_create_artifact_observable sample) (fun '(artifact, value) =>
               match value with
               | PStr text =>
                   match Str.split "|" text with
                   | [filename; md5] =>
                       let artifact := dict_set "name" (PStr filename) artifact in
                       let artifact :=
                         dict_set "hashes" (PDict [("MD5", PStr md5)]) artifact in
                       Return (dict_set (Str.of_nat n_object) (PDict artifact) observable,
                               dict_set "content_ref" (PStr (Str.of_nat n_object))
                                 file_observable,
                               n_object + 1)
                   | _ => Raise ValueError
                   end
               | _ => Raise AttributeError
               end)
         | None => Return (observable, file_observable, n_object)
         end) (fun '(observable, file_observable, n_object) =>
  obind (match dict_get "attachment" attributes_dict with
         | Some attachment =>
             obind (_create_artifact_observable attachment) (fun '(artifact, value) =>
               let artifact := dict_set "name" value artifact in
               Return (dict_set (Str.of_nat n_object) (PDict artifact) observable,
                       n_object + 1))
         | None => Return (observable, n_object)
         end) (fun '(observable, n_object) =>
  Return (PDict (dict_set (Str.of_nat n_object) (PDict file_observable) observable)))))))).

(** [resolve_file_observable] *)
Definition resolve_file_observable (attributes : list Attribute) (object_id : string) :
    M pyval :=
  attributes_dict ← create_file_attributes_dict attributes object_id;
  lift (file_observable_of attributes_dict).

(** The loop of [resolve_file_pattern] over [fileMapping.items()]. *)
Fixpoint file_pattern_fields (pattern : string) (mapping : list (string * string))
    (attributes_dict : pydict) (patterns : list string) : outcome (list string) :=
  match mapping with
  | [] => Return patterns
  | (key, feature) :: rest =>
      match dict_get key attributes_dict with
      | Some value =>
          let feature := if bool_decide (key ∈ hash_types E)
                         then "hashes.'" +:+ feature +:+ "'" else feature in
          obind (str_format E pattern [PStr feature; value]) (fun clause =>
            file_pattern_fields pattern rest attributes_dict (patterns ++ [clause]))
      | None => file_pattern_fields pattern rest attributes_dict patterns
      end
  end.

(** The clauses [resolve_file_pattern] adds for [attachment] and
    [malware-sample]. *)
Definition file_payload_clauses (feature pattern_part : string) (attributes_dict : pydict)
    (patterns : list string) : outcome (list string) :=
  match dict_get feature attributes_dict with
  | None => Return patterns
  | Some value =>
      obind (match value with
             | PStr text =>
                 if Str.contains " | " text then
                   match Str.split " | " text with
                   | [value'; data] =>
                       Return (PStr value',
                               patterns ++ [pattern_part +:+ "payload_bin = '" +:+ data +:+ "'"])
                   | _ => Raise ValueError
                   end
                 else Return (value, patterns)
             | PList l => if existsb (is_str " | ") l then Raise AttributeError
                          else Return (value, patterns)
             | _ => Raise TypeError
             end) (fun '(value, patterns) =>
        if decide (feature = "malware-sample") then
          match value with
          | PStr text =>
              match Str.split "|" text with
              | [value'; md5] =>
                  Return (patterns ++ [pattern_part +:+ "hashes.'MD5' = '" +:+ md5 +:+ "'";
                                       pattern_part +:+ "name = '" +:+ value' +:+ "'"])
              | _ => Raise ValueError
              end
          | _ => Raise AttributeError
          end
        else
          Return (patterns ++ [pattern_part +:+ "x_misp_text_name = '" +:+ py_str value +:+ "'"]))
  end.

(** [resolve_file_pattern], after the attributes were read. *)
Definition file_pattern_of (pattern : string) (attributes_dict : pydict) :
    outcome (list string) :=
  let attributes_dict := dict_update file_paths_update attributes_dict in
  obind (file_pattern_fields pattern (fileMapping E) attributes_dict []) (fun patterns =>
  obind (match dict_get "filename" attributes_dict with
         | Some filename =>
             obind (as_list filename) (fun names =>
               _handle_multiple_file_fields_pattern patterns names "name")
         | None => Return patterns
         end) (fun patterns =>
  obind (match dict_get "path" attributes_dict with
         | Some path =>
             obind (as_list path) (fun paths =>
               _handle_multiple_file_fields_pattern patterns paths
                 "parent_directory_ref.path")
         | None => Return patterns
         end) (fun patterns =>
  obind (match dict_get "fullpath" attributes_dict with
         | Some fullpath =>
             obind (as_list fullpath) (fun fullpaths =>
               _handle_multiple_file_fields_pattern patterns fullpaths
                 "parent_directory_ref.path")
         | None => Return patterns
         end) (fun patterns =>
  obind (file_payload_clauses "attachment" "artifact:" attributes_dict patterns)
    (file_payload_clauses "malware-sample" "file:content_ref." attributes_dict))))).

(** [objectsMapping[name]['pattern']] *)
Definition objects_pattern (name : string) : outcome string :=
  of_option KeyError (objectsMapping E name ≫= object_pattern).

(** [resolve_file_pattern] *)
Definition resolve_file_pattern (attributes : list Attribute) (object_id : string) :
    M (list string) :=
  pattern ← lift (objects_pattern "file");
  attributes_dict ← create_file_attributes_dict attributes object_id;
  lift (file_pattern_of pattern attributes_dict).

(** [resolve_stix2_pattern] *)
Fixpoint resolve_stix2_pattern (attributes : list Attribute) (_ : string) : pyval :=
  match attributes with
  | [] => PNone
  | attribute :: rest =>
      if decide (attr_object_relation attribute = "stix2-pattern")
      then PStr (attr_value attribute)
      else resolve_stix2_pattern rest ""
  end.

(** [getattr(self, method)(attributes, object_id)], for the builders named by
    [objects_mapping]. *)
Definition call_builder (method : string) (attributes : list Attribute)
    (object_id : string) : M pyval :=
  if decide (method = "resolve_file_observable")
  then resolve_file_observable attributes object_id
  else if decide (method = "resolve_file_pattern")
  then patterns ← resolve_file_pattern attributes object_id; mret (PStrs patterns)
  else if decide (method = "resolve_stix2_pattern")
  then mret (resolve_stix2_pattern attributes object_id)
  else match resolve_method E method with
       | Some builder => builder attributes object_id
       | None => raise AttributeError
       end.

(** [self.objects_mapping[name][kind]] *)
Definition objects_mapping_lookup (name kind : string) : outcome string :=
  of_option KeyError (dict_get name objects_mapping ≫= dict_get kind).

(** The characters of a string, as iterating over it yields them. *)
Definition chars (text : string) : list string := (Str.scan text).*2.

Fixpoint strings_of (l : list pyval) : outcome (list string) :=
  match l with
  | [] => Return []
  | PStr text :: rest => obind (strings_of rest) (fun texts => Return (text :: texts))
  | _ => Raise TypeError
  end.

(** [sep.join(v)] on what a builder returned. *)
Definition join_value (sep : string) (v : pyval) : outcome string :=
  match v with
  | PList l => obind (strings_of l) (fun texts => Return (Str.join sep texts))
  | PStr text => Return (Str.join sep (chars text))
  | PDict d => Return (Str.join sep (dict_keys d))
  | _ => Raise TypeError
  end.

(** [add_object_indicator] *)
Definition add_object_indicator (misp_object : MispObject) (pattern_arg : option string) :
    M unit :=
  let indicator_id := "indicator--" +:+ obj_uuid misp_object in
  '(name, pattern) ←
    (if truthy pattern_arg then mret ("WindowsPEBinaryFile", default "" pattern_arg)
     else
       let name := obj_name misp_object in
       method ← lift (objects_mapping_lookup name "pattern");
       clauses ← call_builder method (obj_Attribute misp_object) indicator_id;
       joined ← lift (join_value " AND " clauses);
       mret (name, "[" +:+ joined +:+ "]"));
  let category := obj_meta_category misp_object in
  let killchain := create_killchain category in
  let labels := create_object_labels name category true in
  timestamp ← lift (get_datetime_from_timestamp (obj_timestamp misp_object));
  created_by ← gets identity_id;
  let indicator_args :=
    [("id", PStr indicator_id); ("type", PStr "indicator"); ("labels", PStrs labels);
     ("pattern", PStr pattern); ("description", PStr (obj_description misp_object));
     ("allow_custom", PBool true); ("kill_chain_phases", killchain);
     ("interoperability", PBool true); ("created_by_ref", PStr created_by)] in
  time_fields ← lift (handle_time_fields (obj_first_seen misp_object)
                        (obj_last_seen misp_object) timestamp "indicator");
  indicator ← construct Indicator (dict_update time_fields indicator_args);
  append_object indicator true.

(** [del d[k]] *)
Definition dict_remove {V} (k : string) (d : list (string * V)) : list (string * V) :=
  filter (fun kv => kv.1 ≠ k) d.

(** The key of the first node of type [network-traffic]. *)
Fixpoint find_network_traffic (objects : pydict) : outcome (option string) :=
  match objects with
  | [] => Return None
  | (index, PDict observable_object) :: rest =>
      match dict_get "type" observable_object with
      | Some type => if is_str "network-traffic" type then Return (Some index)
                     else find_network_traffic rest
      | None => Raise KeyError
      end
  | _ => Raise TypeError
  end.

Definition allowed_in (allowed : list string) (v : pyval) : bool :=
  match v with
  | PStr text => bool_decide (text ∈ allowed)
  | _ => false
  end.

(** The repair [fix_enumeration_issues] applies to a socket extension. *)
Definition fix_socket_extension (extension : pydict) : outcome pydict :=
  obind
    (let feature := "address_family" in
     match dict_get feature extension with
     | None => Return (dict_set feature (PStr "AF_UNSPEC") extension)
     | Some family =>
         obind (of_option NameError (SocketExt_allowed E)) (fun allowed =>
           if allowed_in (allowed feature) family then Return extension
           else Return (dict_set feature (PStr "AF_UNSPEC")
                          (dict_set ("x_misp_text_" +:+ feature) family extension)))
     end)
    (fun extension =>
       let feature := "protocol_family" in
       match dict_get feature extension with
       | None => Return extension
       | Some family =>
           obind (of_option NameError (SocketExt_allowed E)) (fun allowed =>
             if allowed_in (allowed feature) family then Return extension
             else Return (dict_set "x_misp_text_domain_family" family
                            (dict_remove feature extension)))
       end).

(** [d[k]] on a value that has to be a dictionary. *)
Definition subscript (k : string) (v : pyval) : outcome pyval :=
  match v with
  | PDict d => of_option KeyError (dict_get k d)
  | _ => Raise TypeError
  end.

Definition as_dict (v : pyval) : outcome pydict :=
  match v with
  | PDict d => Return d
  | _ => Raise TypeError
  end.

(** [fix_enumeration_issues] *)
Definition fix_enumeration_issues (name : string) (args : pydict) : M stix_object :=
  if decide (name = "network-socket") then
    socket_args ←
      lift (obind (of_option KeyError (dict_get "objects" args)) (fun objects =>
            obind (as_dict objects) (fun nodes =>
            obind (find_network_traffic nodes) (fun n =>
              match n with
              | None => Return args
              | Some n =>
                  obind (of_option KeyError (dict_get n nodes)) (fun node =>
                  obind (subscript "extensions" node) (fun extensions =>
                  obind (subscript "socket-ext" extensions) (fun extension =>
                  obind (as_dict extension) (fun extension =>
                  obind (fix_socket_extension extension) (fun extension =>
                  obind (as_dict extensions) (fun extensions =>
                  obind (as_dict node) (fun node =>
                    Return (dict_set "objects"
                      (PDict (dict_set n
                        (PDict (dict_set "extensions"
                          (PDict (dict_set "socket-ext" (PDict extension) extensions))
                          node)) nodes)) args))))))))
              end))));
    construct ObservedData socket_args
  else construct ObservedData args.

(** [add_object_observable] *)
Definition add_object_observable (misp_object : MispObject) (observable_arg : option pyval) :
    M unit :=
  let observed_data_id := "observed-data--" +:+ obj_uuid misp_object in
  '(name, observable_objects) ←
    (if py_truthy (default PNone observable_arg)
     then mret ("WindowsPEBinaryFile", default PNone observable_arg)
     else
       let name := obj_name misp_object in
       method ← lift (objects_mapping_lookup name "observable");
       observable_objects ← call_builder method (obj_Attribute misp_object) observed_data_id;
       mret (name, observable_objects));
  let category := obj_meta_category misp_object in
  let labels := create_object_labels name category false in
  timestamp ← lift (get_datetime_from_timestamp (obj_timestamp misp_object));
  created_by ← gets identity_id;
  let observed_data_args :=
    [("id", PStr observed_data_id); ("type", PStr "observed-data"); ("labels", PStrs labels);
     ("number_observed", PInt 1); ("objects", observable_objects);
     ("allow_custom", PBool true); ("created_by_ref", PStr created_by);
     ("interoperability", PBool true)] in
  time_fields ← lift (handle_time_fields (obj_first_seen misp_object)
                        (obj_last_seen misp_object) timestamp "observed-data");
  let observed_data_args := dict_update time_fields observed_data_args in
  observed_data ← try_except (construct ObservedData observed_data_args)
                     (only InvalidValueError)
                     (fix_enumeration_issues name observed_data_args);
  append_object observed_data true.

(** [self.objects_to_parse[name]], a [defaultdict(dict)]: reading a missing
    name stores an empty dictionary under it. *)
Definition held (name : string) : M (list (string * (bool * MispObject))) :=
  table ← gets objects_to_parse;
  match dict_get name table with
  | Some entries => mret entries
  | None =>
      modify (fun s => set_objects_to_parse (dict_set name [] (objects_to_parse s)) s);;
      mret []
  end.

(** [self.objects_to_parse[name][uuid] = to_ids, misp_object] *)
Definition hold (name uuid : string) (to_ids : bool) (misp_object : MispObject) : M unit :=
  entries ← held name;
  modify (fun s =>
    set_objects_to_parse
      (dict_set name (dict_set uuid (to_ids, misp_object) entries) (objects_to_parse s)) s).

Definition links_pe (reference : ObjectReference) : bool :=
  bool_decide (relationship_type reference ∈ ["includes"; "included-in"])
  && bool_decide (ref_Object_name reference = "pe").

(** [handle_usual_object_name] *)
Definition handle_usual_object_name (misp_object : MispObject) (to_ids : bool) : M unit :=
  let name := obj_name misp_object in
  if bool_decide (name = "file") && existsb links_pe (obj_ObjectReference misp_object)
  then hold name (obj_uuid misp_object) to_ids misp_object
  else
    try_except
      (if to_ids || bool_decide (name = "stix2-pattern")
       then add_object_indicator misp_object None
       else add_object_observable misp_object None)
      any_exception
      (add_object_custom misp_object to_ids).

(** [populate_objects_to_parse] *)
Definition populate_objects_to_parse (misp_object : MispObject) (to_ids : bool) : M unit :=
  hold (obj_name misp_object) (obj_uuid misp_object) to_ids misp_object.

(** [_parse_attack_pattern_reference] *)
Definition _parse_attack_pattern_reference (attribute : Attribute) : outcome pyval :=
  let object_relation := attr_object_relation attribute in
  obind (of_option KeyError (attack_pattern_reference_mapping E object_relation))
    (fun '(source_name, key) =>
       let value := attr_value attribute in
       let value := if bool_decide (object_relation = "id") && negb (Str.contains "CAPEC" value)
                    then "CAPEC-" +:+ value else value in
       Return (PDict (dict_set key (PStr value) [("source_name", PStr source_name)]))).

(** [parse_attack_pattern_fields] *)
Fixpoint parse_attack_pattern_fields_from (attack_pattern : pydict)
    (weaknesses references : list pyval) (attributes : list Attribute) : outcome pydict :=
  match attributes with
  | [] =>
      let attack_pattern :=
        match references with
        | [] => attack_pattern
        | _ => dict_set "external_references" (PList references) attack_pattern
        end in
      Return match weaknesses with
             | [] => attack_pattern
             | _ => dict_set "x_misp_weakness_related_weakness" (single_or_list weaknesses)
                      attack_pattern
             end
  | attribute :: rest =>
      let relation := attr_object_relation attribute in
      match attackPatternObjectMapping E relation with
      | Some field =>
          parse_attack_pattern_fields_from
            (dict_set field (PStr (attr_value attribute)) attack_pattern)
            weaknesses references rest
      | None =>
          if bool_decide (relation ∈ ["id"; "references"]) then
            obind (_parse_attack_pattern_reference attribute) (fun reference =>
              parse_attack_pattern_fields_from attack_pattern weaknesses
                (references ++ [reference]) rest)
          else if decide (relation = "related-weakness") then
            parse_attack_pattern_fields_from attack_pattern
              (weaknesses ++ [PStr (attr_value attribute)]) references rest
          else
            parse_attack_pattern_fields_from
              (dict_set "allow_custom" (PBool true)
                 (dict_set ("x_misp_" +:+ attr_type attribute +:+ "_"
                            +:+ Str.replace "-" "_" relation)
                    (PStr (attr_value attribute)) attack_pattern))
              weaknesses references rest
      end
  end.

Definition parse_attack_pattern_fields (attributes : list Attribute) : outcome pydict :=
  parse_attack_pattern_fields_from [] [] [] attributes.

(** [add_attack_pattern_object] *)
Definition add_attack_pattern_object (misp_object : MispObject) (to_ids : bool) : M unit :=
  created_by ← gets identity_id;
  let attack_pattern_args :=
    [("id", PStr ("attack-pattern--" +:+ obj_uuid misp_object));
     ("type", PStr "attack-pattern"); ("created_by_ref", PStr created_by);
     ("interoperability", PBool true)] in
  fields ← lift (parse_attack_pattern_fields (obj_Attribute misp_object));
  let attack_pattern_args := dict_update fields attack_pattern_args in
  category ← lift (of_option KeyError (obj_meta_category misp_object));
  let attack_pattern_args :=
    dict_set "labels"
      (PStrs (create_object_labels (obj_name misp_object) (Some category) to_ids))
      attack_pattern_args in
  attack_pattern ← construct AttackPattern attack_pattern_args;
  append_object attack_pattern true.

(** The loop of [add_course_of_action_from_object]. *)
Fixpoint course_of_action_fields (coa_id : string) (coa_args : pydict)
    (attributes : list Attribute) : M pydict :=
  match attributes with
  | [] => mret coa_args
  | attribute :: rest =>
      parse_galaxies (attr_Galaxy attribute) coa_id;;
      let relation := attr_object_relation attribute in
      let key := if bool_decide (relation ∈ ["name"; "description"]) then relation
                 else "x_misp_" +:+ attr_type attribute +:+ "_" +:+ relation in
      course_of_action_fields coa_id (dict_set key (PStr (attr_value attribute)) coa_args) rest
  end.

(** [add_course_of_action_from_object] *)
Definition add_course_of_action_from_object (misp_object : MispObject) (to_ids : bool) :
    M unit :=
  let coa_id := "course-of-action--" +:+ obj_uuid misp_object in
  created_by ← gets identity_id;
  let coa_args := [("id", PStr coa_id); ("type", PStr "course-of-action");
                   ("created_by_ref", PStr created_by)] in
  category ← lift (of_option KeyError (obj_meta_category misp_object));
  let coa_args :=
    dict_set "labels"
      (PStrs (create_object_labels (obj_name misp_object) (Some category) to_ids)) coa_args in
  coa_args ← course_of_action_fields coa_id coa_args (obj_Attribute misp_object);
  if dict_has "name" coa_args then add_coa_stix_object coa_args else mret tt.

(** [parse_vulnerability_fields] *)
Fixpoint parse_vulnerability_fields_from (vulnerability : pydict) (references : list pyval)
    (custom_args : list (string * list pyval)) (attributes : list Attribute) : pydict :=
  match attributes with
  | [] =>
      let references :=
        match dict_get "name" vulnerability with
        | Some name => references ++ [PDict [("source_name", PStr "cve"); ("external_id", name)]]
        | None => references
        end in
      let vulnerability :=
        match references with
        | [] => vulnerability
        | _ => dict_set "external_references" (PList references) vulnerability
        end in
      dict_update (prod_map id single_or_list <$> custom_args) vulnerability
  | attribute :: rest =>
      let relation := attr_object_relation attribute in
      match vulnerabilityMapping E relation with
      | Some field =>
          parse_vulnerability_fields_from
            (dict_set field (PStr (attr_value attribute)) vulnerability)
            references custom_args rest
      | None =>
          if decide (relation = "references") then
            parse_vulnerability_fields_from vulnerability
              (references ++ [PDict [("source_name", PStr "url");
                                     ("url", PStr (attr_value attribute))]])
              custom_args rest
          else
            parse_vulnerability_fields_from
              (dict_set "allow_custom" (PBool true) vulnerability) references
              (dict_append ("x_misp_" +:+ attr_type attribute +:+ "_"
                            +:+ Str.replace "-" "_" relation)
                 (PStr (attr_value attribute)) custom_args)
              rest
      end
  end.

Definition parse_vulnerability_fields (attributes : list Attribute) : pydict :=
  parse_vulnerability_fields_from [] [] [] attributes.

(** [add_object_vulnerability] *)
Definition add_object_vulnerability (misp_object : MispObject) (to_ids : bool) : M unit :=
  let vulnerability_id := "vulnerability--" +:+ obj_uuid misp_object in
  created_by ← gets identity_id;
  let vulnerability_args :=
    [("id", PStr vulnerability_id); ("type", PStr "vulnerability");
     ("created_by_ref", PStr created_by); ("interoperability", PBool true)] in
  let vulnerability_args :=
    dict_update (parse_vulnerability_fields (obj_Attribute misp_object)) vulnerability_args in
  category ← lift (of_option KeyError (obj_meta_category misp_object));
  let vulnerability_args :=
    dict_set "labels"
      (PStrs (create_object_labels (obj_name misp_object) (Some category) to_ids))
      vulnerability_args in
  vulnerability ← construct Vulnerability vulnerability_args;
  append_object vulnerability true.

(** [getattr(self, to_call)(misp_object, to_ids)], for the methods that take
    an object and its flag. *)
Definition call_object_method (to_call : string) (misp_object : MispObject) (to_ids : bool) :
    M unit :=
  if decide (to_call = "handle_usual_object_name")
  then handle_usual_object_name misp_object to_ids
  else if decide (to_call = "populate_objects_to_parse")
  then populate_objects_to_parse misp_object to_ids
  else if decide (to_call = "add_attack_pattern_object")
  then add_attack_pattern_object misp_object to_ids
  else if decide (to_call = "add_course_of_action_from_object")
  then add_course_of_action_from_object misp_object to_ids
  else if decide (to_call = "add_object_vulnerability")
  then add_object_vulnerability misp_object to_ids
  else if decide (to_call = "add_object_custom")
  then add_object_custom misp_object to_ids
  else raise AttributeError.

(** *** The file, pe and pe-section family *)

(** [_create_pe_type_test]: the two tests, both evaluated. *)
Definition _create_pe_type_test (observable : pydict) (extension : string) :
    outcome (bool * bool) :=
  obind (match dict_get "name" observable with
         | Some (PStr name) => Return (Str.endswith ("." +:+ extension) name)
         | Some _ => Raise AttributeError
         | None => Return false
         end) (fun by_name =>
  obind (match dict_get "mime_type" observable with
         | Some (PStr mime_type) =>
             Return (re_match E (".* .+" +:+ extension +:+ ".+ .*|.* " +:+ extension +:+ " .*")
                       (Str.lower mime_type))
         | Some _ => Raise AttributeError
         | None => Return false
         end) (fun by_mime_type => Return (by_name, by_mime_type))).

(** [_get_pe_type_from_filename] *)
Definition _get_pe_type_from_filename (observable : pydict) : outcome string :=
  obind (_create_pe_type_test observable "exe") (fun '(a, b) =>
    if a || b then Return "exe"
    else obind (_create_pe_type_test observable "dll") (fun '(a, b) =>
           if a || b then Return "dll" else Return "sys")).

(** [_fetch_file_observable] *)
Fixpoint _fetch_file_observable (observable_objects : pydict) : outcome string :=
  match observable_objects with
  | [] => Return "0"
  | (key, observable) :: rest =>
      obind (subscript "type" observable) (fun type =>
        if is_str "file" type then Return key else _fetch_file_observable rest)
  end.

(** The key a [pe] attribute is stored under. *)
Definition pe_field (attribute : Attribute) : string :=
  match peMapping E (attr_object_relation attribute) with
  | Some field => field
  | None => "x_misp_" +:+ attr_type attribute +:+ "_"
            +:+ Str.replace "-" "_" (attr_object_relation attribute)
  end.

(** The fields of one section of [parse_pe_extensions_observable]. *)
Fixpoint pe_section_fields (d_section : pydict) (attributes : list Attribute) :
    outcome pydict :=
  match attributes with
  | [] => Return d_section
  | attribute :: rest =>
      let relation := attr_object_relation attribute in
      if bool_decide (relation ∈ misp_hash_types) then
        obind (set_nested "hashes" relation (PStr (attr_value attribute)) d_section)
          (fun d_section => pe_section_fields d_section rest)
      else
        match peSectionMapping E relation with
        | Some field =>
            pe_section_fields (dict_set field (PStr (attr_value attribute)) d_section) rest
        | None => pe_section_fields d_section rest
        end
  end.

(** [sections.index(section)] *)
Definition index_of (section : MispObject) (sections : list MispObject) : nat :=
  default 0 (fst <$> list_find (fun other => other = section) sections).

(** [extension['sections'].append(v)] on a [defaultdict(list)] *)
Definition append_section (v : pyval) (extension : pydict) : outcome pydict :=
  match dict_get "sections" extension with
  | None => Return (dict_set "sections" (PList [v]) extension)
  | Some (PList l) => Return (dict_set "sections" (PList (l ++ [v])) extension)
  | Some _ => Raise AttributeError
  end.

(** The loop of [parse_pe_extensions_observable] over the sections;
    [sections] is the whole list, [todo] what is left of it. *)
Fixpoint pe_sections_observable (sections todo : list MispObject) (extension : pydict) :
    outcome pydict :=
  match todo with
  | [] => Return extension
  | section :: rest =>
      obind (pe_section_fields [] (obj_Attribute section)) (fun d_section =>
        let d_section :=
          if dict_has "name" d_section then d_section
          else dict_set "name" (PStr ("Section " +:+ Str.of_nat (index_of section sections)))
                 d_section in
        match validate E WindowsPESection d_section with
        | Some e => Raise e
        | None =>
            obind (append_section (PObj WindowsPESection d_section) extension)
              (pe_sections_observable sections rest)
        end)
  end.

(** [int(extension['number_of_sections'])], on a [defaultdict(list)] whose
    values are strings and lists. *)
Definition declared_number_of_sections (extension : pydict) : outcome Z :=
  match dict_get "number_of_sections" extension with
  | Some (PStr text) => of_option ValueError (Str.to_int text)
  | _ => Raise TypeError
  end.

(** [parse_pe_extensions_observable] *)
Definition parse_pe_extensions_observable (pe_object : MispObject)
    (sections : list MispObject) (pe_type : string) : outcome pyval :=
  let extension : pydict := [("pe_type", PStr pe_type)] in
  let extension :=
    foldl (fun extension attribute =>
             dict_set (pe_field attribute) (PStr (attr_value attribute)) extension)
      extension (obj_Attribute pe_object) in
  obind (pe_sections_observable sections sections extension) (fun extension =>
  obind (declared_number_of_sections extension) (fun declared =>
    let extension :=
      if bool_decide (Z.of_nat (length sections) ≠ declared)
      then dict_set "number_of_sections" (PStr (Str.of_nat (length sections))) extension
      else extension in
    Return (PDict [("windows-pebinary-ext", PDict extension)]))).

Definition pe_mapping : string := "extensions.'windows-pebinary-ext'".

(** The clauses of [parse_pe_extensions_pattern] for the [pe] object. *)
Fixpoint pe_pattern_fields (mapping : string) (attributes : list Attribute)
    (pattern : list string) : outcome (list string) :=
  match attributes with
  | [] => Return pattern
  | attribute :: rest =>
      let stix_type := pe_mapping +:+ "." +:+ pe_field attribute in
      obind (str_format E mapping [PStr stix_type; PStr (attr_value attribute)])
        (fun clause => pe_pattern_fields mapping rest (pattern ++ [clause]))
  end.

(** The clauses of one section. *)
Fixpoint pe_section_pattern (mapping section_mapping : string)
    (attributes : list Attribute) (pattern : list string) : outcome (list string) :=
  match attributes with
  | [] => Return pattern
  | attribute :: rest =>
      let relation := attr_object_relation attribute in
      let stix_type :=
        if bool_decide (relation ∈ misp_hash_types)
        then Some (section_mapping +:+ ".hashes.'" +:+ relation +:+ "'")
        else (fun field => section_mapping +:+ "." +:+ field) <$> peSectionMapping E relation in
      match stix_type with
      | Some stix_type =>
          obind (str_format E mapping [PStr stix_type; PStr (attr_value attribute)])
            (fun clause => pe_section_pattern mapping section_mapping rest (pattern ++ [clause]))
      | None => pe_section_pattern mapping section_mapping rest pattern
      end
  end.

Fixpoint pe_sections_pattern (mapping : string) (n_section : nat)
    (sections : list MispObject) (pattern : list string) : outcome (list string) :=
  match sections with
  | [] => Return pattern
  | section :: rest =>
      let section_mapping := pe_mapping +:+ ".sections[" +:+ Str.of_nat n_section +:+ "]" in
      obind (pe_section_pattern mapping section_mapping (obj_Attribute section) pattern)
        (pe_sections_pattern mapping (n_section + 1) rest)
  end.

(** [parse_pe_extensions_pattern] *)
Definition parse_pe_extensions_pattern (pe_object : MispObject)
    (sections : list MispObject) : outcome (list string) :=
  obind (objects_pattern "file") (fun mapping =>
  obind (pe_pattern_fields mapping (obj_Attribute pe_object) [])
    (pe_sections_pattern mapping 0 sections)).

(** The second loop of [resolve_objects2parse]: the sections a [pe] object
    refers to, with their flags. *)
Fixpoint resolve_sections (references : list ObjectReference) (to_ids_list : list bool)
    (sections : list MispObject) : M (list bool * list MispObject) :=
  match references with
  | [] => mret (to_ids_list, sections)
  | reference :: rest =>
      if bool_decide (ref_Object_name reference = "pe-section") then
        entries ← held "pe-section";
        match dict_get (referenced_uuid reference) entries with
        | Some (to_ids_section, section_object) =>
            resolve_sections rest (to_ids_list ++ [to_ids_section])
              (sections ++ [section_object])
        | None => resolve_sections rest to_ids_list sections
        end
      else resolve_sections rest to_ids_list sections
  end.

(** One turn of the loop of [resolve_objects2parse].  [pe_uuid] is the local
    variable of that name, which keeps its value from one turn to the next. *)
Definition resolve_file_object (pe_uuid : option string) (to_ids_file : bool)
    (file_object : MispObject) : M (option string) :=
  let file_id := "file--" +:+ obj_uuid file_object in
  let to_ids_list := [to_ids_file] in
  let pe_uuid :=
    match list_find (fun r => links_pe r = true) (obj_ObjectReference file_object) with
    | Some (_, reference) => Some (referenced_uuid reference)
    | None => pe_uuid
    end in
  pe_key ← lift (of_option NameError pe_uuid);
  pes ← held "pe";
  '(to_ids_pe, pe_object) ← lift (of_option KeyError (dict_get pe_key pes));
  let to_ids_list := to_ids_list ++ [to_ids_pe] in
  '(to_ids_list, sections) ← resolve_sections (obj_ObjectReference pe_object) to_ids_list [];
  (if bool_decide (true ∈ to_ids_list) then
     patterns ← resolve_file_pattern (obj_Attribute file_object) file_id;
     extension ← lift (parse_pe_extensions_pattern pe_object sections);
     add_object_indicator file_object
       (Some ("[" +:+ Str.join " AND " (patterns ++ extension) +:+ "]"))
   else
     observable ← resolve_file_observable (obj_Attribute file_object) file_id;
     nodes ← lift (as_dict observable);
     key ← lift (match nodes with
                 | [_] => Return "0"
                 | _ => _fetch_file_observable nodes
                 end);
     node ← lift (obind (of_option KeyError (dict_get key nodes)) as_dict);
     pe_type ← lift (_get_pe_type_from_filename node);
     extensions ← lift (parse_pe_extensions_observable pe_object sections pe_type);
     add_object_observable file_object
       (Some (PDict (dict_set key (PDict (dict_set "extensions" extensions node)) nodes))));;
  mret pe_uuid.

Fixpoint resolve_file_objects (pe_uuid : option string)
    (files : list (string * (bool * MispObject))) : M unit :=
  match files with
  | [] => mret tt
  | (_, (to_ids_file, file_object)) :: rest =>
      pe_uuid ← resolve_file_object pe_uuid to_ids_file file_object;
      resolve_file_objects pe_uuid rest
  end.

(** [resolve_objects2parse] *)
Definition resolve_objects2parse : M unit :=
  files ← held "file";
  resolve_file_objects None files.

(** *** Markings, relationships and the report *)

(** [add_all_markings] *)
Definition add_all_markings : M unit :=
  known ← gets markings;
  for_each (dict_values known) (fun marking => append_object marking true).

(** [Relationship(source_ref=..., target_ref=..., relationship_type=...,
    interoperability=True)]; stix2 draws the identifier. *)
Definition new_relationship (source target relation : string) : M stix_object :=
  let args := [("source_ref", PStr source); ("target_ref", PStr target);
               ("relationship_type", PStr relation); ("interoperability", PBool true)] in
  match validate E Relationship args with
  | Some e => raise e
  | None =>
      u ← fresh_uuid;
      mret {| cls := Relationship; kwargs := args ++ [("id", PStr ("relationship--" +:+ u))] |}
  end.

(** [relationshipsSpecifications[source_type][target_type]], or ["has"]. *)
Definition relation_between (source_type target_type : string) : string :=
  default "has" (relationshipsSpecifications E source_type ≫= fun row => row target_type).

(** The first loop of [add_all_relationships], for one source. *)
Definition add_defined_relationships (source : string) (targets : list string) : M unit :=
  if Str.startswith "report" source then mret tt
  else
    match Str.split "--" source with
    | [source_type; _] =>
        for_each targets (fun target =>
          match Str.split "--" target with
          | [target_type; _] =>
              relationship ← new_relationship source target
                               (relation_between source_type target_type);
              append_object relationship false
          | _ => raise ValueError
          end)
    | _ => raise ValueError
    end.

(** The second loop of [add_all_relationships], for one reference of one
    source object. *)
Definition add_to_define_relationship (source_uuid : string)
    (reference : string * string) : M unit :=
  let '(target_uuid, relationship_type) := reference in
  registry ← gets ids;
  match registry !! source_uuid, registry !! target_uuid with
  | Some source_type, Some target_type =>
      let source := source_type +:+ "--" +:+ source_uuid in
      let target := target_type +:+ "--" +:+ target_uuid in
      relationship ← new_relationship source target (Str.strip relationship_type);
      append_object relationship false
  | _, _ => mret tt
  end.

(** The first loop of [add_all_relationships]. *)
Definition add_defined_edges : M unit :=
  defined_edges ← gets defined;
  for_each defined_edges (fun '(source, targets) =>
    add_defined_relationships source targets).

(** The second loop of [add_all_relationships]. *)
Definition add_to_define_edges : M unit :=
  to_define_edges ← gets to_define;
  for_each to_define_edges (fun '(source_uuid, references) =>
    for_each references (add_to_define_relationship source_uuid)).

(** [add_all_relationships] *)
Definition add_all_relationships : M unit :=
  add_defined_edges;;
  add_to_define_edges.

(** [__parse_link] *)
Definition __parse_link (link : Attribute) : pyval :=
  let url := attr_value link in
  let source := if bool_decide (attr_comment link ≠ "")
                then "url - " +:+ attr_comment link else "url" in
  PDict [("source_name", PStr source); ("url", PStr url)].

(** [eventReport] *)
Definition eventReport : M stix_object :=
  refs ← gets object_refs;
  pending ← gets links;
  match refs, pending with
  | [], link :: rest => modify (set_links rest);; add_custom link
  | _, _ => mret tt
  end;;
  pending ← gets links;
  let external_refs := __parse_link <$> pending in
  event ← get_misp_event;
  id ← gets report_id;
  created_by ← gets identity_id;
  published ← lift (get_datetime_from_timestamp (event_publish_timestamp event));
  modified ← lift (get_datetime_from_timestamp (event_timestamp event));
  let report_args :=
    [("type", PStr "report"); ("id", PStr id); ("name", PStr (event_info event));
     ("created_by_ref", PStr created_by); ("created", PStr (event_date event));
     ("published", published); ("modified", modified); ("interoperability", PBool true)] in
  let '(labels, markings) := split_tags (event_Tag event) _MISP_event_tags [] in
  report_args ←
    match markings with
    | [] => mret report_args
    | _ => marking_ids ← handle_tags markings;
           mret (dict_set "object_marking_refs" (PStrs marking_ids) report_args)
    end;
  let report_args := dict_set "labels" (PStrs labels) report_args in
  let report_args :=
    match external_refs with
    | [] => report_args
    | _ => dict_set "external_references" (PList external_refs) report_args
    end in
  add_all_markings;;
  add_all_relationships;;
  refs ← gets object_refs;
  construct Report (dict_set "object_refs" (PStrs refs) report_args).

(** [__set_identity] *)
Definition __set_identity : M nat :=
  event ← get_misp_event;
  let org := event_Orgc event in
  let org_uuid := org_uuid org in
  let identity_id := "identity--" +:+ org_uuid in
  modify (set_identity_id identity_id);;
  known ← gets orgs;
  if bool_decide (org_uuid ∈ known) then mret 0
  else
    identity ← construct Identity
      [("type", PStr "identity"); ("id", PStr identity_id); ("name", PStr (org_name org));
       ("identity_class", PStr "organization"); ("interoperability", PBool true)];
    modify (fun s => set_SDOs (SDOs s ++ [identity]) s);;
    modify (fun s => set_orgs (orgs s ++ [org_uuid]) s);;
    mret 1.

(** *** The event handler *)

(** The body of the loop of [handler] over the attributes. *)
Definition handle_attribute (attribute : Attribute) : M unit :=
  try_except
    (to_call ← lift (types_lookup (attr_type attribute) to_call);
     call_attribute_method to_call attribute)
    (only KeyError)
    (add_custom attribute).

(** [objectsMapping[name]['to_call']] *)
Definition objects_to_call (name : string) : outcome string :=
  of_option KeyError (objectsMapping E name ≫= object_to_call).

(** The body of the loop of [handler] over the objects. *)
Definition handle_object (misp_object : MispObject) : M unit :=
  let name := obj_name misp_object in
  if decide (name = "original-imported-file") then mret tt
  else
    let to_ids := fetch_ids_flag (obj_Attribute misp_object) in
    try_except
      (to_call ← lift (objects_to_call name);
       call_object_method to_call misp_object to_ids)
      (only KeyError)
      (add_object_custom misp_object to_ids);;
    match obj_ObjectReference misp_object with
    | [] => mret tt
    | references =>
        modify (fun s =>
          set_to_define
            (dict_set (obj_uuid misp_object)
               ((fun r => (referenced_uuid r, relationship_type r)) <$> references)
               (to_define s)) s)
    end.

(** The assignments [handler] starts with. *)
Definition handler_begin (event : Event) : M unit :=
  modify (set_misp_event (Some event));;
  modify (set_report_id ("report--" +:+ event_uuid event));;
  modify (set_SDOs []);;
  modify (set_object_refs []);;
  modify (set_links []);;
  modify (set_markings []);;
  modify (fun s => set_to_define [] (set_defined [] s)).

(** [self.SDOs.insert(i, report)] *)
Definition list_insert_at {A} (i : nat) (x : A) (l : list A) : list A :=
  take i l ++ x :: drop i l.

(** [handler] *)
Definition handler (event : Event) : M (list stix_object) :=
  handler_begin event;;
  i ← __set_identity;
  match event_Attribute event with
  | [] => mret tt
  | attributes => for_each attributes handle_attribute
  end;;
  match event_Object event with
  | [] => mret tt
  | objects =>
      modify (set_objects_to_parse []);;
      for_each objects handle_object;;
      waiting ← gets objects_to_parse;
      if bool_decide (waiting ≠ []) then resolve_objects2parse else mret tt
  end;;
  match event_Galaxy event with
  | [] => mret tt
  | galaxies =>
      id ← gets report_id;
      for_each galaxies (fun galaxy => parse_galaxy galaxy id)
  end;;
  report ← eventReport;
  modify (fun s => set_SDOs (list_insert_at i report (SDOs s)) s);;
  gets SDOs.

(** The events of the input file: a wrapped list under [response], or one
    event under [Event]. *)
Inductive json_event :=
| Response (events : list Event)
| Single (event : Event).

Fixpoint handle_events (events : list Event) : M (list stix_object) :=
  match events with
  | [] => mret []
  | event :: rest =>
      sdos ← handler event;
      more ← handle_events rest;
      mret (sdos ++ more)
  end.

(** [buildEvent], up to the list handed to the serialiser. *)
Definition buildEvent (input : json_event) : M (list stix_object) :=
  match input with
  | Response [] => raise KeyError
  | Response events => handle_events events
  | Single event => handler event
  end.

End Methods.

(** ** A concrete environment

    Small tables and a permissive object model, used to run the builder on
    concrete events. *)

Module Demo.

Definition tlp (id level : string) : stix_object :=
  {| cls := MarkingDefinition;
     kwargs := [("type", PStr "marking-definition"); ("id", PStr id);
                ("definition_type", PStr "tlp");
                ("definition", PDict [("tlp", PStr level)])] |}.

(** As stix2 does, the object model takes a [tlp] marking only from its own
    constants, and knows no definition type besides [tlp] and [statement]. *)
Definition accepts (c : stix_class) (kw : pydict) : option exn :=
  match c with
  | MarkingDefinition =>
      match dict_get "definition_type" kw with
      | Some (PStr definition_type) =>
          if decide (definition_type = "tlp") then Some TLPMarkingDefinitionError
          else if decide (definition_type = "statement") then None
          else Some ValueError
      | _ => Some ValueError
      end
  | _ => None
  end.

Definition show (v : pyval) : string :=
  match v with
  | PList l =>
      "[" +:+ Str.join ", " ((fun x => match x with
                                       | PStr text => "'" +:+ text +:+ "'"
                                       | _ => "?"
                                       end) <$> l) +:+ "]"
  | PNone => "None"
  | PBool b => Str.of_bool b
  | _ => "?"
  end.

Definition str (v : pyval) : string :=
  match v with
  | PStr text => text
  | _ => show v
  end.

(** [template.format(a, b)] for templates with the fields [{0}] and [{1}]. *)
Definition format (template : string) (args : list pyval) : outcome string :=
  match args with
  | [a; b] => Return (Str.replace "{1}" (str b) (Str.replace "{0}" (str a) template))
  | _ => Raise IndexError
  end.

Definition node (type value : string) : pyval :=
  PDict [("0", PDict [("type", PStr type); ("value", PStr value)])].

Definition usual (type path : string) : type_mapping :=
  {| to_call := Some "handle_usual_type";
     observable := Some (fun _ v _ => Return (node type (str v)));
     pattern_clauses := Some (fun _ v _ => Return [type +:+ ":" +:+ path +:+ " = '" +:+ str v +:+ "'"]);
     vulnerability_args := None |}.

Definition types (t : string) : option type_mapping :=
  if decide (t = "domain") then Some (usual "domain-name" "value")
  else if decide (t = "url") then Some (usual "url" "value")
  else if decide (t = "ip-dst") then
    Some {| to_call := Some "handle_usual_type";
            observable := Some (fun _ v _ => Return (node "ipv4-addr" (str v)));
            pattern_clauses := Some (fun _ v _ =>
              Return ["network-traffic:dst_ref.type = 'ipv4-addr'";
                      "network-traffic:dst_ref.value = '" +:+ str v +:+ "'"]);
            vulnerability_args := None |}
  else if decide (t = "link") then
    Some {| to_call := Some "handle_link"; observable := None; pattern_clauses := None;
            vulnerability_args := None |}
  else if decide (t = "vulnerability") then
    Some {| to_call := Some "add_vulnerability"; observable := None; pattern_clauses := None;
            vulnerability_args := Some (fun name =>
              PDict [("source_name", PStr "cve"); ("external_id", PStr name)]) |}
  else None.

Definition objects (name : string) : option object_mapping :=
  if decide (name = "file") then
    Some {| object_to_call := Some "handle_usual_object_name";
            object_pattern := Some "file:{0} = '{1}'" |}
  else if bool_decide (name ∈ ["pe"; "pe-section"]) then
    Some {| object_to_call := Some "populate_objects_to_parse"; object_pattern := None |}
  else if bool_decide (name ∈ ["url"; "stix2-pattern"]) then
    Some {| object_to_call := Some "handle_usual_object_name";
            object_pattern := Some "url:{0} = '{1}'" |}
  else if decide (name = "vulnerability") then
    Some {| object_to_call := Some "add_object_vulnerability"; object_pattern := None |}
  else None.

Definition tlp_tokens (tag : string) : option string :=
  if decide (tag = "tlp:white") then Some "TLP_WHITE"
  else if decide (tag = "tlp:green") then Some "TLP_GREEN"
  else if decide (tag = "tlp:amber") then Some "TLP_AMBER"
  else if decide (tag = "tlp:red") then Some "TLP_RED"
  else None.

Definition relations (source_type : string) :
    option (string -> option string) :=
  if decide (source_type = "indicator") then
    Some (fun target_type =>
            if bool_decide (target_type ∈ ["malware"; "tool"; "attack-pattern"])
            then Some "indicates" else None)
  else None.

(** The [url] builders: one node, one clause. *)
Definition resolve_url (pattern : bool) (attributes : list Attribute) (object_id : string) :
    M pyval :=
  match filter (fun a => attr_type a = "url") attributes with
  | a :: _ =>
      mret (if pattern then PStrs ["url:value = '" +:+ attr_value a +:+ "'"]
            else node "url" (attr_value a))
  | [] => raise NameError
  end.

Definition env : Env :=
  {| validate := accepts;
     CustomObject := fun _ => None;
     uuid4 := fun n => "00000000-0000-4000-8000-" +:+ Str.of_nat n;
     TLP_WHITE := tlp "marking-definition--613f2e26-407d-48c7-9eca-b8e91df99dc9" "white";
     TLP_GREEN := tlp "marking-definition--34098fce-860f-48ae-8e50-ebd3cc5e41da" "green";
     TLP_AMBER := tlp "marking-definition--f88d31f6-486f-44da-b317-01333bde0b82" "amber";
     TLP_RED := tlp "marking-definition--5e57c739-391a-4eb3-b6be-7d15ca92d5ed" "red";
     SocketExt_allowed := None;
     re_match := fun _ _ => false;
     str_format := format;
     repr := show;
     mispTypesMapping := types;
     objectsMapping := objects;
     tlp_markings := tlp_tokens;
     relationshipsSpecifications := relations;
     defineProtocols := fun port => if decide (port = "80") then Some "http" else None;
     fileMapping := [("md5", "MD5"); ("sha1", "SHA-1"); ("sha256", "SHA-256");
                     ("size-in-bytes", "size"); ("mime-type", "mime_type")];
     hash_types := ["md5"; "sha1"; "sha256"];
     peMapping := fun r => if decide (r = "number-sections") then Some "number_of_sections"
                           else if decide (r = "type") then Some "pe_type"
                           else if decide (r = "imphash") then Some "imphash" else None;
     peSectionMapping := fun r => if decide (r = "name") then Some "name"
                                  else if decide (r = "size-in-bytes") then Some "size"
                                  else if decide (r = "entropy") then Some "entropy" else None;
     attackPatternObjectMapping := fun r => if bool_decide (r ∈ ["name"; "summary"])
                                            then Some (if decide (r = "name") then "name"
                                                       else "description") else None;
     attack_pattern_reference_mapping := fun r =>
       if decide (r = "id") then Some ("capec", "external_id")
       else if decide (r = "references") then Some ("mitre-attack", "url") else None;
     vulnerabilityMapping := fun r => if decide (r = "id") then Some "name"
                                      else if decide (r = "summary") then Some "description"
                                      else None;
     category_type_mappings := ["Person"; "Other"];
     resolve_method := fun method =>
       if decide (method = "resolve_url_observable") then Some (resolve_url false)
       else if decide (method = "resolve_url_pattern") then Some (resolve_url true)
       else None |}.

Definition attribute (type value uuid : string) (to_ids : bool) : Attribute :=
  {| attr_type := type; attr_category := "Network activity"; attr_to_ids := to_ids;
     attr_value := value; attr_uuid := uuid; attr_timestamp := "1518707604";
     attr_comment := ""; attr_data := None; attr_object_relation := "";
     attr_first_seen := None; attr_last_seen := None; attr_Tag := []; attr_Galaxy := [] |}.

Definition related (relation : string) (a : Attribute) : Attribute :=
  {| attr_type := attr_type a; attr_category := attr_category a;
     attr_to_ids := attr_to_ids a; attr_value := attr_value a; attr_uuid := attr_uuid a;
     attr_timestamp := attr_timestamp a; attr_comment := attr_comment a;
     attr_data := attr_data a; attr_object_relation := relation;
     attr_first_seen := attr_first_seen a; attr_last_seen := attr_last_seen a;
     attr_Tag := attr_Tag a; attr_Galaxy := attr_Galaxy a |}.

Definition tagged (tags : list string) (a : Attribute) : Attribute :=
  {| attr_type := attr_type a; attr_category := attr_category a;
     attr_to_ids := attr_to_ids a; attr_value := attr_value a; attr_uuid := attr_uuid a;
     attr_timestamp := attr_timestamp a; attr_comment := attr_comment a;
     attr_data := attr_data a; attr_object_relation := attr_object_relation a;
     attr_first_seen := attr_first_seen a; attr_last_seen := attr_last_seen a;
     attr_Tag := Build_Tag <$> tags; attr_Galaxy := attr_Galaxy a |}.

Definition clustered (galaxies : list Galaxy) (a : Attribute) : Attribute :=
  {| attr_type := attr_type a; attr_category := attr_category a;
     attr_to_ids := attr_to_ids a; attr_value := attr_value a; attr_uuid := attr_uuid a;
     attr_timestamp := attr_timestamp a; attr_comment := attr_comment a;
     attr_data := attr_data a; attr_object_relation := attr_object_relation a;
     attr_first_seen := attr_first_seen a; attr_last_seen := attr_last_seen a;
     attr_Tag := attr_Tag a; attr_Galaxy := galaxies |}.

Definition object (name uuid : string) (attributes : list Attribute)
    (references : list ObjectReference) : MispObject :=
  {| obj_name := name; obj_uuid := uuid; obj_meta_category := Some "file";
     obj_description := "An object"; obj_timestamp := "1518707604";
     obj_first_seen := None; obj_last_seen := None;
     obj_Attribute := attributes; obj_ObjectReference := references |}.

Definition mimikatz (family : string) : Galaxy :=
  {| galaxy_type := Some family; galaxy_name := "Tool";
     galaxy_description := Some "Threat actor tools";
     galaxy_uuid := "9b8037f7-bc8f-4de1-a797-37266619bc0b";
     galaxy_GalaxyCluster :=
       [{| collection_uuid := "0a113d54-3ad1-4ac3-a966-3d2075d9b1c6";
           cluster_description := "Credential dumper"; cluster_value := "Mimikatz";
           cluster_tag_name := "misp-galaxy:tool=Mimikatz";
           cluster_meta := Some [("synonyms", ["mimi"])] |}] |}.

Definition event (uuid : string) (attributes : list Attribute) (objects : list MispObject)
    (galaxies : list Galaxy) : Event :=
  {| event_uuid := uuid; event_info := "Test event"; event_date := "2018-02-15";
     event_publish_timestamp := "1518707604"; event_timestamp := "1518707604";
     event_Orgc := {| org_name := "CIRCL"; org_uuid := "55f6ea5e-2c60-40e5-964f-47a8950d210f" |};
     event_Attribute := attributes; event_Object := objects; event_Galaxy := galaxies;
     event_Tag := [] |}.

End Demo.


(** * Properties *)

(** ** Dictionaries *)

Section DictFacts.
Context {V : Type}.
Implicit Types (d : list (string * V)) (k : string) (v : V).

Lemma dict_get_set_eq k v d : dict_get k (dict_set k v d) = Some v.
Proof.
  induction d as [|[k' v'] d IH]; simpl.
  - by rewrite decide_True.
  - destruct (decide (k = k')) as [->|Hne]; simpl.
    + by rewrite decide_True.
    + by rewrite decide_False.
Qed.

Lemma dict_get_set_ne k k' v d : k ≠ k' → dict_get k (dict_set k' v d) = dict_get k d.
Proof.
  intros Hne. induction d as [|[k0 v0] d IH]; simpl.
  - by rewrite decide_False.
  - destruct (decide (k' = k0)) as [->|Hne0]; simpl.
    + by rewrite !decide_False.
    + destruct (decide (k = k0)); done.
Qed.

Lemma dict_keys_set k v d :
  dict_keys (dict_set k v d) = if dict_has k d then dict_keys d else dict_keys d ++ [k].
Proof.
  unfold dict_has, dict_keys. induction d as [|[k' v'] d IH]; csimpl; [done|].
  destruct (decide (k = k')) as [->|Hne]; csimpl; [done|].
  rewrite IH. by case_bool_decide.
Qed.

Lemma dict_has_keys k d : dict_has k d = true ↔ k ∈ dict_keys d.
Proof.
  unfold dict_has, dict_keys. rewrite bool_decide_eq_true.
  induction d as [|[k' v'] d IH]; csimpl.
  - split; [by intros [? ?]|]. by intros ?%elem_of_nil.
  - destruct (decide (k = k')) as [->|Hne].
    + split; [intros _; left|by eexists].
    + rewrite IH. split; [by right|]. by intros [?|?]%elem_of_cons.
Qed.

Lemma dict_set_NoDup k v d : NoDup (dict_keys d) → NoDup (dict_keys (dict_set k v d)).
Proof.
  intros Hd. rewrite dict_keys_set. destruct (dict_has k d) eqn:Hk; [done|].
  apply NoDup_app. split_and!; [done| |apply NoDup_singleton].
  intros x Hx ->%list_elem_of_singleton.
  apply dict_has_keys in Hx. congruence.
Qed.

Lemma dict_get_Some_keys k v d : dict_get k d = Some v → k ∈ dict_keys d.
Proof.
  intros H. apply dict_has_keys. unfold dict_has. rewrite bool_decide_eq_true. by eexists.
Qed.

End DictFacts.

(** ** The monad *)

Lemma bind_Return {A B} (m : M A) (f : A → M B) s b s' :
  (m ≫= f) s = (Return b, s') →
  ∃ a s1, m s = (Return a, s1) ∧ f a s1 = (Return b, s').
Proof.
  unfold mbind, M_bind, bind. destruct (m s) as [[a|e] s1]; [eauto|done].
Qed.

Lemma bind_run {A B} (m : M A) (f : A → M B) s a s1 :
  m s = (Return a, s1) → (m ≫= f) s = f a s1.
Proof. unfold mbind, M_bind, bind. by intros ->. Qed.

Lemma bind_raise {A B} (m : M A) (f : A → M B) s e s1 :
  m s = (Raise e, s1) → (m ≫= f) s = (Raise e, s1).
Proof. unfold mbind, M_bind, bind. by intros ->. Qed.

Lemma lift_Return {A} (o : outcome A) s a s' :
  lift o s = (Return a, s') → o = Return a ∧ s' = s.
Proof. unfold lift. by intros [= -> ->]. Qed.

Lemma obind_Return {A B} (o : outcome A) (f : A → outcome B) b :
  obind o f = Return b → ∃ a, o = Return a ∧ f a = Return b.
Proof. destruct o; simpl; [eauto|done]. Qed.

Lemma of_option_Return {A} e (o : option A) a : of_option e o = Return a → o = Some a.
Proof. by destruct o; intros [= ->]. Qed.

Lemma for_each_app {A} (l1 l2 : list A) (body : A → M unit) s :
  for_each (l1 ++ l2) body s =
  match for_each l1 body s with
  | (Return _, s1) => for_each l2 body s1
  | r => r
  end.
Proof.
  revert s. induction l1 as [|x l1 IH]; intros s; simpl; [done|].
  unfold mbind, M_bind, bind. destruct (body x s) as [[[]|e] s1]; [apply IH|done].
Qed.

(** Peels the binds of a computation known to return. *)
Ltac inv_run H :=
  repeat first
    [ apply bind_Return in H as (? & ? & ? & H)
    | apply lift_Return in H as [H ->] ];
  repeat match goal with
    | H' : lift _ _ = (Return _, _) |- _ => apply lift_Return in H' as [H' ->]
    | H' : gets _ _ = (Return _, _) |- _ => injection H' as <- <-
    | H' : modify _ _ = (Return _, _) |- _ => injection H' as <-
    | H' : mret _ _ = (Return _, _) |- _ => injection H' as <- <-
    | H' : of_option _ _ = Return _ |- _ => apply of_option_Return in H'
    end.

Lemma append_object_Return o id_mapping s s' :
  append_object o id_mapping s = (Return tt, s') →
  SDOs s' = SDOs s ++ [o] ∧ object_refs s' = object_refs s ++ [stix_id o] ∧
  markings s' = markings s ∧ galaxies s' = galaxies s ∧ defined s' = defined s ∧
  to_define s' = to_define s ∧ custom_objects s' = custom_objects s ∧
  entropy s' = entropy s.
Proof.
  unfold append_object, mbind, M_bind, bind, modify. simpl.
  destruct id_mapping; [|by intros [= <-]].
  destruct (Str.split "--" (stix_id o)) as [|? [|? [|? ?]]]; try done.
  by intros [= <-].
Qed.

(** ** Fields a computation leaves alone *)

(** A computation that leaves a field of the builder as it was, whether it
    returns or raises. *)
Definition keeps {A B} (f : StixBuilder → B) (m : M A) : Prop :=
  ∀ s r s', m s = (r, s') → f s' = f s.

Section Keeps.
Context {B : Type} (f : StixBuilder → B).

Lemma keeps_mret {A} (a : A) : keeps f (mret a).
Proof. by intros s r s' [= _ <-]. Qed.

Lemma keeps_raise {A} (e : exn) : keeps f (raise (A:=A) e).
Proof. by intros s r s' [= _ <-]. Qed.

Lemma keeps_lift {A} (o : outcome A) : keeps f (lift o).
Proof. by intros s r s' [= _ <-]. Qed.

Lemma keeps_gets {A} (g : StixBuilder → A) : keeps f (gets g).
Proof. by intros s r s' [= _ <-]. Qed.

Lemma keeps_modify (g : StixBuilder → StixBuilder) :
  (∀ s, f (g s) = f s) → keeps f (modify g).
Proof. intros Hg s r s' [= _ <-]. apply Hg. Qed.

Lemma keeps_bind {A C} (m : M A) (k : A → M C) :
  keeps f m → (∀ a, keeps f (k a)) → keeps f (m ≫= k).
Proof.
  intros Hm Hk s r s'. unfold mbind, M_bind, bind.
  destruct (m s) as [[a|e] s1] eqn:Hrun.
  - intros Hrest. rewrite (Hk a _ _ _ Hrest). by apply (Hm _ _ _ Hrun).
  - intros [= <- <-]. by apply (Hm _ _ _ Hrun).
Qed.

Lemma keeps_try_except {A} (m : M A) catches (h : M A) :
  keeps f m → keeps f h → keeps f (try_except m catches h).
Proof.
  intros Hm Hh s r s'. unfold try_except.
  destruct (m s) as [[a|e] s1] eqn:Hrun.
  - intros [= <- <-]. by apply (Hm _ _ _ Hrun).
  - destruct (catches e).
    + intros Hrest. rewrite (Hh _ _ _ Hrest). by apply (Hm _ _ _ Hrun).
    + intros [= <- <-]. by apply (Hm _ _ _ Hrun).
Qed.

Lemma keeps_for_each {A} (l : list A) (body : A → M unit) :
  (∀ x, keeps f (body x)) → keeps f (for_each l body).
Proof.
  intros Hbody. induction l as [|x l IH]; [apply keeps_mret|].
  apply keeps_bind; [apply Hbody|by intros _].
Qed.

End Keeps.

Create HintDb keeps discriminated.

(** Walks through a computation built from binds, branches and loops. *)
Ltac keeping :=
  repeat first
    [ assumption
    | progress cbv zeta
    | solve [eauto 2 with keeps]
    | apply keeps_mret
    | apply (keeps_mret _ (A:=unit))
    | apply keeps_raise
    | apply keeps_lift
    | apply keeps_gets
    | apply keeps_bind; [|intros ?; cbv beta]
    | apply keeps_try_except
    | apply keeps_for_each; intros ?; cbv beta
    | apply keeps_modify; intros ?; reflexivity
    | match goal with
      | |- keeps _ (if ?b then _ else _) => destruct b
      | |- keeps _ (match ?x with _ => _ end) => destruct x eqn:?
      | |- keeps _ (let '(_, _) := ?x in _) => destruct x
      end ].

(** ** Vocabulary of the statements *)

(** The source, target and label of a relationship object. *)
Definition edge_of (o : stix_object) : option (string * string * string) :=
  match getitem "source_ref" o, getitem "target_ref" o, getitem "relationship_type" o with
  | Some (PStr source), Some (PStr target), Some (PStr label) => Some (source, target, label)
  | _, _, _ => None
  end.

(** What the spec asks of a to-define reference: both raw identifiers are
    resolved through the registry, and the label is the trimmed type. *)
Definition resolve_reference (registry : gmap string string) (source_uuid : string)
    (reference : string * string) : option (string * string * string) :=
  source_type ← registry !! source_uuid;
  target_type ← registry !! reference.1;
  Some (source_type +:+ "--" +:+ source_uuid, target_type +:+ "--" +:+ reference.1,
        Str.strip reference.2).

Definition resolved_edges (registry : gmap string string)
    (edges : list (string * list (string * string))) : list (string * string * string) :=
  edges ≫= fun edge => omap (resolve_reference registry edge.1) edge.2.



(** ** Objects named original-imported-file *)

(** C10: an object named original-imported-file is skipped by the loop of
    the handler over the objects of the event: its turn leaves the builder as
    it was (no produced object, no registry entry, no to-define edge), and
    the loop behaves as if the object were not in the list. *)
Theorem original_imported_file_contributes_nothing (E : Env) (o : MispObject) :
  obj_name o = "original-imported-file" →
  (∀ s, handle_object E o s = (Return tt, s)) ∧
  (∀ before after s,
     for_each (before ++ o :: after) (handle_object E) s =
     for_each (before ++ after) (handle_object E) s).
Proof.
  intros Hname.
  assert (Hskip : ∀ s, handle_object E o s = (Return tt, s)).
  { intros s. unfold handle_object. rewrite Hname. reflexivity. }
  split; [exact Hskip|].
  intros before after s. rewrite !for_each_app.
  destruct (for_each before (handle_object E) s) as [[[]|e] s1]; [|done].
  simpl. by rewrite (bind_run _ _ _ _ _ (Hskip s1)).
Qed.

Definition imported_file : MispObject :=
  Demo.object "original-imported-file" "5a3cd604-e11c-4de5-bbbf-c170950d210f"
    [Demo.related "imported-sample" (Demo.attribute "attachment" "sample.json" "at1" true)]
    [{| referenced_uuid := "u2"; relationship_type := "related-to";
        ref_Object_name := "file" |}].

Lemma original_imported_file_witness :
  obj_name imported_file = "original-imported-file" ∧
  (∀ s, handle_object Demo.env imported_file s = (Return tt, s)).
Proof.
  split; [reflexivity|].
  apply (original_imported_file_contributes_nothing Demo.env imported_file). reflexivity.
Defined.

(** ** Deferred relationships *)

(** The object model accepts the relationship an edge asks for. *)
Definition accepted_edge (E : Env) (edge : string * string * string) : Prop :=
  validate E Relationship
    [("source_ref", PStr edge.1.1); ("target_ref", PStr edge.1.2);
     ("relationship_type", PStr edge.2); ("interoperability", PBool true)] = None.

Section ToDefine.
Context (E : Env).

(** A relationship that is built and appended. *)
Lemma add_relationship_Return source target relation s s' :
  (relationship ← new_relationship E source target relation;
   append_object relationship false) s = (Return tt, s') →
  ∃ o, SDOs s' = SDOs s ++ [o] ∧ ids s' = ids s ∧ to_define s' = to_define s ∧
       cls o = Relationship ∧ edge_of o = Some (source, target, relation).
Proof.
  intros H. apply bind_Return in H as (o & s1 & Hnew & H).
  unfold new_relationship in Hnew.
  destruct (validate E Relationship _); [done|].
  apply bind_Return in Hnew as (u & s2 & Hu & [= <- <-]).
  unfold fresh_uuid in Hu. apply bind_Return in Hu as (n & ? & [= <- <-] & Hu).
  apply bind_Return in Hu as ([] & ? & [= <-] & [= _ <-]).
  unfold append_object, mbind, M_bind, bind, modify, mret, M_ret, ret in H.
  injection H as <-. by eexists.
Qed.

(** It is built and appended when the object model accepts it. *)
Lemma add_relationship_accepted source target relation s :
  accepted_edge E (source, target, relation) →
  ∃ s', (relationship ← new_relationship E source target relation;
         append_object relationship false) s = (Return tt, s').
Proof.
  unfold accepted_edge, new_relationship. cbn [fst snd]. intros ->.
  unfold fresh_uuid, append_object, mbind, M_bind, bind, gets, modify, mret, M_ret, ret.
  by eexists.
Qed.

Lemma add_to_define_relationship_Return source_uuid reference s s' :
  add_to_define_relationship E source_uuid reference s = (Return tt, s') →
  ∃ rels,
    SDOs s' = SDOs s ++ rels ∧ ids s' = ids s ∧ to_define s' = to_define s ∧
    Forall (fun o => cls o = Relationship) rels ∧
    edge_of <$> rels = Some <$> option_list (resolve_reference (ids s) source_uuid reference).
Proof.
  destruct reference as [target_uuid relationship_type].
  unfold add_to_define_relationship, resolve_reference. cbn [fst snd]. intros H.
  apply bind_Return in H as (registry & ? & [= <- <-] & H).
  destruct (ids s !! source_uuid) as [source_type|]; cbn [mbind option_bind];
    [|injection H as <-; exists []; by rewrite app_nil_r].
  destruct (ids s !! target_uuid) as [target_type|]; cbn [mbind option_bind];
    [|injection H as <-; exists []; by rewrite app_nil_r].
  apply add_relationship_Return in H as (o & HS & Hids & Hto & Hcls & Hedge).
  exists [o]. split_and!; try done; [by repeat constructor|].
  cbn. by rewrite Hedge.
Qed.

Lemma add_to_define_relationship_accepted source_uuid reference s :
  (∀ edge, resolve_reference (ids s) source_uuid reference = Some edge →
           accepted_edge E edge) →
  ∃ s', add_to_define_relationship E source_uuid reference s = (Return tt, s').
Proof.
  destruct reference as [target_uuid relationship_type].
  unfold add_to_define_relationship, resolve_reference. cbn [fst snd]. intros Haccepted.
  unfold mbind at 1, M_bind at 1, bind, gets.
  destruct (ids s !! source_uuid) as [source_type|]; cbn [mbind option_bind] in *;
    [|by eexists].
  destruct (ids s !! target_uuid) as [target_type|]; cbn [mbind option_bind] in *;
    [|by eexists].
  by apply add_relationship_accepted, Haccepted.
Qed.

Lemma add_to_define_references_Return source_uuid references s s' :
  for_each references (add_to_define_relationship E source_uuid) s = (Return tt, s') →
  ∃ rels,
    SDOs s' = SDOs s ++ rels ∧ ids s' = ids s ∧ to_define s' = to_define s ∧
    Forall (fun o => cls o = Relationship) rels ∧
    edge_of <$> rels = Some <$> omap (resolve_reference (ids s) source_uuid) references.
Proof.
  revert s. induction references as [|reference references IH]; intros s H.
  - injection H as <-. exists []. by rewrite app_nil_r.
  - cbn [for_each] in H. apply bind_Return in H as ([] & s1 & Hstep & H).
    apply add_to_define_relationship_Return in Hstep
      as (rels1 & HS1 & Hids1 & Hto1 & Hcls1 & Hedges1).
    apply IH in H as (rels2 & HS2 & Hids2 & Hto2 & Hcls2 & Hedges2).
    exists (rels1 ++ rels2).
    rewrite HS2, HS1, Hids2, Hids1, Hto2, Hto1, app_assoc. split_and!; try done.
    + by apply Forall_app.
    + rewrite fmap_app, Hedges1, Hedges2, Hids1. cbn [omap list_omap].
      destruct (resolve_reference (ids s) source_uuid reference); done.
Qed.

Lemma add_to_define_references_accepted source_uuid references s :
  Forall (accepted_edge E) (omap (resolve_reference (ids s) source_uuid) references) →
  ∃ s', for_each references (add_to_define_relationship E source_uuid) s = (Return tt, s').
Proof.
  revert s. induction references as [|reference references IH]; intros s Haccepted.
  - by eexists.
  - cbn [omap list_omap] in Haccepted.
    destruct (add_to_define_relationship_accepted source_uuid reference s) as [s1 Hstep].
    { intros edge Hedge. rewrite Hedge in Haccepted. by apply Forall_cons in Haccepted as [? _]. }
    destruct (add_to_define_relationship_Return _ _ _ _ Hstep) as (_ & _ & Hids & _).
    destruct (IH s1) as [s' Hrest].
    { rewrite Hids. destruct (resolve_reference (ids s) source_uuid reference);
        [by apply Forall_cons in Haccepted as [_ ?]|done]. }
    exists s'. cbn [for_each]. by rewrite (bind_run _ _ _ _ _ Hstep).
Qed.

Lemma add_to_define_sources_Return (edges : list (string * list (string * string))) s s' :
  for_each edges (fun '(source_uuid, references) =>
    for_each references (add_to_define_relationship E source_uuid)) s = (Return tt, s') →
  ∃ rels,
    SDOs s' = SDOs s ++ rels ∧ ids s' = ids s ∧ to_define s' = to_define s ∧
    Forall (fun o => cls o = Relationship) rels ∧
    edge_of <$> rels = Some <$> resolved_edges (ids s) edges.
Proof.
  revert s. induction edges as [|[source_uuid references] edges IH]; intros s H.
  - injection H as <-. exists []. by rewrite app_nil_r.
  - cbn [for_each] in H. apply bind_Return in H as ([] & s1 & Hstep & H).
    apply add_to_define_references_Return in Hstep
      as (rels1 & HS1 & Hids1 & Hto1 & Hcls1 & Hedges1).
    apply IH in H as (rels2 & HS2 & Hids2 & Hto2 & Hcls2 & Hedges2).
    exists (rels1 ++ rels2).
    rewrite HS2, HS1, Hids2, Hids1, Hto2, Hto1, app_assoc. split_and!; try done.
    + by apply Forall_app.
    + unfold resolved_edges in *. rewrite fmap_app, Hedges1, Hedges2, Hids1.
      csimpl. by rewrite fmap_app.
Qed.

Lemma add_to_define_sources_accepted (edges : list (string * list (string * string))) s :
  Forall (accepted_edge E) (resolved_edges (ids s) edges) →
  ∃ s', for_each edges (fun '(source_uuid, references) =>
          for_each references (add_to_define_relationship E source_uuid)) s
        = (Return tt, s').
Proof.
  revert s. induction edges as [|[source_uuid references] edges IH]; intros s Haccepted.
  - by eexists.
  - unfold resolved_edges in Haccepted. csimpl in Haccepted.
    apply Forall_app in Haccepted as [Hfirst Hrest].
    destruct (add_to_define_references_accepted source_uuid references s Hfirst)
      as [s1 Hstep].
    destruct (add_to_define_references_Return _ _ _ _ Hstep) as (_ & _ & Hids & _).
    destruct (IH s1) as [s' Hrun]; [by rewrite Hids|].
    exists s'. cbn [for_each]. by rewrite (bind_run _ _ _ _ _ Hstep).
Qed.

Lemma keeps_ids_relationship source target relation :
  keeps ids (relationship ← new_relationship E source target relation;
             append_object relationship false).
Proof.
  intros s [[]|e] s' H.
  - by apply add_relationship_Return in H as (_ & _ & ? & _).
  - unfold new_relationship in H. destruct (validate E Relationship _); [by injection H as _ <-|].
    done.
Qed.

Lemma keeps_to_define_relationship source target relation :
  keeps to_define (relationship ← new_relationship E source target relation;
                   append_object relationship false).
Proof.
  intros s [[]|e] s' H.
  - by apply add_relationship_Return in H as (_ & _ & _ & ? & _).
  - unfold new_relationship in H. destruct (validate E Relationship _); [by injection H as _ <-|].
    done.
Qed.

(** The first loop leaves the registry and the deferred references alone. *)
Lemma keeps_ids_add_defined_edges : keeps ids (add_defined_edges E).
Proof.
  pose proof keeps_ids_relationship.
  unfold add_defined_edges, add_defined_relationships. keeping.
Qed.

Lemma keeps_to_define_add_defined_edges : keeps to_define (add_defined_edges E).
Proof.
  pose proof keeps_to_define_relationship.
  unfold add_defined_edges, add_defined_relationships. keeping.
Qed.

End ToDefine.

(** C7: what [add_all_relationships] makes of the deferred references, once
    its first loop has gone through.  A reference is resolved when the
    registry knows both its source and its target.  Whenever the method
    returns, the relationships its second loop appends are exactly those of
    the resolved references, one each, in order, from [kind--source] to
    [kind--target] and labelled with the trimmed relationship type: a
    reference that is not resolved leaves no edge.  And the method returns
    as soon as the object model accepts the relationships of the resolved
    references: a reference that is not resolved raises no error. *)
Theorem to_define_edges_resolved (E : Env) (s s1 : StixBuilder) :
  add_defined_edges E s = (Return tt, s1) →
  (∀ source_uuid reference,
     resolve_reference (ids s) source_uuid reference = None ↔
     ids s !! source_uuid = None ∨ ids s !! reference.1 = None) ∧
  (∀ s', add_all_relationships E s = (Return tt, s') →
     ∃ rels,
       SDOs s' = SDOs s1 ++ rels ∧
       ids s' = ids s ∧
       Forall (fun o => cls o = Relationship) rels ∧
       edge_of <$> rels = Some <$> resolved_edges (ids s) (to_define s)) ∧
  (Forall (accepted_edge E) (resolved_edges (ids s) (to_define s)) →
   ∃ s', add_all_relationships E s = (Return tt, s')).
Proof.
  intros Hfirst.
  pose proof (keeps_ids_add_defined_edges E _ _ _ Hfirst) as Hids.
  pose proof (keeps_to_define_add_defined_edges E _ _ _ Hfirst) as Hto.
  split_and!.
  - intros source_uuid reference. unfold resolve_reference.
    destruct (ids s !! source_uuid); simpl; [|by split; [left|]].
    destruct (ids s !! reference.1); simpl; [|by split; [right|]].
    split; [done|]. by intros [|].
  - intros s' H. unfold add_all_relationships in H.
    rewrite (bind_run _ _ _ _ _ Hfirst) in H. unfold add_to_define_edges in H.
    apply bind_Return in H as (edges & ? & [= <- <-] & H).
    apply add_to_define_sources_Return in H as (rels & HS & Hids' & _ & Hcls & Hedges).
    exists rels. rewrite Hids', Hids. split_and!; try done.
    by rewrite Hedges, Hids, Hto.
  - intros Haccepted. unfold add_all_relationships.
    rewrite (bind_run _ _ _ _ _ Hfirst). unfold add_to_define_edges.
    unfold mbind, M_bind, bind, gets. rewrite Hto.
    apply add_to_define_sources_accepted. by rewrite Hids.
Qed.

(** Two objects are registered; one reference is resolved, one names a
    target that was never produced, one a source that was never produced.
    The relationship type of the first starts with a no-break space (U+00A0,
    the bytes 194 and 160) and ends with a space. *)
Definition deferred_state : StixBuilder :=
  set_to_define
    [("u1", [("u2", String "194" (String "160" "related-to ")); ("gone", "drops")]);
     ("lost", [("u1", "uses")])]
    (set_ids {[ "u1" := "indicator"; "u2" := "observed-data" ]} __init__).

Definition deferred_resolved : StixBuilder :=
  Eval vm_compute in (add_all_relationships Demo.env deferred_state).2.

Lemma to_define_edges_resolved_witness :
  resolved_edges (ids deferred_state) (to_define deferred_state)
    = [("indicator--u1", "observed-data--u2", "related-to")] ∧
  ∃ rels,
    SDOs deferred_resolved = rels ∧
    edge_of <$> rels = [Some ("indicator--u1", "observed-data--u2", "related-to")].
Proof.
  split; [vm_compute; reflexivity|].
  assert (Hfirst : add_defined_edges Demo.env deferred_state = (Return tt, deferred_state))
    by (vm_compute; reflexivity).
  assert (Hrun : add_all_relationships Demo.env deferred_state = (Return tt, deferred_resolved))
    by (vm_compute; reflexivity).
  destruct (to_define_edges_resolved Demo.env deferred_state deferred_state Hfirst)
    as (_ & Hedges & _).
  destruct (Hedges _ Hrun) as (rels & HS & _ & _ & Hrels).
  exists rels. split; [exact HS|exact Hrels].
Defined.

(** ** Markings *)

Lemma create_marking_Some E tag marking_id s s1 :
  create_marking E tag s = (Return (Some marking_id), s1) →
  ∃ marking, markings s1 = dict_set tag marking (markings s) ∧ stix_id marking = marking_id.
Proof.
  unfold create_marking. destruct (tlp_markings E tag) as [name|].
  - intros H. inv_run H. simplify_eq. eexists. by split.
  - intros H. apply bind_Return in H as (u & s0 & Hu & H).
    unfold fresh_uuid in Hu. inv_run Hu. simplify_eq.
    destruct (Str.split ":" tag) as [|definition_type [|definition [|? ?]]]; try done.
    unfold try_except, construct in H.
    destruct (validate E MarkingDefinition _) as [e|] eqn:Hv.
    + unfold mbind, M_bind, bind, raise in H. simpl in H.
      destruct (marking_rejected e); done.
    + unfold mbind, M_bind, bind, mret, M_ret, ret, modify in H. simpl in H.
      simplify_eq. eexists. by split.
Qed.

Lemma filter_key_absent {V} (k : string) (d : list (string * V)) :
  k ∉ dict_keys d → filter (fun kv => kv.1 = k) d = [].
Proof.
  unfold dict_keys. induction d as [|[k' v'] d IH]; csimpl; [done|].
  intros [Hne Hd]%not_elem_of_cons.
  rewrite filter_cons_False by (simpl; congruence). by apply IH.
Qed.

Lemma filter_key_unique {V} (k : string) (v : V) (d : list (string * V)) :
  NoDup (dict_keys d) → dict_get k d = Some v →
  filter (fun kv => kv.1 = k) d = [(k, v)].
Proof.
  unfold dict_keys. induction d as [|[k' v'] d IH]; csimpl; [done|].
  intros [Hk' Hd]%NoDup_cons. destruct (decide (k = k')) as [->|Hne].
  - intros [= ->]. rewrite filter_cons_True by done. f_equal.
    by apply filter_key_absent.
  - intros Hget. rewrite filter_cons_False by (simpl; congruence). by apply IH.
Qed.

Lemma add_markings_SDOs (l : list stix_object) s s' :
  for_each l (fun marking => append_object marking true) s = (Return tt, s') →
  SDOs s' = SDOs s ++ l.
Proof.
  revert s. induction l as [|o l IH]; intros s; simpl.
  - intros [= <-]. by rewrite app_nil_r.
  - intros H. apply bind_Return in H as ([] & s1 & Ho & H).
    apply append_object_Return in Ho as (HS & _). apply IH in H.
    by rewrite H, HS, <-app_assoc.
Qed.

(** C8 holds of the code only for tags with exactly one colon.  A tag that
    is none of the fixed traffic-light tokens and not yet cached is split at
    its colons.  With two parts, the marking constructor is called with the
    type, the fresh identifier and the two parts; when it takes them the tag
    yields the identifier and the marking is cached, and when it rejects them
    with a TLP marking error or a value error the tag is skipped: no marking
    is cached, no reference is returned and nothing is raised.  With no colon
    or several, the line that names the two parts raises a value error before
    the constructor is tried, and [handle_tags] raises it: the tag is not
    skipped. *)
Theorem tag_with_spare_colon_raises (E : Env) (tag : string) (s : StixBuilder) :
  tlp_markings E tag = None →
  dict_get tag (markings s) = None →
  let marking_id := "marking-definition--" +:+ uuid4 E (entropy s) in
  let drawn := set_entropy (S (entropy s)) s in
  match Str.split ":" tag with
  | [definition_type; definition] =>
      let candidate :=
        [("type", PStr "marking-definition"); ("id", PStr marking_id);
         ("definition_type", PStr definition_type);
         ("definition", PDict [(definition_type, PStr definition)])] in
      match validate E MarkingDefinition candidate with
      | None =>
          handle_tags E [tag] s =
            (Return [marking_id],
             set_markings
               (dict_set tag {| cls := MarkingDefinition; kwargs := candidate |}
                  (markings s))
               drawn)
      | Some e =>
          handle_tags E [tag] s =
            (if decide (e = TLPMarkingDefinitionError ∨ e = ValueError)
             then Return [] else Raise e, drawn)
      end
  | _ => handle_tags E [tag] s = (Raise ValueError, drawn)
  end.
Proof.
  intros Htlp Hfresh marking_id drawn.
  unfold handle_tags, handle_tags_from, create_marking. rewrite Htlp.
  unfold fresh_uuid, mbind, M_bind, bind, gets, modify, mret, M_ret, ret. simpl.
  rewrite Hfresh. fold marking_id drawn.
  destruct (Str.split ":" tag) as [|definition_type [|definition [|spare parts]]];
    try (unfold raise; reflexivity).
  unfold try_except, construct, marking_kwargs.
  destruct (validate E MarkingDefinition _) as [e|]; simpl.
  - unfold raise, marking_rejected.
    destruct (decide (e = TLPMarkingDefinitionError ∨ e = ValueError)) as [[->| ->]|Hother];
      [reflexivity|reflexivity|].
    rewrite !bool_decide_false by tauto. reflexivity.
  - reflexivity.
Qed.

(** An event whose only attribute carries the tag [tlp:ex:chr] of the
    traffic-light taxonomy. *)
Definition chatham_event : Event :=
  Demo.event "5a3cd604-0002"
    [Demo.tagged ["tlp:ex:chr"] (Demo.attribute "domain" "a.example" "a1" true)] [] [].

(** The value error of the tag ends the translation of the whole event. *)
Lemma tag_with_spare_colon_raises_witness :
  Str.split ":" "tlp:ex:chr" = ["tlp"; "ex"; "chr"] ∧
  handle_tags Demo.env ["tlp:ex:chr"] __init__ = (Raise ValueError, set_entropy 1 __init__) ∧
  (handler Demo.env chatham_event __init__).1 = Raise ValueError.
Proof.
  split; [reflexivity|]. split.
  - exact (tag_with_spare_colon_raises Demo.env "tlp:ex:chr" __init__ eq_refl eq_refl).
  - vm_compute. reflexivity.
Defined.

(** C4, as amended: a tag that resolves to a marking identifier resolves to
    the same identifier whenever it is resolved again while the cache holds
    its entry, the cache holds exactly one marking for the tag, and the
    markings appended to the output of the event are the cached ones, one per
    tag. *)
Theorem resolved_tag_is_cached (E : Env) (tag marking_id : string) (s s1 : StixBuilder) :
  NoDup (dict_keys (markings s)) →
  handle_tags E [tag] s = (Return [marking_id], s1) →
  (∃ marking,
     stix_id marking = marking_id ∧
     filter (fun kv => kv.1 = tag) (markings s1) = [(tag, marking)]) ∧
  NoDup (dict_keys (markings s1)) ∧
  (∀ s2, dict_get tag (markings s2) = dict_get tag (markings s1) →
         handle_tags E [tag] s2 = (Return [marking_id], s2)) ∧
  (∀ s2 s3, markings s2 = markings s1 →
            add_all_markings s2 = (Return tt, s3) →
            SDOs s3 = SDOs s2 ++ dict_values (markings s1)).
Proof.
  intros Hnodup Hrun.
  assert (Hcached : ∃ marking, dict_get tag (markings s1) = Some marking ∧
                      stix_id marking = marking_id ∧ marking_id ≠ "" ∧
                      NoDup (dict_keys (markings s1))).
  { unfold handle_tags, handle_tags_from in Hrun.
    apply bind_Return in Hrun as (known & s0 & Hknown & Hrun). injection Hknown as <- <-.
    apply bind_Return in Hrun as (found & s0 & Hfound & Hrun).
    injection Hrun as Hkeep <-. unfold keep_marking_id in Hkeep.
    destruct (truthy found) eqn:Htruthy; [|done].
    destruct found as [found|]; [|done]. simpl in Hkeep, Htruthy.
    injection Hkeep as ->. apply bool_decide_eq_true in Htruthy.
    destruct (dict_get tag (markings s)) as [marking|] eqn:Hget.
    - injection Hfound as <- <-. by exists marking.
    - apply create_marking_Some in Hfound as (marking & Hm & Hid).
      exists marking. rewrite Hm, dict_get_set_eq. split_and!; try done.
      by apply dict_set_NoDup. }
  destruct Hcached as (marking & Hget & Hid & Hne & Hnodup1).
  split_and!.
  - exists marking. split; [done|]. by apply filter_key_unique.
  - done.
  - intros s2 Hsame. unfold handle_tags, handle_tags_from.
    unfold mbind, M_bind, bind, gets, mret, M_ret, ret. rewrite Hsame, Hget.
    unfold keep_marking_id. simpl. rewrite Hid. by rewrite bool_decide_true.
  - intros s2 s3 Hsame Hadd. unfold add_all_markings in Hadd.
    apply bind_Return in Hadd as (known & s0 & Hknown & Hadd). injection Hknown as <- <-.
    apply add_markings_SDOs in Hadd. by rewrite Hadd, Hsame.
Qed.

Lemma resolved_tag_is_cached_witness :
  NoDup (dict_keys (markings __init__)) ∧
  handle_tags Demo.env ["tlp:white"] __init__
    = (Return ["marking-definition--613f2e26-407d-48c7-9eca-b8e91df99dc9"],
       set_markings [("tlp:white", TLP_WHITE Demo.env)] __init__) ∧
  ∀ s2, dict_get "tlp:white" (markings s2) = Some (TLP_WHITE Demo.env) →
        handle_tags Demo.env ["tlp:white"] s2
          = (Return ["marking-definition--613f2e26-407d-48c7-9eca-b8e91df99dc9"], s2).
Proof.
  split; [apply NoDup_nil_2|]. split; [reflexivity|].
  apply (resolved_tag_is_cached Demo.env "tlp:white"
           "marking-definition--613f2e26-407d-48c7-9eca-b8e91df99dc9" __init__
           (set_markings [("tlp:white", TLP_WHITE Demo.env)] __init__)
           (NoDup_nil_2) eq_refl).
Defined.

Definition strict_event : Event :=
  Demo.event "5a3cd604-0001" 
    [Demo.tagged ["tlp:amber+strict"] (Demo.attribute "domain" "a.example" "a1" true);
     Demo.tagged ["tlp:amber+strict"] (Demo.attribute "domain" "b.example" "a2" true)] [] [].

(** C4 as stated fails on a tag the object model rejects: resolved twice in
    one event, the tag [tlp:amber+strict] yields no identifier either time,
    and the output of the event holds no marking object. *)
Lemma unresolved_tag_counterexample :
  handle_tags Demo.env ["tlp:amber+strict"; "tlp:amber+strict"] __init__
    = (Return [], set_entropy 2 __init__) ∧
  ∃ out s', handler Demo.env strict_event __init__ = (Return out, s') ∧
            length out = 4 ∧
            filter (fun o => cls o = MarkingDefinition) out = [].
Proof.
  split; [reflexivity|].
  eexists _, _. split; [vm_compute; reflexivity|]. split; reflexivity.
Qed.

(** ** Galaxy clusters *)

(** The taxonomy family of a galaxy, when [galaxies_mapping] knows it. *)
Definition known_family (galaxy : Galaxy) : option (string * string) :=
  galaxy_type galaxy ≫= fun t => dict_get t galaxies_mapping.

Lemma construct_Return E c kw s o s' :
  construct E c kw s = (Return o, s') → s' = s ∧ o = {| cls := c; kwargs := kw |}.
Proof.
  unfold construct. destruct (validate E c kw); [done|]. by intros [= <- <-].
Qed.

Lemma generate_galaxy_args_state galaxy b_killchain b_alias sdo_type s args s' :
  generate_galaxy_args galaxy b_killchain b_alias sdo_type s = (Return args, s') → s' = s.
Proof.
  unfold generate_galaxy_args, get_misp_event. intros H.
  apply bind_Return in H as (? & ? & [_ ->]%lift_Return & H).
  apply bind_Return in H as (? & ? & [_ ->]%lift_Return & H).
  apply bind_Return in H as (? & ? & He & H).
  apply bind_Return in He as (? & ? & [= <- <-] & [_ ->]%lift_Return).
  apply bind_Return in H as (? & ? & [_ ->]%lift_Return & H).
  apply bind_Return in H as (? & sk & Hk & H).
  assert (sk = s) as ->.
  { destruct b_killchain.
    - apply bind_Return in Hk as (? & ? & [_ ->]%lift_Return & [= _ <-]). done.
    - by injection Hk as _ <-. }
  apply bind_Return in H as (? & ? & [_ ->]%lift_Return & H).
  by injection H as _ <-.
Qed.

(** What one successful call of a galaxy method does to the builder: one
    object more, the same seen clusters and recorded edges. *)
Definition adds_one_object (s s' : StixBuilder) : Prop :=
  ∃ o, SDOs s' = SDOs s ++ [o] ∧ galaxies s' = galaxies s ∧ defined s' = defined s.

Ltac galaxy_adder H :=
  apply bind_Return in H as (? & ? & ->%generate_galaxy_args_state & H);
  apply bind_Return in H as (? & ? & [= <- <-] & H);
  apply bind_Return in H as (? & ? & [-> ->]%construct_Return & H);
  apply append_object_Return in H as (? & _ & _ & ? & ? & _);
  eexists; eauto.

Lemma call_galaxy_method_Return E to_call galaxy s s' :
  call_galaxy_method E to_call galaxy s = (Return tt, s') → adds_one_object s s'.
Proof.
  unfold call_galaxy_method, adds_one_object. intros H.
  repeat (destruct (decide _) in H).
  - unfold add_attack_pattern in H. galaxy_adder H.
  - unfold add_course_of_action, add_coa_stix_object in H.
    apply bind_Return in H as (? & ? & ->%generate_galaxy_args_state & H).
    apply bind_Return in H as (? & ? & [= <- <-] & H).
    apply bind_Return in H as (? & ? & [-> ->]%construct_Return & H).
    apply append_object_Return in H as (? & _ & _ & ? & ? & _).
    eexists; eauto.
  - unfold add_intrusion_set in H. galaxy_adder H.
  - unfold add_malware in H. galaxy_adder H.
  - unfold add_threat_actor in H. galaxy_adder H.
  - unfold add_tool in H. galaxy_adder H.
  - unfold add_vulnerability_from_galaxy in H.
    apply bind_Return in H as (cluster & ? & [_ ->]%lift_Return & H).
    apply bind_Return in H as (meta & ? & [_ ->]%lift_Return & H).
    apply bind_Return in H as (aliases & sa & Ha & H).
    assert (sa = s) as ->.
    { destruct meta; [by injection Ha as _ <-|by apply lift_Return in Ha as [_ ->]]. }
    apply bind_Return in H as (? & ? & [_ ->]%lift_Return & H).
    apply bind_Return in H as (? & ? & [= <- <-] & H).
    apply bind_Return in H as (? & ? & [-> ->]%construct_Return & H).
    apply append_object_Return in H as (? & _ & _ & ? & ? & _).
    eexists; eauto.
  - done.
Qed.

Section Clusters.
Context (E : Env) (galaxy : Galaxy) (cluster : GalaxyCluster) (stix_type to_call : string).
Hypothesis first_cluster : head (galaxy_GalaxyCluster galaxy) = Some cluster.
Hypothesis family : known_family galaxy = Some (stix_type, to_call).

Let target := stix_type +:+ "--" +:+ collection_uuid cluster.

(** A reference to a cluster that was seen before only records an edge. *)
Lemma parse_galaxy_seen source_id s :
  collection_uuid cluster ∈ galaxies s →
  parse_galaxy E galaxy source_id s
    = (Return tt, set_defined (dict_append source_id target (defined s)) s).
Proof.
  intros Hseen. unfold parse_galaxy. rewrite first_cluster.
  unfold mbind at 1, M_bind, bind, lift. cbn [of_option].
  change (galaxy_type galaxy ≫= _) with (known_family galaxy). rewrite family.
  unfold mbind, M_bind, bind, gets, modify, mret, M_ret, ret.
  by rewrite bool_decide_true.
Qed.

(** A reference to a cluster not seen yet builds its object, marks the
    cluster seen and records an edge. *)
Lemma parse_galaxy_first source_id s s' :
  collection_uuid cluster ∉ galaxies s →
  parse_galaxy E galaxy source_id s = (Return tt, s') →
  ∃ o, SDOs s' = SDOs s ++ [o] ∧
       galaxies s' = galaxies s ++ [collection_uuid cluster] ∧
       defined s' = dict_append source_id target (defined s).
Proof.
  intros Hnew. unfold parse_galaxy. rewrite first_cluster.
  unfold mbind at 1, M_bind, bind, lift. cbn [of_option].
  change (galaxy_type galaxy ≫= _) with (known_family galaxy). rewrite family.
  intros H. apply bind_Return in H as (seen & ? & [= <- <-] & H).
  rewrite bool_decide_false in H by done.
  apply bind_Return in H as ([] & s1 & Hadd & H).
  apply bind_Return in Hadd as ([] & s0 & Hcall & Hadd).
  apply call_galaxy_method_Return in Hcall as (o & HS & Hg & Hd).
  injection Hadd as <-. injection H as <-. simpl.
  exists o. by rewrite Hg, Hd.
Qed.

End Clusters.

(** C3, as amended: within one event, two references to the same cluster of
    a known family record two relationship edges and build at most one target
    object: exactly one when the cluster was not seen before in the run, none
    when it was (in this event or in an earlier event of the same input).  A
    reference to a cluster already seen only records its edge. *)
Theorem galaxy_cluster_built_once (E : Env) (g1 g2 : Galaxy) (c1 c2 : GalaxyCluster)
    (stix1 call1 stix2 call2 src1 src2 : string) :
  head (galaxy_GalaxyCluster g1) = Some c1 →
  head (galaxy_GalaxyCluster g2) = Some c2 →
  collection_uuid c1 = collection_uuid c2 →
  known_family g1 = Some (stix1, call1) →
  known_family g2 = Some (stix2, call2) →
  let c := collection_uuid c1 in
  (∀ s, c ∈ galaxies s →
        parse_galaxy E g2 src2 s
          = (Return tt, set_defined (dict_append src2 (stix2 +:+ "--" +:+ c) (defined s)) s)) ∧
  (∀ s s2,
     (parse_galaxy E g1 src1;; parse_galaxy E g2 src2) s = (Return tt, s2) →
     ∃ new,
       SDOs s2 = SDOs s ++ new ∧
       length new = (if bool_decide (c ∈ galaxies s) then 0 else 1) ∧
       c ∈ galaxies s2 ∧
       defined s2 = dict_append src2 (stix2 +:+ "--" +:+ c)
                      (dict_append src1 (stix1 +:+ "--" +:+ c) (defined s))).
Proof.
  intros Hc1 Hc2 Hsame Hf1 Hf2 c.
  assert (Hseen : ∀ s, c ∈ galaxies s →
            parse_galaxy E g2 src2 s
            = (Return tt, set_defined (dict_append src2 (stix2 +:+ "--" +:+ c) (defined s)) s)).
  { intros s Hin. unfold c. rewrite Hsame.
    apply (parse_galaxy_seen E g2 c2 stix2 call2 Hc2 Hf2). by rewrite <-Hsame. }
  split; [exact Hseen|].
  intros s s2 H. apply bind_Return in H as ([] & s1 & H1 & H2).
  case_bool_decide as Hin.
  - rewrite (parse_galaxy_seen E g1 c1 stix1 call1 Hc1 Hf1 src1 s Hin) in H1.
    injection H1 as <-. rewrite Hseen in H2 by done. injection H2 as <-.
    exists []. simpl. by rewrite app_nil_r.
  - apply (parse_galaxy_first E g1 c1 stix1 call1 Hc1 Hf1 src1 s s1 Hin) in H1
      as (o & HS & Hg & Hd).
    assert (Hin1 : c ∈ galaxies s1) by (rewrite Hg; set_solver).
    rewrite Hseen in H2 by done. injection H2 as <-.
    exists [o]. simpl. by rewrite Hd.
Qed.

Definition mimikatz_cluster : GalaxyCluster :=
  {| collection_uuid := "0a113d54-3ad1-4ac3-a966-3d2075d9b1c6";
     cluster_description := "Credential dumper"; cluster_value := "Mimikatz";
     cluster_tag_name := "misp-galaxy:tool=Mimikatz";
     cluster_meta := Some [("synonyms", ["mimi"])] |}.

Definition first_event : Event :=
  Demo.event "5a3cd604-0002"
    [Demo.clustered [Demo.mimikatz "tool"]
       (Demo.tagged ["tlp:white"] (Demo.attribute "domain" "a.example" "a1" true));
     Demo.attribute "weird" "x" "a2" false] [] [].

Definition second_event : Event :=
  Demo.event "5a3cd604-0003"
    [Demo.clustered [Demo.mimikatz "tool"] (Demo.attribute "domain" "b.example" "b1" true);
     Demo.clustered [Demo.mimikatz "tool"] (Demo.attribute "domain" "c.example" "b2" true)]
    [] [].

Definition before_references : StixBuilder :=
  set_misp_event (Some second_event) __init__.

Definition after_references : StixBuilder :=
  Eval vm_compute in
    ((parse_galaxy Demo.env (Demo.mimikatz "tool") "indicator--b1";;
      parse_galaxy Demo.env (Demo.mimikatz "tool") "indicator--b2") before_references).2.

Lemma galaxy_cluster_built_once_witness :
  head (galaxy_GalaxyCluster (Demo.mimikatz "tool")) = Some mimikatz_cluster ∧
  known_family (Demo.mimikatz "tool") = Some ("tool", "add_tool") ∧
  (parse_galaxy Demo.env (Demo.mimikatz "tool") "indicator--b1";;
   parse_galaxy Demo.env (Demo.mimikatz "tool") "indicator--b2") before_references
    = (Return tt, after_references) ∧
  ∃ new, SDOs after_references = SDOs before_references ++ new ∧
         length new = (if bool_decide (collection_uuid mimikatz_cluster
                                        ∈ galaxies before_references) then 0 else 1).
Proof.
  split; [reflexivity|]. split; [reflexivity|].
  assert (Hrun : (parse_galaxy Demo.env (Demo.mimikatz "tool") "indicator--b1";;
                  parse_galaxy Demo.env (Demo.mimikatz "tool") "indicator--b2")
                   before_references = (Return tt, after_references))
    by (vm_compute; reflexivity).
  split; [exact Hrun|].
  pose proof (galaxy_cluster_built_once Demo.env (Demo.mimikatz "tool") (Demo.mimikatz "tool")
                mimikatz_cluster mimikatz_cluster "tool" "add_tool" "tool" "add_tool"
                "indicator--b1" "indicator--b2" eq_refl eq_refl eq_refl eq_refl eq_refl)
    as Hboth.
  apply proj2 in Hboth. specialize (Hboth before_references after_references Hrun).
  destruct Hboth as (new & HS & Hlen & _).
  exists new. split; [exact HS|exact Hlen].
Defined.

(** C3 as stated fails for a later event of a multi-event input: the second
    event refers twice to a cluster the first event already met, and its
    output holds two relationship edges to the cluster and no target
    object. *)
Lemma later_event_counterexample :
  ∃ out1 s1 out2 s2,
    handler Demo.env first_event __init__ = (Return out1, s1) ∧
    handler Demo.env second_event s1 = (Return out2, s2) ∧
    length (filter (fun o => cls o = Tool) out1) = 1 ∧
    filter (fun o => cls o = Tool) out2 = [] ∧
    omap edge_of out2
      = [("indicator--b1", "tool--0a113d54-3ad1-4ac3-a966-3d2075d9b1c6", "indicates");
         ("indicator--b2", "tool--0a113d54-3ad1-4ac3-a966-3d2075d9b1c6", "indicates")].
Proof.
  eexists _, _, _, _. split; [vm_compute; reflexivity|].
  split; [vm_compute; reflexivity|]. split_and!; vm_compute; reflexivity.
Qed.

(** ** What an event starts from *)

(** Builders that differ only in what [handler] assigns before it reads
    anything. *)
Definition same_run_state (s1 s2 : StixBuilder) : Prop :=
  orgs s1 = orgs s2 ∧ galaxies s1 = galaxies s2 ∧ ids s1 = ids s2 ∧
  custom_objects s1 = custom_objects s2 ∧ identity_id s1 = identity_id s2 ∧
  objects_to_parse s1 = objects_to_parse s2 ∧ entropy s1 = entropy s2.

Lemma bind_same_start {A B} (m : M A) (f : A → M B) s1 s2 :
  m s1 = m s2 → (m ≫= f) s1 = (m ≫= f) s2.
Proof. unfold mbind, M_bind, bind. by intros ->. Qed.

Lemma handler_begin_same_run_state event s1 s2 :
  same_run_state s1 s2 → handler_begin event s1 = handler_begin event s2.
Proof.
  intros (Ho & Hg & Hi & Hc & Hid & Hp & He).
  cbv [handler_begin mbind M_bind bind modify set_to_define set_defined set_markings
       set_links set_object_refs set_SDOs set_report_id set_misp_event
       orgs galaxies ids custom_objects misp_event report_id identity_id SDOs
       object_refs links markings defined to_define objects_to_parse entropy].
  destruct s1, s2. simpl in *. by subst.
Qed.

(** C1, as amended: when the translation of an event begins, the marking
    cache, the produced objects, the reference list, the links and the
    recorded relationships are emptied, so nothing of them reaches a later
    event; the identifier registry, the seen galaxy clusters, the generated
    custom classes and the known organisations are left as the earlier events
    of the run made them. *)
Theorem handler_resets_event_state (E : Env) (event : Event) :
  (∀ s, let s0 := (handler_begin event s).2 in
        markings s0 = [] ∧ SDOs s0 = [] ∧ object_refs s0 = [] ∧ links s0 = [] ∧
        defined s0 = [] ∧ to_define s0 = [] ∧
        ids s0 = ids s ∧ galaxies s0 = galaxies s ∧
        custom_objects s0 = custom_objects s ∧ orgs s0 = orgs s) ∧
  (∀ s1 s2, same_run_state s1 s2 → handler E event s1 = handler E event s2).
Proof.
  split.
  - intros s. by split_and!.
  - intros s1 s2 Hsame. unfold handler.
    apply bind_same_start. by apply handler_begin_same_run_state.
Qed.

(** C1 as stated fails: entries the first event put in the registry, in the
    seen clusters and in the generated classes are there when the second
    event begins, while the marking cache is empty again; this is why the
    second event does not build the cluster's object anew. *)
Lemma caches_survive_counterexample :
  ∃ out1 s1,
    handler Demo.env first_event __init__ = (Return out1, s1) ∧
    dict_has "tlp:white" (markings s1) = true ∧
    let s0 := (handler_begin second_event s1).2 in
    markings s0 = [] ∧
    "0a113d54-3ad1-4ac3-a966-3d2075d9b1c6" ∈ galaxies s0 ∧
    ids s0 !! "a1" = Some "indicator" ∧
    dict_has "x-misp-object-weird" (custom_objects s0) = true.
Proof.
  eexists _, _. split; [vm_compute; reflexivity|].
  split; [vm_compute; reflexivity|]. simpl.
  split; [reflexivity|]. split; [|split; vm_compute; reflexivity].
  apply list_elem_of_In. vm_compute. tauto.
Qed.

(** ** Decimal numerals *)

(** The value of an ASCII digit, and the texts made of ASCII digits: what
    [str(n)] produces. *)
Definition ascii_digit (c : ascii) : option Z :=
  let n := nat_of_ascii c in
  if (48 <=? n) && (n <=? 57) then Some (Z.of_nat (n - 48)) else None.

Fixpoint ascii_digits (s : string) : bool :=
  match s with
  | EmptyString => true
  | String c s' => bool_decide (is_Some (ascii_digit c)) && ascii_digits s'
  end.

Lemma ascii_digit_pretty_N_char (d : N) :
  (d < 10)%N → ascii_digit (pretty_N_char d) = Some (Z.of_N d).
Proof.
  intros Hd.
  destruct d as [|p]; [done|].
  do 4 (destruct p as [p|p|]; try done; try lia).
Qed.

(** What the string functions see of an ASCII digit. *)
Lemma ascii_digit_code (c : ascii) (d : Z) :
  ascii_digit c = Some d →
  (N_of_ascii c <? 192)%N = true ∧
  Str.decimal_of (N_of_ascii c) = Some d ∧
  Str.digit (N_of_ascii c) = true ∧
  Str.int_space (N_of_ascii c) = false ∧
  (N_of_ascii c =? 45)%N = false ∧ (N_of_ascii c =? 43)%N = false ∧
  (N_of_ascii c =? 32)%N = false.
Proof.
  destruct c as [[] [] [] [] [] [] [] []]; try discriminate;
    intros [= <-]; vm_compute; done.
Qed.

Lemma scan_single (c : ascii) (s : string) :
  (N_of_ascii c <? 192)%N = true →
  Str.scan (String c s) = (N_of_ascii c, String c "") :: Str.scan s.
Proof. intros H. cbn [Str.scan]. by rewrite H. Qed.

Lemma code_points_single (c : ascii) (s : string) :
  (N_of_ascii c <? 192)%N = true →
  Str.code_points (String c s) = N_of_ascii c :: Str.code_points s.
Proof. intros H. unfold Str.code_points. by rewrite scan_single. Qed.

Lemma drop_while_none {A} (p : A → bool) (l : list A) :
  (∀ x, head l = Some x → p x = false) → Str.drop_while p l = l.
Proof. destruct l as [|x l]; [done|]. intros H. simpl. by rewrite (H x). Qed.

(** Trimming a list whose two ends stay leaves it as it is. *)
Lemma trim_none {A} (p : A → bool) (l : list A) :
  (∀ x, head l = Some x → p x = false) → (∀ x, last l = Some x → p x = false) →
  Str.trim p l = l.
Proof.
  intros Hhead Hlast. unfold Str.trim. rewrite (drop_while_none p l Hhead).
  rewrite drop_while_none, rev_involutive; [done|].
  intros x Hx. apply Hlast. clear -Hx.
  destruct l as [|y l _] using rev_ind; [done|].
  rewrite rev_unit in Hx. injection Hx as ->. by rewrite last_snoc.
Qed.

(** The number a text of digits reads as, from the accumulator [acc]. *)
Definition digits_value (s : string) (acc : Z) (prev : bool) : option Z :=
  Str.int_digits (Str.code_points s) acc prev.

Lemma digits_value_cons c s acc prev d :
  ascii_digit c = Some d →
  digits_value (String c s) acc prev = digits_value s (10 * acc + d)%Z true.
Proof.
  intros (Hc & Hd & _)%ascii_digit_code. unfold digits_value.
  rewrite code_points_single by done. cbn [Str.int_digits]. by rewrite Hd.
Qed.

Lemma digits_value_pretty_N_go (x : N) (s : string) (acc : Z) (prev : bool) :
  (0 < x)%N →
  ∃ k : Z, (0 <= k)%Z ∧
    digits_value (pretty_N_go x s) acc prev
    = digits_value s (acc * 10 ^ k + Z.of_N x)%Z true.
Proof.
  revert s. induction (N.lt_wf_0 x) as [x _ IH]. intros s Hx.
  rewrite pretty_N_go_step by done.
  assert (Hmod : (x `mod` 10 < 10)%N) by (apply N.mod_lt; lia).
  destruct (decide (x `div` 10 = 0)%N) as [Hz|Hnz].
  - rewrite Hz, pretty_N_go_0.
    rewrite (digits_value_cons _ _ _ _ _ (ascii_digit_pretty_N_char _ Hmod)).
    exists 1%Z. split; [lia|]. f_equal.
    assert (Hx' : (x `mod` 10 = x)%N).
    { rewrite (N.div_mod x 10) at 2 by lia. rewrite Hz. lia. }
    rewrite Hx', Z.pow_1_r. lia.
  - destruct (IH (x `div` 10)%N) with (s := String (pretty_N_char (x `mod` 10)) s)
      as (k & Hk & Heq).
    { apply N.div_lt; lia. }
    { by apply N.neq_0_lt_0. }
    rewrite Heq.
    rewrite (digits_value_cons _ _ _ _ _ (ascii_digit_pretty_N_char _ Hmod)).
    exists (k + 1)%Z. split; [lia|]. f_equal.
    rewrite Z.pow_add_r, Z.pow_1_r by lia.
    pose proof (N.div_mod x 10 ltac:(lia)) as Hdm.
    assert (Hx' : (Z.of_N x = 10 * Z.of_N (x `div` 10) + Z.of_N (x `mod` 10))%Z) by lia.
    rewrite Hx'. ring.
Qed.

Lemma ascii_digits_app s1 s2 :
  ascii_digits (s1 +:+ s2) = ascii_digits s1 && ascii_digits s2.
Proof.
  induction s1 as [|c s1 IH]; simpl; [done|]. by rewrite IH, andb_assoc.
Qed.

Lemma string_app_assoc (s1 s2 s3 : string) : (s1 +:+ s2) +:+ s3 = s1 +:+ s2 +:+ s3.
Proof.
  induction s1 as [|c s1 IH]; [done|].
  change (String c ((s1 +:+ s2) +:+ s3) = String c (s1 +:+ s2 +:+ s3)). by rewrite IH.
Qed.

Lemma string_app_nil_r (s : string) : s +:+ "" = s.
Proof.
  induction s as [|c s IH]; [done|].
  change (String c (s +:+ "") = String c s). by rewrite IH.
Qed.

Lemma pretty_N_go_digits (x : N) (s : string) :
  (0 < x)%N →
  ∃ c d rest, pretty_N_go x s = String c (rest +:+ s) ∧ ascii_digit c = Some d ∧
              ascii_digits rest = true.
Proof.
  revert s. induction (N.lt_wf_0 x) as [x _ IH]. intros s Hx.
  rewrite pretty_N_go_step by done.
  assert (Hmod : (x `mod` 10 < 10)%N) by (apply N.mod_lt; lia).
  destruct (decide (x `div` 10 = 0)%N) as [Hz|Hnz].
  - rewrite Hz, pretty_N_go_0. exists (pretty_N_char (x `mod` 10)), (Z.of_N (x `mod` 10)), "".
    split; [done|]. split; [by apply ascii_digit_pretty_N_char|done].
  - destruct (IH (x `div` 10)%N) with (s := String (pretty_N_char (x `mod` 10)) s)
      as (c & d & rest & Heq & Hc & Hall).
    { apply N.div_lt; lia. }
    { by apply N.neq_0_lt_0. }
    rewrite Heq. exists c, d, (rest +:+ String (pretty_N_char (x `mod` 10)) "").
    split; [by rewrite string_app_assoc|]. split; [done|].
    rewrite ascii_digits_app, Hall. simpl.
    by rewrite (ascii_digit_pretty_N_char _ Hmod).
Qed.

(** [str(n)] is a non-empty text of ASCII digits. *)
Lemma of_nat_digits (n : nat) :
  ∃ c d rest, Str.of_nat n = String c rest ∧ ascii_digit c = Some d ∧
              ascii_digits rest = true.
Proof.
  unfold Str.of_nat, pretty, pretty_nat, pretty, pretty_N.
  destruct (decide (N.of_nat n = 0)%N) as [Hz|Hnz].
  - by exists "0"%char, 0%Z, "".
  - destruct (pretty_N_go_digits (N.of_nat n) "") as (c & d & rest & Heq & Hc & Hall); [lia|].
    rewrite string_app_nil_r in Heq. by exists c, d, rest.
Qed.

(** The code points of a text of ASCII digits are digits, one per byte. *)
Lemma code_points_digits (s : string) :
  ascii_digits s = true →
  Forall (fun c => Str.digit c = true ∧ Str.int_space c = false) (Str.code_points s).
Proof.
  induction s as [|c s IH]; [by constructor|].
  cbn [ascii_digits]. intros [Hc Hs]%andb_true_iff.
  apply bool_decide_eq_true in Hc as [d Hd].
  apply ascii_digit_code in Hd as (H192 & _ & Hdigit & Hspace & _).
  rewrite code_points_single by done. constructor; [done|by apply IH].
Qed.

Lemma code_points_length (s : string) :
  ascii_digits s = true → length (Str.code_points s) = String.length s.
Proof.
  induction s as [|c s IH]; [done|].
  cbn [ascii_digits]. intros [Hc Hs]%andb_true_iff.
  apply bool_decide_eq_true in Hc as [d Hd].
  apply ascii_digit_code in Hd as (H192 & _).
  rewrite code_points_single by done. cbn [length String.length]. by rewrite IH.
Qed.

Lemma length_omap_le {A B} (f : A → option B) (l : list A) :
  length (omap f l) <= length l.
Proof.
  induction l as [|x l IH]; [done|]. csimpl. destruct (f x); simpl; lia.
Qed.

(** The numerals [int] reads back: those within its limit of digits. *)
Definition short_numeral (n : nat) : Prop :=
  (N.of_nat (String.length (Str.of_nat n)) <= Str.int_max_str_digits)%N.

Lemma to_int_digits (c : ascii) (d : Z) (rest : string) :
  ascii_digit c = Some d → ascii_digits rest = true →
  (N.of_nat (String.length (String c rest)) <= Str.int_max_str_digits)%N →
  Str.to_int (String c rest) = digits_value (String c rest) 0%Z false.
Proof.
  intros Hc Hrest Hshort. unfold Str.to_int, digits_value.
  assert (Hall : ascii_digits (String c rest) = true).
  { cbn [ascii_digits]. rewrite Hrest, Hc. by rewrite bool_decide_true. }
  pose proof (code_points_length _ Hall) as Hlen.
  apply code_points_digits in Hall. rewrite Forall_forall in Hall.
  rewrite trim_none.
  - apply ascii_digit_code in Hc as (H192 & _ & _ & _ & H45 & H43 & _).
    rewrite code_points_single in * by done. rewrite H45, H43.
    unfold Str.int_literal.
    pose proof (length_omap_le Str.decimal_of (N_of_ascii c :: Str.code_points rest)).
    destruct (N.ltb_spec Str.int_max_str_digits
                (N.of_nat (length (omap Str.decimal_of
                                     (N_of_ascii c :: Str.code_points rest)))));
      [lia|done].
  - intros x Hx. apply Hall. by apply head_Some_elem_of.
  - intros x Hx. apply Hall. by apply last_Some_elem_of.
Qed.

(** [int(str(n)) == n] *)
Lemma to_int_of_nat (n : nat) :
  short_numeral n → Str.to_int (Str.of_nat n) = Some (Z.of_nat n).
Proof.
  unfold short_numeral. intros Hshort.
  destruct (of_nat_digits n) as (c & d & rest & Heq & Hc & Hall).
  rewrite Heq in Hshort. rewrite Heq, (to_int_digits _ _ _ Hc Hall Hshort), <-Heq.
  unfold Str.of_nat, pretty, pretty_nat, pretty, pretty_N.
  destruct (decide (N.of_nat n = 0)%N) as [Hz|Hnz].
  - assert (n = 0) as -> by lia. reflexivity.
  - assert (Hpos : (0 < N.of_nat n)%N) by lia.
    destruct (digits_value_pretty_N_go (N.of_nat n) "" 0%Z false Hpos) as (k & Hk & ->).
    unfold digits_value. cbn. f_equal. lia.
Qed.

(** [str(n).isdigit()] *)
Lemma of_nat_isdigit (n : nat) : Str.isdigit (Str.of_nat n) = true.
Proof.
  destruct (of_nat_digits n) as (c & d & rest & -> & Hc & Hall).
  assert (Hdigits : ascii_digits (String c rest) = true).
  { cbn [ascii_digits]. rewrite Hall, Hc. by rewrite bool_decide_true. }
  apply code_points_digits in Hdigits. unfold Str.isdigit.
  apply ascii_digit_code in Hc as (H192 & _).
  rewrite code_points_single in * by done.
  apply forallb_forall. intros x Hx%list_elem_of_In.
  rewrite Forall_forall in Hdigits. by apply Hdigits.
Qed.

(** ** The section count of a [pe] object *)

(** The count a [pe] object declares: the value of its last attribute stored
    under [number_of_sections]. *)
Definition declared_count (E : Env) (pe_object : MispObject) : option string :=
  attr_value <$> last (filter (fun a => pe_field E a = "number_of_sections")
                         (obj_Attribute pe_object)).

Lemma pe_fields_get E (k : string) (attributes : list Attribute) (extension : pydict) :
  dict_get k (foldl (fun extension attribute =>
                       dict_set (pe_field E attribute) (PStr (attr_value attribute)) extension)
                extension attributes)
  = match last (filter (fun a => pe_field E a = k) attributes) with
    | Some a => Some (PStr (attr_value a))
    | None => dict_get k extension
    end.
Proof.
  revert extension. induction attributes as [|a attributes IH]; intros extension; [done|].
  simpl. rewrite IH. destruct (decide (pe_field E a = k)) as [Hk|Hk].
  - rewrite filter_cons_True by done.
    destruct (filter _ attributes) as [|b l] eqn:Hf.
    + simpl. subst k. apply dict_get_set_eq.
    + rewrite last_cons_cons. destruct (last (b :: l)) eqn:Hl; [done|].
      by apply last_None in Hl.
  - rewrite filter_cons_False by done.
    destruct (last _); [done|]. by rewrite dict_get_set_ne.
Qed.

Lemma append_section_get v extension extension' k :
  append_section v extension = Return extension' → k ≠ "sections" →
  dict_get k extension' = dict_get k extension.
Proof.
  unfold append_section. intros H Hk.
  destruct (dict_get "sections" extension) as [[]|]; simplify_eq;
    by rewrite dict_get_set_ne.
Qed.

Lemma pe_sections_observable_get E sections todo extension extension' k :
  pe_sections_observable E sections todo extension = Return extension' → k ≠ "sections" →
  dict_get k extension' = dict_get k extension.
Proof.
  intros H Hk. revert extension H.
  induction todo as [|section todo IH]; intros extension H; simpl in H.
  - by injection H as <-.
  - apply obind_Return in H as (d_section & _ & H).
    destruct (validate E WindowsPESection _); [done|].
    apply obind_Return in H as (extension1 & Happ & H).
    rewrite (IH _ H). by apply (append_section_get _ _ _ _ Happ).
Qed.

(** A text that stands for the number [n]: its decimal numeral, or a text
    that [int] reads as [n]. *)
Definition stands_for (text : string) (n : nat) : Prop :=
  text = Str.of_nat n ∨ Str.to_int text = Some (Z.of_nat n).

(** The [number_of_sections] field of the extension stands for the number of
    sections it was built from: the declared text is kept when [int] reads
    it as that number, and is overwritten with the numeral when not. *)
Lemma pe_extension_number_of_sections (E : Env) (pe_object : MispObject)
    (sections : list MispObject) (pe_type : string) (extensions : pyval) :
  parse_pe_extensions_observable E pe_object sections pe_type = Return extensions →
  ∃ fields declared text,
    extensions = PDict [("windows-pebinary-ext", PDict fields)] ∧
    declared_count E pe_object = Some declared ∧
    dict_get "number_of_sections" fields = Some (PStr text) ∧
    stands_for text (length sections) ∧
    text = (if decide (Str.to_int declared = Some (Z.of_nat (length sections)))
            then declared else Str.of_nat (length sections)).
Proof.
  unfold parse_pe_extensions_observable. intros H.
  apply obind_Return in H as (extension & Hsections & H).
  apply obind_Return in H as (count & Hcount & H).
  injection H as <-.
  pose proof (pe_sections_observable_get _ _ _ _ _ "number_of_sections" Hsections
                ltac:(done)) as Hkeep.
  rewrite pe_fields_get in Hkeep. fold (declared_count E pe_object) in Hkeep.
  unfold declared_number_of_sections in Hcount.
  destruct (dict_get "number_of_sections" extension) as [[| | |text| | | |]|] eqn:Hget;
    try done.
  apply of_option_Return in Hcount.
  assert (Hdeclared : declared_count E pe_object = Some text).
  { unfold declared_count in *.
    destruct (last _) as [a|]; simpl in *; [by injection Hkeep as ->|done]. }
  case_bool_decide as Hne.
  - eexists _, text, (Str.of_nat (length sections)).
    split; [reflexivity|]. split; [done|].
    rewrite dict_get_set_eq. split; [done|]. split; [by left|].
    rewrite decide_False; [done|]. rewrite Hcount. by intros [= ->].
  - assert (count = Z.of_nat (length sections)) as ->
      by (by destruct (decide (Z.of_nat (length sections) = count))).
    exists extension, text, text. split; [reflexivity|]. split; [done|].
    split; [done|]. split; [by right|]. by rewrite decide_True.
Qed.

(** ** The paths of a file object *)

Definition debug_path_clause : string :=
  "file:parent_directory_ref.path = '/home/chrisr3d/git/'".
Definition debug_fullpath_clause : string :=
  "file:parent_directory_ref.path = '/home/chrisr3d/git/MISP/cleanMISP/app/files/scripts/stix2'".

Lemma file_payload_clauses_extend E feature pattern_part attributes_dict patterns patterns' :
  file_payload_clauses E feature pattern_part attributes_dict patterns = Return patterns' →
  ∃ extra, patterns' = patterns ++ extra.
Proof.
  unfold file_payload_clauses. intros H.
  destruct (dict_get feature attributes_dict) as [value|];
    [|injection H as <-; exists []; by rewrite app_nil_r].
  apply obind_Return in H as ([value' patterns1] & Hsplit & H).
  assert (∃ extra, patterns1 = patterns ++ extra) as [extra1 ->].
  { destruct value; try done.
    - destruct (Str.contains " | " s).
      + destruct (Str.split " | " s) as [|? [|? [|? ?]]]; try done.
        injection Hsplit as _ <-. by eexists.
      + injection Hsplit as _ <-. exists []. by rewrite app_nil_r.
    - destruct (existsb _ l); [done|]. injection Hsplit as _ <-.
      exists []. by rewrite app_nil_r. }
  destruct (decide (feature = "malware-sample")).
  - destruct value'; try done.
    destruct (Str.split "|" s) as [|? [|? [|? ?]]]; try done.
    injection H as <-. rewrite <-app_assoc. by eexists.
  - injection H as <-. rewrite <-app_assoc. by eexists.
Qed.

Lemma file_pattern_of_paths E pattern attributes_dict patterns :
  file_pattern_of E pattern attributes_dict = Return patterns →
  debug_path_clause ∈ patterns ∧ debug_fullpath_clause ∈ patterns.
Proof.
  unfold file_pattern_of. intros H.
  apply obind_Return in H as (patterns0 & _ & H).
  apply obind_Return in H as (patterns1 & _ & H).
  apply obind_Return in H as (patterns2 & Hpath & H).
  apply obind_Return in H as (patterns3 & Hfullpath & H).
  apply obind_Return in H as (patterns4 & [extra4 ->]%file_payload_clauses_extend & H).
  apply file_payload_clauses_extend in H as [extra5 ->].
  unfold dict_update, file_paths_update in Hpath, Hfullpath. simpl in Hpath, Hfullpath.
  rewrite dict_get_set_ne, dict_get_set_eq in Hpath by done.
  rewrite dict_get_set_eq in Hfullpath.
  simpl in Hpath, Hfullpath. injection Hpath as <-. injection Hfullpath as <-.
  split; set_solver.
Qed.

Definition dropper : list Attribute :=
  [Demo.related "filename" (Demo.attribute "filename" "dropper.exe" "f1" false);
   Demo.related "path" (Demo.attribute "text" "/tmp/malware/" "f2" false);
   Demo.related "fullpath" (Demo.attribute "text" "/tmp/malware/dropper.exe" "f3" false);
   Demo.related "md5" (Demo.attribute "md5" "0cc175b9c0f1b6a831c399e269772661" "f4" false)].

(** C9 does not hold of the code: both file builders overwrite the [path]
    and [fullpath] entries read from the object with two fixed paths before
    using them.  Every pattern the pattern builder returns holds the two
    fixed clauses, and on a file object at [/tmp/malware/] neither builder
    emits the object's own path. *)
Theorem file_paths_are_fixed_constants :
  (∀ E attributes object_id s patterns s',
     resolve_file_pattern E attributes object_id s = (Return patterns, s') →
     debug_path_clause ∈ patterns ∧ debug_fullpath_clause ∈ patterns) ∧
  (resolve_file_pattern Demo.env dropper "file--x" __init__).1
    = Return ["file:hashes.'MD5' = '0cc175b9c0f1b6a831c399e269772661'";
              "file:name = 'dropper.exe'";
              debug_path_clause; debug_fullpath_clause] ∧
  (resolve_file_observable Demo.env dropper "file--x" __init__).1
    = Return (PDict
        [("0", PDict [("type", PStr "directory"); ("path", PStr "/home/chrisr3d/git/")]);
         ("1", PDict
            [("type", PStr "file");
             ("hashes", PDict [("MD5", PStr "0cc175b9c0f1b6a831c399e269772661")]);
             ("name", PStr "dropper.exe");
             ("parent_directory_ref", PStr "0");
             ("x_misp_multiple_fullpath",
              PStr "/home/chrisr3d/git/MISP/cleanMISP/app/files/scripts/stix2")])]).
Proof.
  split; [|split; vm_compute; reflexivity].
  intros E attributes object_id s patterns s' H. unfold resolve_file_pattern in H.
  apply bind_Return in H as (pattern & ? & _ & H).
  apply bind_Return in H as (attributes_dict & ? & _ & H).
  apply lift_Return in H as [H _]. by apply file_pattern_of_paths in H.
Qed.

(** ** Attributes of a usual type *)






Lemma handle_time_fields_Return first_seen last_seen timestamp stix_type fields time_fields :
  dict_get stix_type _time_fields = Some fields →
  handle_time_fields first_seen last_seen timestamp stix_type = Return time_fields →
  ∃ v1 v2, time_fields = [("created", timestamp); ("modified", timestamp);
                          (fields.1, v1); (fields.2, v2)].
Proof.
  unfold handle_time_fields. intros -> H. simpl in H. injection H as <-. by eexists _, _.
Qed.





Definition before_attribute : StixBuilder :=
  Eval vm_compute in (handler_begin (Demo.event "5a3cd604-0004" [] [] []) __init__).2.


(** ** Objects and their flags *)

(** The sections a [pe] object refers to that are held for the second pass,
    with their flags, in the order of the references. *)
Definition held_sections (entries : list (string * (bool * MispObject)))
    (references : list ObjectReference) : list (bool * MispObject) :=
  omap (fun r => if bool_decide (ref_Object_name r = "pe-section")
                 then dict_get (referenced_uuid r) entries else None) references.

(** The entries held under a name. *)
Definition held_entries (name : string) (s : StixBuilder) :
    list (string * (bool * MispObject)) :=
  default [] (dict_get name (objects_to_parse s)).


Lemma try_except_Return {A} (m : M A) catches (h : M A) s a s' :
  try_except m catches h s = (Return a, s') →
  m s = (Return a, s') ∨ ∃ e s1, m s = (Raise e, s1) ∧ h s1 = (Return a, s').
Proof.
  unfold try_except. destruct (m s) as [[a0|e] s1]; [by left|].
  destruct (catches e); [|done]. right. by exists e, s1.
Qed.


Lemma add_object_indicator_Return E misp_object pattern_arg s s' :
  add_object_indicator E misp_object pattern_arg s = (Return tt, s') →
  ∃ before o, SDOs s' = before ++ [o] ∧ cls o = Indicator.
Proof.
  unfold add_object_indicator. intros H.
  apply bind_Return in H as ([name pattern] & s1 & _ & H).
  apply bind_Return in H as (timestamp & s2 & _ & H).
  apply bind_Return in H as (created_by & s3 & _ & H).
  apply bind_Return in H as (time_fields & s4 & _ & H).
  apply bind_Return in H as (indicator & s5 & [-> ->]%construct_Return & H).
  apply append_object_Return in H as (HS & _). by eexists _, _.
Qed.


Lemma held_Return name s :
  ∃ s1, held name s = (Return (held_entries name s), s1) ∧
        SDOs s1 = SDOs s ∧
        ∀ name', held_entries name' s1 = held_entries name' s.
Proof.
  unfold held, held_entries, mbind, M_bind, bind, gets, modify, mret, M_ret, ret.
  destruct (dict_get name (objects_to_parse s)) as [entries|] eqn:Hget.
  - by exists s.
  - eexists. split; [reflexivity|]. split; [done|]. intros name'. simpl.
    destruct (decide (name' = name)) as [->|Hne].
    + rewrite dict_get_set_eq. by rewrite ?Hget.
    + by rewrite dict_get_set_ne.
Qed.

Lemma resolve_sections_Return references to_ids_list sections s :
  let found := held_sections (held_entries "pe-section" s) references in
  ∃ s1, resolve_sections references to_ids_list sections s
          = (Return (to_ids_list ++ found.*1, sections ++ found.*2), s1) ∧
        SDOs s1 = SDOs s.
Proof.
  revert to_ids_list sections s.
  induction references as [|reference references IH]; intros to_ids_list sections s; simpl.
  - exists s. by rewrite !app_nil_r.
  - case_bool_decide as Hname.
    + destruct (held_Return "pe-section" s) as (s1 & Hheld & HS & Hsame).
      rewrite (bind_run _ _ _ _ _ Hheld).
      destruct (dict_get (referenced_uuid reference) (held_entries "pe-section" s))
        as [[to_ids_section section_object]|] eqn:Hget.
      * destruct (IH (to_ids_list ++ [to_ids_section]) (sections ++ [section_object]) s1)
          as (s2 & Hrun & HS2).
        exists s2. rewrite Hrun, Hsame. csimpl. rewrite <-!app_assoc. split; [done|].
        by rewrite HS2.
      * destruct (IH to_ids_list sections s1) as (s2 & Hrun & HS2).
        exists s2. rewrite Hrun, Hsame. split; [done|]. by rewrite HS2.
    + apply IH.
Qed.

Lemma true_in_flags (flags : list bool) :
  bool_decide (true ∈ flags) = existsb id flags.
Proof.
  induction flags as [|b flags IH].
  - apply bool_decide_eq_false. by intros ?%elem_of_nil.
  - cbn [existsb id]. destruct b; cbn [orb].
    + apply bool_decide_eq_true. left.
    + rewrite <-IH. apply bool_decide_ext. rewrite elem_of_cons.
      split; [by intros [?|?]|by right].
Qed.

Lemma resolve_stix2_pattern_first (attributes : list Attribute) (object_id : string) :
  resolve_stix2_pattern attributes object_id
  = match filter (fun a => attr_object_relation a = "stix2-pattern") attributes with
    | a :: _ => PStr (attr_value a)
    | [] => PNone
    end.
Proof.
  revert object_id. induction attributes as [|a attributes IH]; intros object_id; [done|].
  simpl. destruct (decide (attr_object_relation a = "stix2-pattern")) as [Heq|Hne].
  - by rewrite filter_cons_True.
  - rewrite filter_cons_False by done. apply IH.
Qed.

Lemma bind_lift_Return {A B} (a : A) (f : A → M B) s : (lift (Return a) ≫= f) s = f a s.
Proof. done. Qed.

Lemma bind_mret {A B} (a : A) (f : A → M B) s : (mret a ≫= f) s = f a s.
Proof. done. Qed.




(** What [add_object_observable] appends when it is given the observable. *)
Lemma add_object_observable_given E misp_object (nodes : pydict) s s' :
  nodes ≠ [] →
  add_object_observable E misp_object (Some (PDict nodes)) s = (Return tt, s') →
  ∃ before o, SDOs s' = before ++ [o] ∧ cls o = ObservedData ∧
              getitem "objects" o = Some (PDict nodes).
Proof.
  intros Hnodes H. unfold add_object_observable in H.
  change (py_truthy (default PNone (Some (PDict nodes))))
    with (bool_decide (nodes ≠ [])) in H.
  rewrite bool_decide_true in H by done.
  rewrite bind_mret in H.
  apply bind_Return in H as (timestamp & s2 & _ & H).
  apply bind_Return in H as (created_by & s3 & _ & H).
  apply bind_Return in H as (time_fields & s4 & [Htime _]%lift_Return & H).
  apply bind_Return in H as (observed_data & s5 & Hbuilt & H).
  apply append_object_Return in H as (HS & _).
  eapply (handle_time_fields_Return _ _ _ "observed-data"
            ("first_observed", "last_observed")) in Htime as (v1 & v2 & ->); [|done].
  exists (SDOs s5), observed_data. split; [done|].
  apply try_except_Return in Hbuilt as [Hbuilt|(e & s6 & _ & Hbuilt)].
  - by apply construct_Return in Hbuilt as [_ ->].
  - unfold fix_enumeration_issues in Hbuilt. rewrite decide_False in Hbuilt by done.
    by apply construct_Return in Hbuilt as [_ ->].
Qed.

Section Objects.
Context (E : Env).



(** What one turn of [resolve_objects2parse] appends: an indicator when a
    flag of the family is on, and otherwise observed data whose file node
    carries the pe extension built from the resolved sections. *)
Lemma resolve_file_object_Return (pe_uuid : option string) (to_ids_file : bool)
    (file_object : MispObject) s r s' :
  resolve_file_object E pe_uuid to_ids_file file_object s = (Return r, s') →
  ∃ pe_key to_ids_pe pe_object before o,
    r = Some pe_key ∧
    dict_get pe_key (held_entries "pe" s) = Some (to_ids_pe, pe_object) ∧
    SDOs s' = before ++ [o] ∧
    let resolved :=
      held_sections (held_entries "pe-section" s) (obj_ObjectReference pe_object) in
    if to_ids_file || to_ids_pe || existsb fst resolved
    then cls o = Indicator
    else cls o = ObservedData ∧
         ∃ key node nodes pe_type extensions,
           parse_pe_extensions_observable E pe_object resolved.*2 pe_type
             = Return extensions ∧
           getitem "objects" o
             = Some (PDict (dict_set key (PDict (dict_set "extensions" extensions node))
                              nodes)).
Proof.
  unfold resolve_file_object. intros H.
  apply bind_Return in H as (pe_key & s1 & [Hkey ->]%lift_Return & H).
  apply of_option_Return in Hkey.
  destruct (held_Return "pe" s) as (s2 & Hheld & HS2 & Hsame2).
  rewrite (bind_run _ _ _ _ _ Hheld) in H.
  apply bind_Return in H as ([to_ids_pe pe_object] & s3 & [Hpe ->]%lift_Return & H).
  apply of_option_Return in Hpe.
  destruct (resolve_sections_Return (obj_ObjectReference pe_object)
              ([to_ids_file] ++ [to_ids_pe]) [] s2) as (s4 & Hsections & HS4).
  rewrite (bind_run _ _ _ _ _ Hsections) in H. rewrite Hsame2 in H.
  apply bind_Return in H as ([] & s5 & Hbranch & H).
  injection H as <- <-.
  exists pe_key, to_ids_pe, pe_object.
  rewrite true_in_flags in Hbranch. simpl in Hbranch.
  assert (Hflags : existsb id
            (held_sections (held_entries "pe-section" s) (obj_ObjectReference pe_object)).*1
          = existsb fst
              (held_sections (held_entries "pe-section" s) (obj_ObjectReference pe_object))).
  { generalize (held_sections (held_entries "pe-section" s)
                  (obj_ObjectReference pe_object)).
    intros l. induction l as [|[b o] l IH]; [done|]. csimpl. by rewrite IH. }
  rewrite Hflags, orb_assoc in Hbranch. cbv zeta.
  destruct (to_ids_file || to_ids_pe || existsb fst _).
  - apply bind_Return in Hbranch as (patterns & s6 & _ & Hbranch).
    apply bind_Return in Hbranch as (extension & s7 & _ & Hbranch).
    apply add_object_indicator_Return in Hbranch as (before & o & HS & Hcls).
    by exists before, o.
  - apply bind_Return in Hbranch as (observable & s6 & _ & Hbranch).
    apply bind_Return in Hbranch as (nodes & s7 & _ & Hbranch).
    apply bind_Return in Hbranch as (key & s8 & _ & Hbranch).
    apply bind_Return in Hbranch as (node & s9 & _ & Hbranch).
    apply bind_Return in Hbranch as (pe_type & s10 & _ & Hbranch).
    apply bind_Return in Hbranch as (extensions & s11 & [Hext _]%lift_Return & Hbranch).
    apply add_object_observable_given in Hbranch as (before & o & HS & Hcls & Hobjects);
      [|by destruct nodes as [|[k v] nodes]; simpl; [|destruct (decide (key = k))]].
    exists before, o. split_and!; try done. by exists key, node, nodes, pe_type, extensions.
Qed.




End Objects.


(** A stix2-pattern object none of whose attributes asks for detection. *)
Definition quiet_pattern : MispObject :=
  Demo.object "stix2-pattern" "o1"
    [Demo.related "stix2-pattern"
       (Demo.attribute "stix2-pattern" "[url:value = 'x']" "p1" false)] [].








(** A file object that links to a pe object with two sections. *)
Definition packed_file : MispObject :=
  Demo.object "file" "f0"
    [Demo.related "filename" (Demo.attribute "filename" "dropper.exe" "f1" false)]
    [{| referenced_uuid := "pe1"; relationship_type := "included-in";
        ref_Object_name := "pe" |}].

(** The pe object declares five sections and refers to two. *)
Definition packed_pe : MispObject :=
  Demo.object "pe" "pe1"
    [Demo.related "number-sections" (Demo.attribute "counter" "5" "p1" false)]
    [{| referenced_uuid := "s1"; relationship_type := "included-in";
        ref_Object_name := "pe-section" |};
     {| referenced_uuid := "s2"; relationship_type := "included-in";
        ref_Object_name := "pe-section" |}].

Definition packed_section (uuid : string) (to_ids : bool) : MispObject :=
  Demo.object "pe-section" uuid
    [Demo.related "name" (Demo.attribute "text" ".text" "t1" to_ids)] [].






(** ** The section count of the merged family *)

(** The field a path of keys leads to in nested dictionaries. *)
Fixpoint subfield (path : list string) (v : pyval) : option pyval :=
  match path with
  | [] => Some v
  | key :: rest =>
      match v with
      | PDict d => dict_get key d ≫= subfield rest
      | _ => None
      end
  end.

(** C6: when a file object is merged with its pe object and the resolved
    sections, and the result is observed data, the [number_of_sections] field
    of the [windows-pebinary-ext] extension of the emitted object stands for
    the number of resolved sections: of the sections the pe object refers to
    that were held for merging.  The pe object declares a count; the field
    keeps the declared text when [int] reads it as that number, and is
    overwritten with the numeral of the resolved count when not. *)
Theorem number_of_sections_is_resolved_count (E : Env) (pe_uuid : option string)
    (to_ids_file : bool) (file_object : MispObject) (s s' : StixBuilder)
    (r : option string) (o : stix_object) :
  resolve_file_object E pe_uuid to_ids_file file_object s = (Return r, s') →
  last (SDOs s') = Some o →
  cls o = ObservedData →
  ∃ pe_key to_ids_pe pe_object key declared text,
    r = Some pe_key ∧
    dict_get pe_key (held_entries "pe" s) = Some (to_ids_pe, pe_object) ∧
    let resolved :=
      held_sections (held_entries "pe-section" s) (obj_ObjectReference pe_object) in
    declared_count E pe_object = Some declared ∧
    getitem "objects" o
      ≫= subfield [key; "extensions"; "windows-pebinary-ext"; "number_of_sections"]
      = Some (PStr text) ∧
    stands_for text (length resolved) ∧
    text = (if decide (Str.to_int declared = Some (Z.of_nat (length resolved)))
            then declared else Str.of_nat (length resolved)).
Proof.
  intros H Hlast Hcls.
  apply resolve_file_object_Return in H
    as (pe_key & to_ids_pe & pe_object & before & o' & Hr & Hpe & HS & Hkind).
  rewrite HS, last_snoc in Hlast. injection Hlast as ->. cbv zeta in Hkind.
  destruct (to_ids_file || to_ids_pe || existsb fst _); [congruence|].
  destruct Hkind as (_ & key & node & nodes & pe_type & extensions & Hext & Hobjects).
  apply pe_extension_number_of_sections in Hext
    as (fields & declared & text & -> & Hdeclared & Hfield & Hreads & Htext).
  rewrite length_fmap in Hreads, Htext.
  exists pe_key, to_ids_pe, pe_object, key, declared, text.
  split_and!; try done.
  rewrite Hobjects. cbn [mbind option_bind subfield].
  rewrite dict_get_set_eq. cbn [mbind option_bind].
  rewrite dict_get_set_eq. cbn [mbind option_bind dict_get].
  rewrite decide_True by done. cbn [mbind option_bind]. by rewrite Hfield.
Qed.

(** The family of [packed_file] when no attribute asks for detection. *)
Definition unflagged_held : StixBuilder :=
  Eval vm_compute in
    (for_each [packed_pe; packed_section "s1" false; packed_section "s2" false]
       (handle_object Demo.env)
       (set_misp_event (Some (Demo.event "e6" [] [] [])) __init__)).2.

Definition unflagged_resolved : StixBuilder :=
  Eval vm_compute in
    (resolve_file_object Demo.env None false packed_file unflagged_held).2.

Definition unflagged_observed : stix_object :=
  Eval vm_compute in
    default {| cls := Identity; kwargs := [] |} (last (SDOs unflagged_resolved)).

Lemma number_of_sections_witness :
  cls unflagged_observed = ObservedData ∧
  getitem "objects" unflagged_observed
    ≫= subfield ["1"; "extensions"; "windows-pebinary-ext"; "number_of_sections"]
    = Some (PStr "2") ∧
  ∃ key,
    declared_count Demo.env packed_pe = Some "5" ∧
    length (held_sections (held_entries "pe-section" unflagged_held)
              (obj_ObjectReference packed_pe)) = 2 ∧
    getitem "objects" unflagged_observed
      ≫= subfield [key; "extensions"; "windows-pebinary-ext"; "number_of_sections"]
      = Some (PStr "2").
Proof.
  split; [reflexivity|]. split; [vm_compute; reflexivity|].
  assert (Hrun : resolve_file_object Demo.env None false packed_file unflagged_held
                 = (Return (Some "pe1"), unflagged_resolved))
    by (vm_compute; reflexivity).
  assert (Hlast : last (SDOs unflagged_resolved) = Some unflagged_observed)
    by (vm_compute; reflexivity).
  destruct (number_of_sections_is_resolved_count Demo.env None false packed_file
              unflagged_held unflagged_resolved _ unflagged_observed Hrun Hlast eq_refl)
    as (pe_key & to_ids_pe & pe_object & key & declared & text & Hkey & Hheld & Hcount).
  injection Hkey as <-.
  assert (Hpe : dict_get "pe1" (held_entries "pe" unflagged_held)
                = Some (false, packed_pe)) by (vm_compute; reflexivity).
  rewrite Hpe in Hheld. injection Hheld as <- <-.
  cbv zeta in Hcount. destruct Hcount as (Hdeclared & Hfield & _ & Htext).
  assert (Hfive : declared_count Demo.env packed_pe = Some "5") by (vm_compute; reflexivity).
  rewrite Hfive in Hdeclared. injection Hdeclared as <-.
  assert (Htwo : length (held_sections (held_entries "pe-section" unflagged_held)
                           (obj_ObjectReference packed_pe)) = 2)
    by (vm_compute; reflexivity).
  rewrite Htwo in Htext.
  exists key. split; [exact Hfive|]. split; [exact Htwo|].
  rewrite Hfield, Htext. reflexivity.
Defined.

(** * Further properties of the builder *)

(** ** Splitting at a separator *)

(** A string without its last character. *)
Fixpoint but_last (s : string) : string :=
  match s with
  | EmptyString => EmptyString
  | String c EmptyString => EmptyString
  | String c rest => String c (but_last rest)
  end.

Lemma rev_app_append (s1 s2 : string) : String.rev_app s1 s2 = String.rev s1 +:+ s2.
Proof.
  unfold String.rev. revert s2. induction s1 as [|c s1 IH]; intros s2; simpl; [done|].
  rewrite (IH (String c s2)), (IH (String c "")). by rewrite string_app_assoc.
Qed.

Lemma rev_String (c : ascii) (s : string) :
  String.rev (String c s) = String.rev s +:+ String c "".
Proof. unfold String.rev. simpl. by rewrite rev_app_append. Qed.

Lemma prefix_append (p s : string) : String.prefix p (p +:+ s) = true.
Proof. induction p as [|c p IH]; simpl; [by destruct s|]. by destruct (ascii_dec c c). Qed.

Lemma prefix_append_l (p u v : string) :
  String.length p ≤ String.length u → String.prefix p (u +:+ v) = String.prefix p u.
Proof.
  revert u. induction p as [|c p IH]; intros u Hlen; simpl.
  - by destruct u, v.
  - destruct u as [|c' u]; simpl in *; [lia|].
    destruct (ascii_dec c c'); [apply IH; lia|done].
Qed.

Lemma length_append (s1 s2 : string) :
  String.length (s1 +:+ s2) = String.length s1 + String.length s2.
Proof. induction s1; simpl; by f_equal. Qed.

Lemma but_last_spec (s : string) :
  s ≠ "" → ∃ c, s = but_last s +:+ String c "" ∧ String.length s = S (String.length (but_last s)).
Proof.
  induction s as [|c s IH]; [done|]. intros _. destruct s as [|c' s].
  - by exists c.
  - destruct IH as (c0 & Heq & Hlen); [done|]. exists c0. split.
    + change (String c (String c' s)
              = String c (but_last (String c' s) +:+ String c0 "")).
      by f_equal.
    + change (S (String.length (String c' s))
              = S (S (String.length (but_last (String c' s))))).
      by f_equal.
Qed.

(** A separator that does not start inside [a +:+ but_last sep] does not
    start before the end of [a] in [a +:+ sep +:+ b]. *)
Lemma prefix_before_separator (sep a b : string) (c : ascii) :
  sep ≠ "" →
  String.prefix sep (String c a +:+ but_last sep) = false →
  String.prefix sep (String c a +:+ sep +:+ b) = false.
Proof.
  intros Hsep Hno. destruct (but_last_spec sep Hsep) as (c0 & Heq & Hlen).
  rewrite Heq at 2. rewrite (string_app_assoc (but_last sep)), <-string_app_assoc.
  rewrite prefix_append_l; [done|].
  rewrite length_append. simpl. lia.
Qed.

Lemma contains_nil_r (sep : string) : sep ≠ "" → Str.contains sep "" = false.
Proof. by destruct sep. Qed.

(** No separator, one piece. *)
Lemma split_go_none (sep s cur : string) :
  Str.contains sep s = false →
  Str.split_go sep s 0 cur = [String.rev cur +:+ s].
Proof.
  revert cur. induction s as [|c s IH]; intros cur Hno.
  - simpl. by rewrite string_app_nil_r.
  - cbn [Str.contains] in Hno. apply orb_false_iff in Hno as [Hp Hrest].
    cbn [Str.split_go]. rewrite Hp, (IH _ Hrest), rev_String.
    by rewrite string_app_assoc.
Qed.

Lemma split_go_skip (sep x rest cur : string) :
  Str.split_go sep (x +:+ rest) (String.length x) cur = Str.split_go sep rest 0 cur.
Proof. induction x as [|c x IH]; simpl; [done|apply IH]. Qed.

(** The first piece ends where the separator first starts. *)
Lemma split_go_first (sep a b cur : string) :
  sep ≠ "" →
  Str.contains sep (a +:+ but_last sep) = false →
  Str.split_go sep (a +:+ sep +:+ b) 0 cur
    = (String.rev cur +:+ a) :: Str.split_go sep b 0 "".
Proof.
  intros Hsep. revert cur. induction a as [|c a IH]; intros cur Hno.
  - destruct sep as [|c sep]; [done|].
    change ("" +:+ String c sep +:+ b) with (String c (sep +:+ b)).
    cbn [Str.split_go].
    change (String c (sep +:+ b)) with (String c sep +:+ b).
    rewrite prefix_append, string_app_nil_r. f_equal.
    change (String.length (String c sep) - 1) with (String.length sep - 0).
    rewrite Nat.sub_0_r. apply split_go_skip.
  - change (String c a +:+ but_last sep) with (String c (a +:+ but_last sep)) in Hno.
    cbn [Str.contains] in Hno. apply orb_false_iff in Hno as [Hp Hrest].
    pose proof (prefix_before_separator sep a b c Hsep Hp) as Hp'.
    change (String c a +:+ sep +:+ b) with (String c (a +:+ sep +:+ b)) in *.
    cbn [Str.split_go]. rewrite Hp', (IH _ Hrest), rev_String.
    by rewrite string_app_assoc.
Qed.

(** [(a + sep + b).split(sep)] is [[a, b]] when [sep] occurs nowhere else. *)
Lemma split_once (sep a b : string) :
  sep ≠ "" →
  Str.contains sep (a +:+ but_last sep) = false →
  Str.contains sep b = false →
  Str.split sep (a +:+ sep +:+ b) = [a; b].
Proof.
  intros Hsep Ha Hb. unfold Str.split.
  rewrite split_go_first, split_go_none by done. done.
Qed.

Lemma split_none (sep s : string) :
  Str.contains sep s = false → Str.split sep s = [s].
Proof. intros H. unfold Str.split. by rewrite split_go_none. Qed.

(** ** The identifier registry *)

(** Appending an object puts it last in the produced objects and its
    identifier last in the references of the report.  When the identifier
    reads [object_type--uuid], with no other [--] in it, the registry then
    maps [uuid] to [object_type] and is otherwise unchanged.  When the
    identifier holds no [--], the call raises a value error after the object
    and its reference were appended.  Without the registry update the call
    always returns and leaves the registry as it was. *)
Theorem append_object_registers (o : stix_object) (s : StixBuilder) :
  let appended := set_object_refs (object_refs s ++ [stix_id o])
                    (set_SDOs (SDOs s ++ [o]) s) in
  (∀ object_type uuid,
     stix_id o = object_type +:+ "--" +:+ uuid →
     Str.contains "--" (object_type +:+ "-") = false →
     Str.contains "--" uuid = false →
     append_object o true s
       = (Return tt, set_ids (<[uuid := object_type]> (ids s)) appended) ∧
     (<[uuid := object_type]> (ids s)) !! uuid = Some object_type) ∧
  (Str.contains "--" (stix_id o) = false →
   append_object o true s = (Raise ValueError, appended)) ∧
  append_object o false s = (Return tt, appended).
Proof.
  intros appended. split_and!.
  - intros object_type uuid Hid Htype Huuid. split; [|by rewrite lookup_insert_eq].
    assert (Hsplit : Str.split "--" (stix_id o) = [object_type; uuid])
      by (rewrite Hid; by apply split_once).
    unfold append_object, mbind, M_bind, bind, modify. simpl.
    by rewrite Hsplit.
  - intros Hno. unfold append_object, mbind, M_bind, bind, modify. simpl.
    rewrite (split_none "--" _ Hno). done.
  - done.
Qed.

Definition some_indicator : stix_object :=
  {| cls := Indicator;
     kwargs := [("id", PStr "indicator--5a3cd604-e11c-4de5-bbbf-c170950d210f");
                ("type", PStr "indicator")] |}.

Lemma append_object_registers_witness :
  ids (append_object some_indicator true __init__).2
    !! "5a3cd604-e11c-4de5-bbbf-c170950d210f" = Some "indicator".
Proof.
  destruct (append_object_registers some_indicator __init__) as (Hreg & _ & _).
  destruct (Hreg "indicator" "5a3cd604-e11c-4de5-bbbf-c170950d210f"
              eq_refl eq_refl eq_refl) as [Hrun Hlookup].
  rewrite Hrun. exact Hlookup.
Defined.

(** ** The identity of the organisation *)

(** [__set_identity] builds the identity of the organisation of the event
    only when the run has not met the organisation before: it then appends
    one identity object (and no reference to it), remembers the organisation
    and returns 1.  For an organisation already met it returns 0 and produces
    nothing.  Either way the organisation is known afterwards, so that a
    second call for the same event returns 0 and changes nothing. *)
Theorem identity_built_once_per_organisation (E : Env) (event : Event) (s : StixBuilder) :
  misp_event s = Some event →
  let uuid := org_uuid (event_Orgc event) in
  let expected := "identity--" +:+ uuid in
  let s0 := set_identity_id expected s in
  (uuid ∈ orgs s → __set_identity E s = (Return 0, s0)) ∧
  (∀ i s', __set_identity E s = (Return i, s') →
     uuid ∈ orgs s' ∧ identity_id s' = expected ∧
     object_refs s' = object_refs s ∧ ids s' = ids s ∧
     __set_identity E s' = (Return 0, s') ∧
     if bool_decide (uuid ∈ orgs s)
     then i = 0 ∧ SDOs s' = SDOs s ∧ orgs s' = orgs s
     else ∃ identity,
            i = 1 ∧ SDOs s' = SDOs s ++ [identity] ∧ orgs s' = orgs s ++ [uuid] ∧
            cls identity = Identity ∧ stix_id identity = expected ∧
            getitem "name" identity = Some (PStr (org_name (event_Orgc event)))).
Proof.
  intros Hevent uuid expected s0.
  assert (Hseen : ∀ s1, misp_event s1 = Some event → uuid ∈ orgs s1 →
            __set_identity E s1 = (Return 0, set_identity_id expected s1)).
  { intros s1 He Hin. unfold __set_identity, get_misp_event.
    unfold mbind, M_bind, bind, gets, lift, modify, mret, M_ret, ret. simpl.
    rewrite He. simpl. fold uuid. by rewrite bool_decide_true. }
  split; [by apply Hseen|].
  intros i s' Hrun. unfold __set_identity, get_misp_event in Hrun.
  unfold mbind, M_bind, bind, gets, lift, modify, mret, M_ret, ret in Hrun.
  simpl in Hrun. rewrite Hevent in Hrun. simpl in Hrun. fold uuid in Hrun.
  case_bool_decide as Hin.
  - injection Hrun as <- <-. split_and!; try done.
    by rewrite Hseen.
  - unfold construct in Hrun. destruct (validate E Identity _); [done|].
    simpl in Hrun. injection Hrun as <- <-. simpl.
    assert (Hin' : uuid ∈ orgs s ++ [uuid]) by set_solver.
    split_and!; try done.
    + by rewrite Hseen.
    + eexists. split_and!; done.
Qed.

Definition met_event : Event := Demo.event "5a3cd604-0005" [] [] [].

Definition met_state : StixBuilder :=
  Eval vm_compute in
    (__set_identity Demo.env (set_misp_event (Some met_event) __init__)).2.

Lemma identity_built_once_witness :
  __set_identity Demo.env (set_misp_event (Some met_event) __init__) = (Return 1, met_state) ∧
  __set_identity Demo.env met_state = (Return 0, met_state).
Proof.
  assert (Hfirst : __set_identity Demo.env (set_misp_event (Some met_event) __init__)
                   = (Return 1, met_state)) by (vm_compute; reflexivity).
  split; [exact Hfirst|].
  pose proof (identity_built_once_per_organisation Demo.env met_event
                (set_misp_event (Some met_event) __init__) eq_refl) as [_ Hrun].
  by destruct (Hrun _ _ Hfirst) as (_ & _ & _ & _ & Hagain & _).
Defined.

(** ** Attributes of a person *)

Lemma bind_raises {A B} (m : M A) (f : A → M B) s :
  (∃ e s', m s = (Raise e, s')) → ∃ e s', (m ≫= f) s = (Raise e, s').
Proof. intros (e & s' & H). exists e, s'. by apply bind_raise. Qed.

Lemma bind_then_raises {A B} (m : M A) (f : A → M B) s :
  (∀ a s1, ∃ e s', f a s1 = (Raise e, s')) → ∃ e s', (m ≫= f) s = (Raise e, s').
Proof.
  intros Hf. unfold mbind, M_bind, bind. destruct (m s) as [[a|e] s1]; [apply Hf|by eexists _, _].
Qed.

Lemma for_each_raises {A} (l : list A) (body : A → M unit) (x : A) :
  x ∈ l → (∀ s, ∃ e s', body x s = (Raise e, s')) →
  ∀ s, ∃ e s', for_each l body s = (Raise e, s').
Proof.
  intros Hin Hx. induction l as [|y l IH]; intros s; [by apply elem_of_nil in Hin|].
  simpl. apply elem_of_cons in Hin as [<-|Hin].
  - by apply bind_raises.
  - apply bind_then_raises. intros _ s1. by apply IH.
Qed.

(** An attribute of category Person whose type is routed to [handle_person]
    cannot be translated: [add_identity] reads its local name [identity]
    before binding it, the handler of the event does not catch the error, and
    so the whole event, whatever else it holds, is not translated. *)
Theorem person_attribute_aborts_event (E : Env) (event : Event) (attribute : Attribute)
    (entry : type_mapping) :
  attribute ∈ event_Attribute event →
  attr_category attribute = "Person" →
  initialize_misp_types E (attr_type attribute) = Some entry →
  to_call entry = Some "handle_person" →
  (∀ s, handle_attribute E attribute s = (Raise NameError, s)) ∧
  (∀ s, ∃ e s', handler E event s = (Raise e, s')) ∧
  (∀ s, ∃ e s', buildEvent E (Single event) s = (Raise e, s')).
Proof.
  intros Hin Hcategory Hentry Hcall.
  assert (Hraise : ∀ s, handle_attribute E attribute s = (Raise NameError, s)).
  { intros s. unfold handle_attribute, try_except, types_lookup.
    rewrite Hentry. simpl. rewrite Hcall.
    unfold mbind at 1, M_bind, bind, lift. simpl.
    unfold call_attribute_method. simpl.
    unfold handle_person. rewrite decide_True by done.
    unfold add_identity. by destruct (create_labels attribute). }
  assert (Habort : ∀ s, ∃ e s', handler E event s = (Raise e, s')).
  { intros s. unfold handler. apply bind_then_raises. intros _ s1.
    apply bind_then_raises. intros i s2. apply bind_raises.
    destruct (event_Attribute event) as [|first attributes] eqn:Hattributes;
      [by apply elem_of_nil in Hin|].
    apply (for_each_raises _ _ attribute Hin). intros s3. rewrite Hraise. by eexists _, _. }
  done.
Qed.

Definition passport : Attribute :=
  {| attr_type := "Other"; attr_category := "Person"; attr_to_ids := false;
     attr_value := "AB123456"; attr_uuid := "a7"; attr_timestamp := "1518707604";
     attr_comment := ""; attr_data := None; attr_object_relation := "";
     attr_first_seen := None; attr_last_seen := None; attr_Tag := []; attr_Galaxy := [] |}.

Lemma person_attribute_aborts_witness :
  ∃ e s', handler Demo.env
            (Demo.event "5a3cd604-0006"
               [Demo.attribute "domain" "a.example" "a1" true; passport] [] []) __init__
          = (Raise e, s').
Proof.
  refine (proj1 (proj2 (person_attribute_aborts_event Demo.env
                          (Demo.event "5a3cd604-0006"
                             [Demo.attribute "domain" "a.example" "a1" true; passport] [] [])
                          passport _ _ eq_refl eq_refl eq_refl)) __init__).
  apply elem_of_cons; right. apply elem_of_cons; by left.
Defined.

(** ** Labels and markings of an attribute *)

Lemma split_tags_filter (tags : list Tag) (labels markings : list string) :
  split_tags tags labels markings
  = (labels ++ filter (fun name => Str.startswith "tlp:" name = false) (tag_name <$> tags),
     markings ++ filter (fun name => Str.startswith "tlp:" name = true) (tag_name <$> tags)).
Proof.
  revert labels markings. induction tags as [|tag tags IH]; intros labels markings; csimpl.
  - by rewrite !app_nil_r.
  - destruct (Str.startswith "tlp:" (tag_name tag)) eqn:Htlp; rewrite IH.
    + rewrite filter_cons_False, filter_cons_True by (by rewrite ?Htlp).
      by rewrite <-app_assoc.
    + rewrite filter_cons_True, filter_cons_False by (by rewrite ?Htlp).
      by rewrite <-app_assoc.
Qed.

(** The tags of an attribute are split in two, each keeping its order: the
    names that start with [tlp:] are the markings to resolve, all the others
    follow the three fixed labels.  So every tag is either a label or a
    marking, never both, and no TLP tag is ever a label. *)
Theorem create_labels_partition (attribute : Attribute) :
  let names := tag_name <$> attr_Tag attribute in
  let '(labels, markings) := create_labels attribute in
  labels = ["misp:type=" +:+ quoted (attr_type attribute);
            "misp:category=" +:+ quoted (attr_category attribute);
            "misp:to_ids=" +:+ quoted (Str.of_bool (attr_to_ids attribute))]
           ++ filter (fun name => Str.startswith "tlp:" name = false) names ∧
  markings = filter (fun name => Str.startswith "tlp:" name = true) names ∧
  (∀ name, name ∈ names → (name ∈ markings ↔ Str.startswith "tlp:" name = true)) ∧
  (∀ name, name ∈ markings → name ∈ drop 3 labels → False).
Proof.
  intros names. unfold create_labels. rewrite split_tags_filter. fold names.
  split_and!; try done.
  - intros name Hin. rewrite app_nil_l, list_elem_of_filter.
    split; [by intros [? _]|by intros ?; split].
  - intros name. rewrite app_nil_l. cbn [drop app].
    rewrite drop_0, !list_elem_of_filter. intros [Htlp _] [Hno _]. congruence.
Qed.

(** ** Autonomous system numbers *)

Lemma digits_without_space (s : string) :
  ascii_digits s = true → Str.contains " " s = false.
Proof.
  induction s as [|c s IH]; [done|].
  cbn [ascii_digits Str.contains String.prefix]. intros [Hc Hs]%andb_true_iff.
  apply bool_decide_eq_true in Hc as [d Hd]. rewrite (IH Hs), orb_false_r.
  destruct (ascii_dec " " c) as [<-|]; [by vm_compute in Hd|done].
Qed.

Lemma of_nat_without_space (n : nat) : Str.contains " " (Str.of_nat n) = false.
Proof.
  destruct (of_nat_digits n) as (c & d & rest & Heq & Hc & Hall).
  apply digits_without_space. rewrite Heq. cbn [ascii_digits]. rewrite Hc, Hall.
  by rewrite bool_decide_true.
Qed.

(** The three ways a text gives the number of an autonomous system: the
    decimal numeral alone, the numeral after [AS], and the numeral after
    [AS] followed by a space and any text. *)
Definition names_system (n : nat) (text : string) : Prop :=
  text = Str.of_nat n ∨ text = "AS" +:+ Str.of_nat n
  ∨ ∃ rest, text = "AS" +:+ Str.of_nat n +:+ " " +:+ rest.

Lemma as_number_run (n : nat) (text : string) :
  short_numeral n →
  names_system n text →
  (Str.isdigit text || Str.startswith "AS" text = true) ∧
  (Str.startswith "AS" text || Str.isdigit text = true) ∧
  Str.to_int (if Str.isdigit text then text
              else default "" (head (Str.split " " (Str.drop 2 text))))
  = Some (Z.of_nat n).
Proof.
  assert (Hletters : ∀ rest, Str.isdigit ("AS" +:+ rest) = false)
    by (intros rest; vm_compute; reflexivity).
  assert (Hstarts : ∀ rest, Str.startswith "AS" ("AS" +:+ rest) = true)
    by (intros; apply prefix_append).
  intros Hshort [->|[->|[rest ->]]].
  - rewrite of_nat_isdigit, orb_true_r. split_and!; try done. by apply to_int_of_nat.
  - rewrite Hletters, Hstarts. split_and!; try done.
    change (Str.drop 2 ("AS" +:+ Str.of_nat n)) with (Str.of_nat n).
    rewrite (split_none " " _ (of_nat_without_space n)). by apply to_int_of_nat.
  - rewrite Hletters, Hstarts. split_and!; try done.
    change (Str.drop 2 ("AS" +:+ Str.of_nat n +:+ " " +:+ rest))
      with (Str.of_nat n +:+ " " +:+ rest).
    unfold Str.split. rewrite split_go_first; [|done|].
    + cbn [head default]. by apply to_int_of_nat.
    + cbn [but_last]. rewrite string_app_nil_r. apply of_nat_without_space.
Qed.

(** [define_attribute_value] reads the number of an autonomous system.  A
    value made of digits, of any script, is read by [int], whatever the
    comment; so is what follows [AS] in a value that starts with it, up to
    the first space.  The decimal numeral of [n], alone, after [AS], or after
    [AS] and followed by a space and any text, is read as [n], as long as the
    numeral is within the digits [int] takes.  When the value neither is made
    of digits nor starts with [AS], the comment is read in the same three
    ways; when the comment does not qualify either, there is no number.  A
    bare [AS] raises a value error. *)
Theorem as_number_is_read (n : nat) (value comment : string) :
  (Str.isdigit value = true →
   define_attribute_value value comment
   = match Str.to_int value with
     | Some z => Return (PInt z)
     | None => Raise ValueError
     end) ∧
  (short_numeral n → names_system n value →
   define_attribute_value value comment = Return (PInt (Z.of_nat n))) ∧
  (Str.isdigit value = false → Str.startswith "AS" value = false →
   (short_numeral n → names_system n comment →
    define_attribute_value value comment = Return (PInt (Z.of_nat n))) ∧
   (Str.isdigit comment = false → Str.startswith "AS" comment = false →
    define_attribute_value value comment = Return PNone)) ∧
  define_attribute_value "AS" comment = Raise ValueError.
Proof.
  split_and!.
  - intros Hdigit. unfold define_attribute_value. by rewrite Hdigit.
  - intros Hshort Hnames.
    destruct (as_number_run n value Hshort Hnames) as (Hfirst & _ & Hread).
    unfold define_attribute_value. by rewrite Hfirst, Hread.
  - intros Hdigit Hstart. split.
    + intros Hshort Hnames.
      destruct (as_number_run n comment Hshort Hnames) as (_ & Hfirst & Hread).
      unfold define_attribute_value. by rewrite Hdigit, Hstart, Hfirst, Hread.
    + intros Hcdigit Hcstart. unfold define_attribute_value.
      by rewrite Hdigit, Hstart, Hcdigit, Hcstart.
  - vm_compute. reflexivity.
Qed.

(** The Arabic-Indic digit one (U+0661, the bytes 217 and 161) is a digit
    and reads as 1: a value made of it is the number 1, and the comment is
    not looked at. *)
Lemma as_number_is_read_witness :
  Str.isdigit (String "217" (String "161" "")) = true ∧
  define_attribute_value (String "217" (String "161" "")) "AS3356 example"
    = Return (PInt 1) ∧
  define_attribute_value "AS3356 upstream" "" = Return (PInt 3356) ∧
  define_attribute_value "upstream" "AS3356" = Return (PInt 3356).
Proof.
  assert (Hshort : short_numeral 3356) by (vm_compute; discriminate).
  split; [vm_compute; reflexivity|]. split; [|split].
  - rewrite (proj1 (as_number_is_read 0 _ "AS3356 example")) by (vm_compute; reflexivity).
    vm_compute. reflexivity.
  - apply (proj1 (proj2 (as_number_is_read 3356 "AS3356 upstream" ""))); [exact Hshort|].
    right. right. exists "upstream". vm_compute. reflexivity.
  - apply (proj1 (proj2 (proj2 (as_number_is_read 3356 "upstream" "AS3356"))));
      [vm_compute; reflexivity..|exact Hshort|].
    right. left. vm_compute. reflexivity.
Defined.

(** ** Objects named stix2-pattern *)

(** The pattern [add_object_indicator] builds for an object named
    stix2-pattern: the builder returns the value of the first attribute whose
    relation is [stix2-pattern], a string, and the clauses are joined over
    it, so the pattern is made of the characters of that value, each
    separated from the next by AND, inside one bracket pair.  When no
    attribute has that relation there is nothing to join and a type error is
    raised before anything is produced. *)
Theorem stix2_pattern_is_joined_by_character (E : Env) (misp_object : MispObject)
    (s : StixBuilder) :
  obj_name misp_object = "stix2-pattern" →
  match filter (fun a => attr_object_relation a = "stix2-pattern")
          (obj_Attribute misp_object) with
  | [] => add_object_indicator E misp_object None s = (Raise TypeError, s)
  | a :: _ =>
      ∀ s', add_object_indicator E misp_object None s = (Return tt, s') →
            ∃ before o,
              SDOs s' = before ++ [o] ∧ cls o = Indicator ∧
              getitem "pattern" o
                = Some (PStr ("[" +:+ Str.join " AND " (chars (attr_value a)) +:+ "]"))
  end.
Proof.
  intros Hname.
  pose proof (resolve_stix2_pattern_first (obj_Attribute misp_object)
                ("indicator--" +:+ obj_uuid misp_object)) as Hfirst.
  assert (Hbuilder : call_builder E "resolve_stix2_pattern" (obj_Attribute misp_object)
                       ("indicator--" +:+ obj_uuid misp_object)
                     = mret (resolve_stix2_pattern (obj_Attribute misp_object)
                               ("indicator--" +:+ obj_uuid misp_object))) by done.
  destruct (filter _ (obj_Attribute misp_object)) as [|a others].
  - unfold add_object_indicator. cbn [truthy]. rewrite Hname.
    change (objects_mapping_lookup "stix2-pattern" "pattern")
      with (Return (A:=string) "resolve_stix2_pattern").
    apply bind_raise. by rewrite bind_lift_Return, Hbuilder, bind_mret, Hfirst.
  - intros s' H. unfold add_object_indicator in H. cbn [truthy] in H. rewrite Hname in H.
    change (objects_mapping_lookup "stix2-pattern" "pattern")
      with (Return (A:=string) "resolve_stix2_pattern") in H.
    apply bind_Return in H as ([name pattern] & s1 & Hpattern & H).
    rewrite bind_lift_Return, Hbuilder, bind_mret, Hfirst in Hpattern.
    injection Hpattern as <- <- <-.
    apply bind_Return in H as (timestamp & s2 & _ & H).
    apply bind_Return in H as (created_by & s3 & _ & H).
    apply bind_Return in H as (time_fields & s4 & [Htime _]%lift_Return & H).
    apply bind_Return in H as (indicator & s5 & [-> ->]%construct_Return & H).
    apply append_object_Return in H as (HS & _).
    eapply (handle_time_fields_Return _ _ _ "indicator" ("valid_from", "valid_until"))
      in Htime as (v1 & v2 & ->); [|done].
    eexists _, _. split; [done|]. split; [done|]. done.
Qed.

Definition after_quiet_pattern : StixBuilder :=
  Eval vm_compute in (add_object_indicator Demo.env quiet_pattern None before_attribute).2.

Lemma stix2_pattern_witness :
  ∃ before o,
    SDOs after_quiet_pattern = before ++ [o] ∧
    getitem "pattern" o
      = Some (PStr ("[" +:+ Str.join " AND " (chars "[url:value = 'x']") +:+ "]")).
Proof.
  assert (Hrun : add_object_indicator Demo.env quiet_pattern None before_attribute
                 = (Return tt, after_quiet_pattern)) by (vm_compute; reflexivity).
  destruct (stix2_pattern_is_joined_by_character Demo.env quiet_pattern before_attribute
              eq_refl _ Hrun) as (before & o & HS & _ & Hpattern).
  by exists before, o.
Defined.

(** ** Course-of-action objects *)

(** The key [add_course_of_action_from_object] stores an attribute under. *)
Definition course_of_action_key (attribute : Attribute) : string :=
  let relation := attr_object_relation attribute in
  if bool_decide (relation ∈ ["name"; "description"]) then relation
  else "x_misp_" +:+ attr_type attribute +:+ "_" +:+ relation.

Lemma course_of_action_fields_run E coa_id (attributes : list Attribute) coa_args s :
  course_of_action_fields E coa_id coa_args attributes s
  = match for_each attributes (fun a => parse_galaxies E (attr_Galaxy a) coa_id) s with
    | (Return _, s') =>
        (Return (foldl (fun args a => dict_set (course_of_action_key a)
                                        (PStr (attr_value a)) args) coa_args attributes), s')
    | (Raise e, s') => (Raise e, s')
    end.
Proof.
  revert coa_args s. induction attributes as [|a attributes IH]; intros coa_args s; [done|].
  simpl. unfold mbind, M_bind, bind.
  destruct (parse_galaxies E (attr_Galaxy a) coa_id s) as [[[]|e] s1]; [|done].
  apply IH.
Qed.

Lemma course_of_action_key_name (a : Attribute) :
  attr_object_relation a ≠ "name" → course_of_action_key a ≠ "name".
Proof.
  unfold course_of_action_key. intros Hne. case_bool_decide; [done|]. done.
Qed.

(** A course-of-action object without an attribute of relation [name] is
    dropped without an error: the call does what parsing the galaxies of its
    attributes does, and nothing else.  In particular, when its attributes
    carry no galaxy, the builder is left as it was: no object, no reference,
    no registry entry. *)
Theorem unnamed_course_of_action_is_dropped (E : Env) (misp_object : MispObject)
    (to_ids : bool) (s : StixBuilder) :
  is_Some (obj_meta_category misp_object) →
  Forall (fun a => attr_object_relation a ≠ "name") (obj_Attribute misp_object) →
  add_course_of_action_from_object E misp_object to_ids s
    = for_each (obj_Attribute misp_object)
        (fun a => parse_galaxies E (attr_Galaxy a)
                    ("course-of-action--" +:+ obj_uuid misp_object)) s ∧
  (Forall (fun a => attr_Galaxy a = []) (obj_Attribute misp_object) →
   add_course_of_action_from_object E misp_object to_ids s = (Return tt, s)).
Proof.
  intros [category Hcategory] Hunnamed.
  assert (Hrun : add_course_of_action_from_object E misp_object to_ids s
                 = for_each (obj_Attribute misp_object)
                     (fun a => parse_galaxies E (attr_Galaxy a)
                                 ("course-of-action--" +:+ obj_uuid misp_object)) s).
  { unfold add_course_of_action_from_object. rewrite Hcategory.
    unfold mbind at 1 2, M_bind, bind, gets, lift. cbn [of_option].
    unfold mbind, M_bind, bind. rewrite course_of_action_fields_run.
    destruct (for_each _ _ s) as [[[]|e] s1]; [|done].
    set (coa_args := dict_set "labels" _ _).
    assert (Hno : dict_has "name"
              (foldl (fun args a => dict_set (course_of_action_key a) (PStr (attr_value a)) args)
                 coa_args (obj_Attribute misp_object)) = false).
    { assert (Hstart : dict_get "name" coa_args = None) by done.
      clearbody coa_args. revert coa_args Hstart.
      induction Hunnamed as [|a attributes Ha _ IH]; intros coa_args Hstart; simpl.
      - unfold dict_has. rewrite Hstart. apply bool_decide_eq_false. by intros [? ?].
      - apply IH. rewrite dict_get_set_ne; [done|].
        intros Heq. by apply (course_of_action_key_name a Ha). }
    by rewrite Hno. }
  split; [exact Hrun|].
  intros Hplain. rewrite Hrun. clear Hrun Hunnamed.
  induction Hplain as [|a attributes Ha _ IH]; [done|].
  simpl. by rewrite Ha.
Qed.

Definition unnamed_course_of_action : MispObject :=
  Demo.object "course-of-action" "c1"
    [Demo.related "description" (Demo.attribute "text" "Block the domain" "c2" false);
     Demo.related "cost" (Demo.attribute "text" "low" "c3" false)] [].

Lemma unnamed_course_of_action_witness :
  add_course_of_action_from_object Demo.env unnamed_course_of_action false before_attribute
    = (Return tt, before_attribute).
Proof.
  apply (unnamed_course_of_action_is_dropped Demo.env unnamed_course_of_action false
           before_attribute).
  - by eexists.
  - repeat constructor; done.
  - repeat constructor.
Defined.

(** ** Relationships to galaxy clusters *)





Section Defined.
Context (E : Env).
Hypothesis accepted : ∀ kw, validate E Relationship kw = None.





End Defined.




(** ** Payloads of attachments and samples *)

Lemma contains_separator (sep a b : string) : Str.contains sep (a +:+ sep +:+ b) = true.
Proof.
  induction a as [|c a IH].
  - change ("" +:+ sep +:+ b) with (sep +:+ b).
    destruct (sep +:+ b) eqn:Heq; cbn [Str.contains]; rewrite <-Heq, prefix_append; done.
  - change (String c a +:+ sep +:+ b) with (String c (a +:+ sep +:+ b)).
    cbn [Str.contains]. rewrite IH. apply orb_true_r.
Qed.

(** The payload of an attachment or a sample travels inside its value:
    [_parse_attribute] writes the value, with every [ | ] in it replaced by
    [|], then [ | ] and the payload, and [_create_artifact_observable] splits
    the text again at [ | ].  When the rewritten value neither holds [ | ] nor
    ends with [ |], and the payload holds no [ | ], the split gives back the
    rewritten value and the payload, which becomes [payload_bin].  A value
    without payload and without [ | ] comes back as it is, with no
    [payload_bin]. *)
Theorem artifact_round_trip (attribute : Attribute) :
  (∀ data,
     attr_type attribute ∈ ["attachment"; "malware-sample"] →
     attr_data attribute = Some data →
     let name := Str.replace " | " "|" (attr_value attribute) in
     Str.contains " | " (name +:+ " |") = false →
     Str.contains " | " data = false →
     _parse_attribute attribute = name +:+ " | " +:+ data ∧
     _create_artifact_observable (PStr (_parse_attribute attribute))
       = Return ([("type", PStr "artifact"); ("payload_bin", PStr data)], PStr name)) ∧
  (attr_data attribute = None →
   Str.contains " | " (attr_value attribute) = false →
   _create_artifact_observable (PStr (_parse_attribute attribute))
     = Return ([("type", PStr "artifact")], PStr (attr_value attribute))).
Proof.
  split.
  - intros data Htype Hdata name Hname Hpayload.
    assert (Hparsed : _parse_attribute attribute = name +:+ " | " +:+ data).
    { unfold _parse_attribute. rewrite Hdata. by rewrite bool_decide_true. }
    split; [done|]. rewrite Hparsed. unfold _create_artifact_observable.
    rewrite contains_separator, split_once; done.
  - intros Hdata Hvalue. unfold _parse_attribute. rewrite Hdata.
    unfold _create_artifact_observable. by rewrite Hvalue.
Qed.

Definition sample : Attribute :=
  {| attr_type := "malware-sample"; attr_category := "Payload delivery"; attr_to_ids := true;
     attr_value := "dropper.exe|0cc175b9c0f1b6a831c399e269772661"; attr_uuid := "a9";
     attr_timestamp := "1518707604"; attr_comment := ""; attr_data := Some "UEsDBAoACQAAAA==";
     attr_object_relation := "malware-sample"; attr_first_seen := None;
     attr_last_seen := None; attr_Tag := []; attr_Galaxy := [] |}.

Lemma artifact_round_trip_witness :
  _create_artifact_observable (PStr (_parse_attribute sample))
    = Return ([("type", PStr "artifact"); ("payload_bin", PStr "UEsDBAoACQAAAA==")],
              PStr "dropper.exe|0cc175b9c0f1b6a831c399e269772661").
Proof.
  refine (proj2 (proj1 (artifact_round_trip sample) "UEsDBAoACQAAAA==" _ eq_refl
                   eq_refl eq_refl)).
  apply elem_of_cons; right. apply elem_of_cons; by left.
Defined.

(** ** What the report refers to *)

(** A computation that changes the produced objects and the references of
    the report only by appending objects together with their identifiers,
    and leaves alone the event being translated, the identifier of its
    report, the identity of its organisation and the organisations met so
    far.  It may return or raise. *)
Definition appends_only {A} (m : M A) : Prop :=
  ∀ s r s', m s = (r, s') →
    ∃ new, SDOs s' = SDOs s ++ new ∧
           object_refs s' = object_refs s ++ (stix_id <$> new) ∧
           misp_event s' = misp_event s ∧ report_id s' = report_id s ∧
           identity_id s' = identity_id s ∧ orgs s' = orgs s.

Lemma appends_only_same {A} (m : M A) :
  (∀ s r s', m s = (r, s') → s' = s) → appends_only m.
Proof. intros Hm s r s' ->%Hm. exists []. by rewrite !app_nil_r. Qed.

Lemma appends_only_mret {A} (a : A) : appends_only (mret a).
Proof. apply appends_only_same. by intros s r s' [= _ <-]. Qed.

Lemma appends_only_raise {A} (e : exn) : appends_only (raise (A:=A) e).
Proof. apply appends_only_same. by intros s r s' [= _ <-]. Qed.

Lemma appends_only_lift {A} (o : outcome A) : appends_only (lift o).
Proof. apply appends_only_same. by intros s r s' [= _ <-]. Qed.

Lemma appends_only_gets {A} (f : StixBuilder → A) : appends_only (gets f).
Proof. apply appends_only_same. by intros s r s' [= _ <-]. Qed.

Lemma appends_only_modify (f : StixBuilder → StixBuilder) :
  (∀ s, SDOs (f s) = SDOs s ∧ object_refs (f s) = object_refs s ∧
        misp_event (f s) = misp_event s ∧ report_id (f s) = report_id s ∧
        identity_id (f s) = identity_id s ∧ orgs (f s) = orgs s) →
  appends_only (modify f).
Proof.
  intros Hf s r s' [= _ <-]. destruct (Hf s) as (HS & HR & He & Hr & Hi & Ho).
  exists []. by rewrite HS, HR, He, Hr, Hi, Ho, !app_nil_r.
Qed.

Lemma appends_only_bind {A B} (m : M A) (f : A → M B) :
  appends_only m → (∀ a, appends_only (f a)) → appends_only (m ≫= f).
Proof.
  intros Hm Hf s r s'. unfold mbind, M_bind, bind.
  destruct (m s) as [[a|e] s1] eqn:Hrun.
  - intros Hrest. destruct (Hm _ _ _ Hrun) as (new1 & HS1 & HR1 & He1 & Hr1 & Hi1 & Ho1).
    destruct (Hf a _ _ _ Hrest) as (new2 & HS2 & HR2 & He2 & Hr2 & Hi2 & Ho2).
    exists (new1 ++ new2).
    by rewrite HS2, HS1, HR2, HR1, He2, He1, Hr2, Hr1, Hi2, Hi1, Ho2, Ho1, fmap_app,
      !app_assoc.
  - intros [= <- <-]. by apply (Hm _ _ _ Hrun).
Qed.

Lemma appends_only_try_except {A} (m : M A) catches (h : M A) :
  appends_only m → appends_only h → appends_only (try_except m catches h).
Proof.
  intros Hm Hh s r s'. unfold try_except.
  destruct (m s) as [[a|e] s1] eqn:Hrun.
  - intros [= <- <-]. by apply (Hm _ _ _ Hrun).
  - destruct (catches e).
    + intros Hrest. destruct (Hm _ _ _ Hrun) as (new1 & HS1 & HR1 & He1 & Hr1 & Hi1 & Ho1).
      destruct (Hh _ _ _ Hrest) as (new2 & HS2 & HR2 & He2 & Hr2 & Hi2 & Ho2).
      exists (new1 ++ new2).
      by rewrite HS2, HS1, HR2, HR1, He2, He1, Hr2, Hr1, Hi2, Hi1, Ho2, Ho1, fmap_app,
      !app_assoc.
    + intros [= <- <-]. by apply (Hm _ _ _ Hrun).
Qed.

Lemma appends_only_for_each {A} (l : list A) (body : A → M unit) :
  (∀ x, appends_only (body x)) → appends_only (for_each l body).
Proof.
  intros Hbody. induction l as [|x l IH]; [apply appends_only_mret|].
  apply appends_only_bind; [apply Hbody|by intros _].
Qed.

Lemma appends_only_append_object (o : stix_object) (id_mapping : bool) :
  appends_only (append_object o id_mapping).
Proof.
  intros s r s'. unfold append_object, mbind, M_bind, bind, modify. simpl.
  intros Hrun. exists [o].
  destruct id_mapping; [|by injection Hrun as _ <-].
  destruct (Str.split "--" (stix_id o)) as [|? [|? [|? ?]]]; by injection Hrun as _ <-.
Qed.

Create HintDb appends discriminated.
#[local] Hint Resolve appends_only_mret appends_only_raise appends_only_lift
  appends_only_gets appends_only_append_object : appends.

(** Walks through a computation built from binds, branches and loops. *)
Ltac appends :=
  repeat first
    [ assumption
    | progress cbv zeta
    | solve [eauto 2 with appends]
    | apply appends_only_mret
    | apply (appends_only_mret (A:=unit))
    | apply appends_only_raise
    | apply appends_only_lift
    | apply appends_only_gets
    | apply appends_only_append_object
    | apply appends_only_bind; [|intros ?; cbv beta]
    | apply appends_only_try_except
    | apply appends_only_for_each; intros ?; cbv beta
    | apply appends_only_modify; intros ?; by split_and!
    | match goal with
      | |- appends_only (if ?b then _ else _) => destruct b
      | |- appends_only (match ?x with _ => _ end) => destruct x eqn:?
      | |- appends_only (let '(_, _) := ?x in _) => destruct x
      end ].

(** What [handler] does between the identity and the report: the attributes,
    the objects and the galaxies of the event. *)
Definition event_body (E : Env) (event : Event) : M unit :=
  match event_Attribute event with
  | [] => mret tt
  | attributes => for_each attributes (handle_attribute E)
  end;;
  match event_Object event with
  | [] => mret tt
  | objects =>
      modify (set_objects_to_parse []);;
      for_each objects (handle_object E);;
      waiting ← gets objects_to_parse;
      if bool_decide (waiting ≠ []) then resolve_objects2parse E else mret tt
  end;;
  match event_Galaxy event with
  | [] => mret tt
  | galaxies =>
      id ← gets report_id;
      for_each galaxies (fun galaxy => parse_galaxy E galaxy id)
  end.

Section AppendsOnly.
Context (E : Env).
Hypothesis builders :
  ∀ method builder attributes object_id,
    resolve_method E method = Some builder → appends_only (builder attributes object_id).

Lemma appends_only_construct c kw : appends_only (construct E c kw).
Proof. unfold construct. appends. Qed.
Hint Resolve appends_only_construct : appends.

Lemma appends_only_fresh_uuid : appends_only (fresh_uuid E).
Proof. unfold fresh_uuid. appends. Qed.
Hint Resolve appends_only_fresh_uuid : appends.

Lemma appends_only_get_misp_event : appends_only get_misp_event.
Proof. unfold get_misp_event. appends. Qed.
Hint Resolve appends_only_get_misp_event : appends.

Lemma appends_only_create_marking tag : appends_only (create_marking E tag).
Proof. unfold create_marking. appends. Qed.
Hint Resolve appends_only_create_marking : appends.

Lemma appends_only_handle_tags_from marking_ids tags :
  appends_only (handle_tags_from E marking_ids tags).
Proof.
  revert marking_ids. induction tags as [|tag tags IH]; intros marking_ids; simpl; appends.
Qed.
Hint Resolve appends_only_handle_tags_from : appends.

Lemma appends_only_handle_tags tags : appends_only (handle_tags E tags).
Proof. unfold handle_tags. appends. Qed.
Hint Resolve appends_only_handle_tags : appends.

Lemma appends_only_generate_galaxy_args galaxy b_killchain b_alias sdo_type :
  appends_only (generate_galaxy_args galaxy b_killchain b_alias sdo_type).
Proof. unfold generate_galaxy_args. appends. Qed.
Hint Resolve appends_only_generate_galaxy_args : appends.

Lemma appends_only_call_galaxy_method to_call galaxy :
  appends_only (call_galaxy_method E to_call galaxy).
Proof.
  unfold call_galaxy_method, add_attack_pattern, add_course_of_action, add_coa_stix_object,
    add_intrusion_set, add_malware, add_threat_actor, add_tool, add_vulnerability_from_galaxy.
  appends.
Qed.
Hint Resolve appends_only_call_galaxy_method : appends.

Lemma appends_only_parse_galaxy galaxy source_id :
  appends_only (parse_galaxy E galaxy source_id).
Proof. unfold parse_galaxy. appends. Qed.
Hint Resolve appends_only_parse_galaxy : appends.

Lemma appends_only_parse_galaxies galaxies source_id :
  appends_only (parse_galaxies E galaxies source_id).
Proof. unfold parse_galaxies. appends. Qed.
Hint Resolve appends_only_parse_galaxies : appends.


Lemma appends_only_add_custom attribute : appends_only (add_custom E attribute).
Proof. unfold add_custom. appends. Qed.
Hint Resolve appends_only_add_custom : appends.

Lemma appends_only_call_attribute_method to_call attribute :
  appends_only (call_attribute_method E to_call attribute).
Proof.
  unfold call_attribute_method, handle_person, handle_usual_type, handle_link,
    add_identity, add_indicator, add_observed_data, add_vulnerability.
  appends.
Qed.
Hint Resolve appends_only_call_attribute_method : appends.

Lemma appends_only_handle_attribute attribute : appends_only (handle_attribute E attribute).
Proof. unfold handle_attribute. appends. Qed.
Hint Resolve appends_only_handle_attribute : appends.

Lemma appends_only_fetch_custom_values_from values attributes object_id :
  appends_only (fetch_custom_values_from E values attributes object_id).
Proof.
  revert values. induction attributes as [|a attributes IH]; intros values; simpl; appends.
Qed.
Hint Resolve appends_only_fetch_custom_values_from : appends.

Lemma appends_only_add_object_custom misp_object to_ids :
  appends_only (add_object_custom E misp_object to_ids).
Proof. unfold add_object_custom, fetch_custom_values. appends. Qed.
Hint Resolve appends_only_add_object_custom : appends.

Lemma appends_only_create_file_attributes_dict_from attributes_dict attributes object_id :
  appends_only (create_file_attributes_dict_from E attributes_dict attributes object_id).
Proof.
  revert attributes_dict.
  induction attributes as [|a attributes IH]; intros attributes_dict; simpl; appends.
Qed.
Hint Resolve appends_only_create_file_attributes_dict_from : appends.

Lemma appends_only_resolve_file_observable attributes object_id :
  appends_only (resolve_file_observable E attributes object_id).
Proof. unfold resolve_file_observable, create_file_attributes_dict. appends. Qed.
Hint Resolve appends_only_resolve_file_observable : appends.

Lemma appends_only_resolve_file_pattern attributes object_id :
  appends_only (resolve_file_pattern E attributes object_id).
Proof. unfold resolve_file_pattern, create_file_attributes_dict. appends. Qed.
Hint Resolve appends_only_resolve_file_pattern : appends.

Lemma appends_only_call_builder method attributes object_id :
  appends_only (call_builder E method attributes object_id).
Proof.
  unfold call_builder. appends.
Qed.
Hint Resolve appends_only_call_builder : appends.

Lemma appends_only_add_object_indicator misp_object pattern_arg :
  appends_only (add_object_indicator E misp_object pattern_arg).
Proof. unfold add_object_indicator. appends. Qed.
Hint Resolve appends_only_add_object_indicator : appends.

Lemma appends_only_fix_enumeration_issues name args :
  appends_only (fix_enumeration_issues E name args).
Proof. unfold fix_enumeration_issues. appends. Qed.
Hint Resolve appends_only_fix_enumeration_issues : appends.

Lemma appends_only_add_object_observable misp_object observable_arg :
  appends_only (add_object_observable E misp_object observable_arg).
Proof. unfold add_object_observable. appends. Qed.
Hint Resolve appends_only_add_object_observable : appends.

Lemma appends_only_held name : appends_only (held name).
Proof. unfold held. appends. Qed.
Hint Resolve appends_only_held : appends.

Lemma appends_only_hold name uuid to_ids misp_object :
  appends_only (hold name uuid to_ids misp_object).
Proof. unfold hold. appends. Qed.
Hint Resolve appends_only_hold : appends.

Lemma appends_only_course_of_action_fields coa_id coa_args attributes :
  appends_only (course_of_action_fields E coa_id coa_args attributes).
Proof.
  revert coa_args. induction attributes as [|a attributes IH]; intros coa_args; simpl; appends.
Qed.
Hint Resolve appends_only_course_of_action_fields : appends.

Lemma appends_only_call_object_method to_call misp_object to_ids :
  appends_only (call_object_method E to_call misp_object to_ids).
Proof.
  unfold call_object_method, handle_usual_object_name, populate_objects_to_parse,
    add_attack_pattern_object, add_course_of_action_from_object, add_coa_stix_object,
    add_object_vulnerability.
  appends.
Qed.
Hint Resolve appends_only_call_object_method : appends.

Lemma appends_only_handle_object misp_object : appends_only (handle_object E misp_object).
Proof. unfold handle_object. appends. Qed.
Hint Resolve appends_only_handle_object : appends.

Lemma appends_only_resolve_sections references to_ids_list sections :
  appends_only (resolve_sections references to_ids_list sections).
Proof.
  revert to_ids_list sections.
  induction references as [|reference references IH]; intros to_ids_list sections; simpl;
    appends.
Qed.
Hint Resolve appends_only_resolve_sections : appends.

Lemma appends_only_resolve_file_object pe_uuid to_ids_file file_object :
  appends_only (resolve_file_object E pe_uuid to_ids_file file_object).
Proof. unfold resolve_file_object. appends. Qed.
Hint Resolve appends_only_resolve_file_object : appends.

Lemma appends_only_resolve_file_objects pe_uuid files :
  appends_only (resolve_file_objects E pe_uuid files).
Proof.
  revert pe_uuid. induction files as [|[uuid [to_ids_file file_object]] files IH];
    intros pe_uuid; simpl; appends.
Qed.
Hint Resolve appends_only_resolve_file_objects : appends.

Lemma appends_only_resolve_objects2parse : appends_only (resolve_objects2parse E).
Proof. unfold resolve_objects2parse. appends. Qed.
Hint Resolve appends_only_resolve_objects2parse : appends.

Lemma appends_only_add_all_markings : appends_only add_all_markings.
Proof. unfold add_all_markings. appends. Qed.
Hint Resolve appends_only_add_all_markings : appends.

Lemma appends_only_new_relationship source target relation :
  appends_only (new_relationship E source target relation).
Proof. unfold new_relationship. appends. Qed.
Hint Resolve appends_only_new_relationship : appends.

Lemma appends_only_add_all_relationships : appends_only (add_all_relationships E).
Proof.
  unfold add_all_relationships, add_defined_edges, add_to_define_edges,
    add_defined_relationships, add_to_define_relationship.
  appends.
Qed.
Hint Resolve appends_only_add_all_relationships : appends.


Lemma appends_only_eventReport : appends_only (eventReport E).
Proof. unfold eventReport. appends. Qed.

Lemma appends_only_event_body (event : Event) : appends_only (event_body E event).
Proof. unfold event_body. appends. Qed.

End AppendsOnly.

Lemma dict_get_update_ne {V} (k : string) (e d : list (string * V)) :
  k ∉ dict_keys e → dict_get k (dict_update e d) = dict_get k d.
Proof.
  unfold dict_update, dict_keys. revert d.
  induction e as [|[k' v'] e IH]; intros d; csimpl; [done|].
  intros [Hne He]%not_elem_of_cons. rewrite IH by done. by apply dict_get_set_ne.
Qed.

(** The report [eventReport] returns. *)
Lemma eventReport_Return E s report s' :
  eventReport E s = (Return report, s') →
  cls report = Report ∧
  getitem "object_refs" report = Some (PStrs (object_refs s')) ∧
  getitem "id" report = Some (PStr (report_id s)) ∧
  getitem "created_by_ref" report = Some (PStr (identity_id s)).
Proof.
  unfold eventReport. intros H.
  apply bind_Return in H as (refs & ? & [= <- <-] & H).
  apply bind_Return in H as (pending & ? & [= <- <-] & H).
  apply bind_Return in H as ([] & s1 & Hlink & H).
  assert (Hkeep : report_id s1 = report_id s ∧ identity_id s1 = identity_id s).
  { assert (Happ : appends_only
              (match object_refs s, links s with
               | [], link :: rest => modify (set_links rest);; add_custom E link
               | _, _ => mret tt
               end)).
    { destruct (object_refs s); [destruct (links s)|]; try apply appends_only_mret.
      apply appends_only_bind; [by apply appends_only_modify|intros _].
      apply appends_only_add_custom. }
    by destruct (Happ _ _ _ Hlink) as (_ & _ & _ & _ & ? & ? & _). }
  destruct Hkeep as [Hreport Hidentity].
  apply bind_Return in H as (pending1 & ? & [= <- <-] & H).
  apply bind_Return in H as (event & s2 & Hevent & H).
  apply bind_Return in Hevent as (? & ? & [= <- <-] & [_ ->]%lift_Return).
  apply bind_Return in H as (id & ? & [= <- <-] & H).
  apply bind_Return in H as (created_by & ? & [= <- <-] & H).
  apply bind_Return in H as (published & ? & [_ ->]%lift_Return & H).
  apply bind_Return in H as (modified & ? & [_ ->]%lift_Return & H).
  destruct (split_tags (event_Tag event) _MISP_event_tags []) as [labels markings].
  apply bind_Return in H as (report_args & s3 & Hargs & H).
  apply bind_Return in H as ([] & s4 & _ & H).
  apply bind_Return in H as ([] & s5 & _ & H).
  apply bind_Return in H as (refs1 & ? & [= <- <-] & H).
  apply construct_Return in H as [-> ->].
  assert (Hbase : dict_get "id" report_args = Some (PStr (report_id s1)) ∧
                  dict_get "created_by_ref" report_args = Some (PStr (identity_id s1))).
  { destruct markings as [|marking markings].
    - injection Hargs as <- <-. by split.
    - apply bind_Return in Hargs as (marking_ids & s6 & _ & [= <- <-]).
      by split. }
  destruct Hbase as [Hid Hcreated].
  unfold getitem. cbn [cls kwargs]. split; [done|].
  rewrite dict_get_set_eq. split; [done|].
  rewrite !(dict_get_set_ne _ "object_refs") by done.
  destruct (__parse_link <$> links s1);
    rewrite ?(dict_get_set_ne _ "external_references") by done;
    rewrite !(dict_get_set_ne _ "labels") by done;
    by rewrite Hid, Hcreated, Hreport, Hidentity.
Qed.

(** What [__set_identity] leaves behind. *)
Lemma set_identity_Return E event s i s' :
  misp_event s = Some event →
  __set_identity E s = (Return i, s') →
  ∃ identities,
    SDOs s' = SDOs s ++ identities ∧ length identities = i ∧
    i = (if bool_decide (org_uuid (event_Orgc event) ∈ orgs s) then 0 else 1) ∧
    Forall (fun o => cls o = Identity ∧
                     stix_id o = "identity--" +:+ org_uuid (event_Orgc event)) identities ∧
    object_refs s' = object_refs s ∧ misp_event s' = misp_event s ∧
    report_id s' = report_id s ∧
    identity_id s' = "identity--" +:+ org_uuid (event_Orgc event) ∧
    org_uuid (event_Orgc event) ∈ orgs s'.
Proof.
  intros Hevent Hrun. unfold __set_identity, get_misp_event in Hrun.
  unfold mbind, M_bind, bind, gets, lift, modify, mret, M_ret, ret in Hrun.
  simpl in Hrun. rewrite Hevent in Hrun. simpl in Hrun.
  case_bool_decide as Hin.
  - injection Hrun as <- <-. exists []. by rewrite app_nil_r.
  - unfold construct in Hrun. destruct (validate E Identity _); [done|].
    simpl in Hrun. injection Hrun as <- <-. eexists [_]. split_and!; try done.
    + by repeat constructor.
    + simpl. set_solver.
Qed.

Lemma handler_begin_Return event s s0 :
  handler_begin event s = (Return tt, s0) →
  SDOs s0 = [] ∧ object_refs s0 = [] ∧ misp_event s0 = Some event ∧
  report_id s0 = "report--" +:+ event_uuid event ∧ orgs s0 = orgs s.
Proof.
  unfold handler_begin, mbind, M_bind, bind, modify. intros [= <-]. by split_and!.
Qed.

(** The steps of a run of [handler] that returns. *)
Lemma handler_Return E event s output s' :
  handler E event s = (Return output, s') →
  ∃ s0 i s1 s4 report s5,
    handler_begin event s = (Return tt, s0) ∧
    __set_identity E s0 = (Return i, s1) ∧
    event_body E event s1 = (Return tt, s4) ∧
    eventReport E s4 = (Return report, s5) ∧
    output = list_insert_at i report (SDOs s5) ∧
    orgs s' = orgs s5.
Proof.
  unfold handler. intros H.
  apply bind_Return in H as ([] & s0 & Hbegin & H).
  apply bind_Return in H as (i & s1 & Hidentity & H).
  apply bind_Return in H as ([] & s2 & Hattributes & H).
  apply bind_Return in H as ([] & s3 & Hobjects & H).
  apply bind_Return in H as ([] & s4 & Hgalaxies & H).
  apply bind_Return in H as (report & s5 & Hreport & H).
  apply bind_Return in H as ([] & s6 & [= <-] & [= <- <-]).
  exists s0, i, s1, s4, report, s5. split_and!; try done.
  unfold event_body.
  rewrite (bind_run _ _ _ _ _ Hattributes), (bind_run _ _ _ _ _ Hobjects). exact Hgalaxies.
Qed.

(** A run of [handler] that returns, in one statement. *)
Lemma handler_output (E : Env) (event : Event) (s s' : StixBuilder)
    (output : list stix_object) :
  (∀ method builder attributes object_id,
     resolve_method E method = Some builder → appends_only (builder attributes object_id)) →
  handler E event s = (Return output, s') →
  ∃ identities report produced,
    output = identities ++ report :: produced ∧
    Forall (fun o => cls o = Identity ∧
                     stix_id o = "identity--" +:+ org_uuid (event_Orgc event)) identities ∧
    length identities
      = (if bool_decide (org_uuid (event_Orgc event) ∈ orgs s) then 0 else 1) ∧
    cls report = Report ∧
    getitem "id" report = Some (PStr ("report--" +:+ event_uuid event)) ∧
    getitem "created_by_ref" report
      = Some (PStr ("identity--" +:+ org_uuid (event_Orgc event))) ∧
    getitem "object_refs" report = Some (PStrs (stix_id <$> produced)) ∧
    org_uuid (event_Orgc event) ∈ orgs s'.
Proof.
  intros builders H.
  apply handler_Return in H as (s0 & i & s1 & s4 & report & s5 & Hbegin & Hidentity
                                  & Hbody & Hreport & -> & Ho5).
  apply handler_begin_Return in Hbegin as (HS0 & HR0 & He0 & Hr0 & Ho0).
  apply (set_identity_Return E event _ _ _ He0) in Hidentity
    as (identities & HS1 & Hlen & Hi & Hids & HR1 & He1 & Hr1 & Hi1 & Hin1).
  rewrite HS0 in HS1. rewrite HR0 in HR1. rewrite Ho0 in Hi. simpl in HS1.
  destruct (appends_only_event_body E builders event _ _ _ Hbody)
    as (new & HS4 & HR4 & _ & Hr4 & Hi4 & Ho4).
  destruct (appends_only_eventReport E _ _ _ Hreport)
    as (new' & HS5 & HR5 & _ & _ & _ & Ho5').
  apply eventReport_Return in Hreport as (Hcls & Hrefs & Hid & Hcreated).
  exists identities, report, (new ++ new').
  rewrite HS5, HS4, HS1. rewrite HR5, HR4, HR1 in Hrefs. simpl in Hrefs.
  rewrite Hr4, Hr1, Hr0 in Hid. rewrite Hi4, Hi1 in Hcreated.
  split_and!; try done.
  - unfold list_insert_at. rewrite <-app_assoc, <-Hlen.
    by rewrite take_app_length, drop_app_length.
  - by rewrite Hlen.
  - by rewrite Hrefs, fmap_app.
  - by rewrite Ho5, Ho5', Ho4.
Qed.

(** The output of [handler] for an event: the identity of the organisation
    when the run meets it for the first time, then the report, then every
    object produced for the event, in the order produced.  The report carries
    the identifier [report--<uuid of the event>], is created by the identity
    of the organisation, and its [object_refs] are exactly the identifiers of
    the objects that follow it, in the same order: markings and relationships
    included, the identity and the report itself excluded.  The observable
    and pattern builders that [objects_mapping] names and that are not
    written out here are taken to produce objects only through
    [append_object]. *)
Theorem report_refers_to_produced_objects (E : Env) (event : Event) (s s' : StixBuilder)
    (output : list stix_object) :
  (∀ method builder attributes object_id,
     resolve_method E method = Some builder → appends_only (builder attributes object_id)) →
  handler E event s = (Return output, s') →
  ∃ identities report produced,
    output = identities ++ report :: produced ∧
    Forall (fun o => cls o = Identity ∧
                     stix_id o = "identity--" +:+ org_uuid (event_Orgc event)) identities ∧
    length identities
      = (if bool_decide (org_uuid (event_Orgc event) ∈ orgs s) then 0 else 1) ∧
    cls report = Report ∧
    getitem "id" report = Some (PStr ("report--" +:+ event_uuid event)) ∧
    getitem "created_by_ref" report
      = Some (PStr ("identity--" +:+ org_uuid (event_Orgc event))) ∧
    getitem "object_refs" report = Some (PStrs (stix_id <$> produced)).
Proof.
  intros builders H.
  destruct (handler_output E event s s' output builders H)
    as (identities & report & produced & Hout & Hidentities & Hlen & Hcls & Hid
        & Hcreated & Hrefs & _).
  exists identities, report, produced. by split_and!.
Qed.

Lemma demo_builders_append_only method builder attributes object_id :
  resolve_method Demo.env method = Some builder →
  appends_only (builder attributes object_id).
Proof.
  cbn [resolve_method Demo.env]. intros Hbuilder.
  repeat (destruct (decide _) in Hbuilder); simplify_eq;
    unfold Demo.resolve_url; destruct (filter _ attributes);
    first [apply appends_only_mret|apply appends_only_raise].
Qed.

Definition reported_event : Event :=
  Demo.event "5a3cd604-0007"
    [Demo.clustered [Demo.mimikatz "tool"]
       (Demo.tagged ["tlp:white"] (Demo.attribute "domain" "a.example" "a1" true));
     Demo.attribute "ip-dst" "198.51.100.7" "a2" false]
    [Demo.object "url" "o1"
       [Demo.related "url" (Demo.attribute "url" "a.example/x" "o2" false)]
       [{| referenced_uuid := "a1"; relationship_type := "related-to";
           ref_Object_name := "" |}]]
    [].

Definition reported_output : list stix_object :=
  Eval vm_compute in
    match (handler Demo.env reported_event __init__).1 with
    | Return output => output
    | Raise _ => []
    end.

Definition reported_state : StixBuilder :=
  Eval vm_compute in (handler Demo.env reported_event __init__).2.

Lemma report_refers_to_produced_objects_witness :
  (cls <$> reported_output)
    = [Identity; Report; Tool; Indicator; ObservedData; ObservedData; MarkingDefinition;
       Relationship; Relationship] ∧
  ∃ identities report produced,
    reported_output = identities ++ report :: produced ∧
    length identities = 1 ∧
    getitem "object_refs" report = Some (PStrs (stix_id <$> produced)).
Proof.
  split; [vm_compute; reflexivity|].
  assert (Hrun : handler Demo.env reported_event __init__
                 = (Return reported_output, reported_state)) by (vm_compute; reflexivity).
  destruct (report_refers_to_produced_objects Demo.env reported_event __init__
              reported_state reported_output demo_builders_append_only Hrun)
    as (identities & report & produced & Hout & _ & Hlen & _ & _ & _ & Hrefs).
  exists identities, report, produced.
  split; [exact Hout|]. split; [exact Hlen|exact Hrefs].
Defined.

(** * Further builders *)

(** ** The observable of a [url] object *)

Section UrlObservable.
Context (E : Env).

(** The loop of [resolve_url_observable].  [observable] is [None] as long as
    the local name of the function is not bound. *)
Fixpoint url_observable_loop (attributes : list Attribute) (object_id : string)
    (observable : option pydict) (url_args : list (string * string)) :
    M (option pydict * list (string * string)) :=
  match attributes with
  | [] => mret (observable, url_args)
  | attribute :: rest =>
      parse_galaxies E (attr_Galaxy attribute) object_id;;
      if decide (attr_type attribute = "url")
      then url_observable_loop rest object_id
             (Some [("0", PDict [("type", PStr "url");
                                 ("value", PStr (attr_value attribute))])])
             url_args
      else url_observable_loop rest object_id observable
             (dict_set (attr_type attribute) (attr_value attribute) url_args)
  end.

(** The node built for a port. *)
Definition url_port_node (port_value : string) : pyval :=
  PDict [("type", PStr "network-traffic"); ("dst_ref", PStr "1");
         ("protocols", PList (PStr "tcp" :: match defineProtocols E port_value with
                                           | Some protocol => [PStr protocol]
                                           | None => []
                                           end));
         ("dst_port", PStr port_value)].

(** [resolve_url_observable] *)
Definition resolve_url_observable (attributes : list Attribute) (object_id : string) :
    M pyval :=
  '(observable, url_args) ← url_observable_loop attributes object_id None [];
  observable ←
    match dict_get "domain" url_args with
    | Some domain =>
        bound ← lift (of_option NameError observable);
        mret (Some (dict_set "1" (PDict [("type", PStr "domain-name");
                                         ("value", PStr domain)]) bound))
    | None => mret observable
    end;
  observable ←
    match dict_get "port" url_args with
    | Some port_value =>
        let port := url_port_node port_value in
        bound ← lift (of_option NameError observable);
        mret (Some (if dict_has "1" bound then dict_set "2" port bound
                    else dict_set "1" port bound))
    | None => mret observable
    end;
  bound ← lift (of_option NameError observable);
  mret (PDict bound).

End UrlObservable.

(** The value of the last attribute of a type. *)
Definition last_of_type (type : string) (attributes : list Attribute) : option string :=
  attr_value <$> last (filter (fun a => attr_type a = type) attributes).

Lemma last_snoc_filter {A} (P : A → Prop) `{∀ x, Decision (P x)} (l : list A) (x : A) :
  last (filter P (l ++ [x])) = if decide (P x) then Some x else last (filter P l).
Proof.
  rewrite filter_app. destruct (decide (P x)).
  - rewrite filter_cons_True, filter_nil by done. by rewrite last_snoc.
  - rewrite filter_cons_False, filter_nil by done. by rewrite app_nil_r.
Qed.

(** What the loop of [resolve_url_observable] has read after [seen], when it
    goes on with [attributes]. *)
Lemma url_observable_loop_Return E (seen attributes : list Attribute) object_id
    observable url_args s r s' :
  observable = (fun url => [("0", PDict [("type", PStr "url"); ("value", PStr url)])])
                 <$> last_of_type "url" seen →
  (∀ type, type ≠ "url" → dict_get type url_args = last_of_type type seen) →
  url_observable_loop E attributes object_id observable url_args s = (Return r, s') →
  r.1 = (fun url => [("0", PDict [("type", PStr "url"); ("value", PStr url)])])
          <$> last_of_type "url" (seen ++ attributes) ∧
  ∀ type, type ≠ "url" → dict_get type r.2 = last_of_type type (seen ++ attributes).
Proof.
  revert seen observable url_args s.
  induction attributes as [|a attributes IH]; intros seen observable url_args s Ho Ha H.
  - injection H as <- <-. by rewrite app_nil_r.
  - simpl in H. apply bind_Return in H as ([] & s1 & _ & H).
    replace (seen ++ a :: attributes) with ((seen ++ [a]) ++ attributes)
      by (by rewrite <-app_assoc).
    destruct (decide (attr_type a = "url")) as [Hurl|Hurl].
    + apply (IH (seen ++ [a])) in H; [done| |].
      * unfold last_of_type. rewrite last_snoc_filter. by rewrite decide_True.
      * intros type Htype. rewrite (Ha type Htype). unfold last_of_type.
        rewrite last_snoc_filter. rewrite decide_False; [done|congruence].
    + apply (IH (seen ++ [a])) in H; [done| |].
      * rewrite Ho. unfold last_of_type. rewrite last_snoc_filter.
        by rewrite decide_False.
      * intros type Htype. unfold last_of_type. rewrite last_snoc_filter.
        destruct (decide (attr_type a = type)) as [<-|Hne].
        -- by rewrite dict_get_set_eq.
        -- rewrite dict_get_set_ne by done. by apply Ha.
Qed.

(** The observable of a [url] object starts from the last attribute of type
    [url], which becomes node 0; the last attribute of type [domain] becomes
    node 1, and the last of type [port] a network-traffic node, numbered 2
    after a domain and 1 otherwise.  The [dst_ref] of that node is always 1:
    it points to the domain when there is one, and to the node itself when
    there is none.  Without an attribute of type [url] the builder raises,
    because the local name [observable] is never bound. *)
Theorem url_observable_shape (E : Env) (attributes : list Attribute) (object_id : string)
    (s : StixBuilder) :
  (∀ observable s',
     resolve_url_observable E attributes object_id s = (Return observable, s') →
     ∃ url,
       last_of_type "url" attributes = Some url ∧
       observable
       = PDict (("0", PDict [("type", PStr "url"); ("value", PStr url)]) ::
                match last_of_type "domain" attributes, last_of_type "port" attributes with
                | Some domain, Some port =>
                    [("1", PDict [("type", PStr "domain-name"); ("value", PStr domain)]);
                     ("2", url_port_node E port)]
                | Some domain, None =>
                    [("1", PDict [("type", PStr "domain-name"); ("value", PStr domain)])]
                | None, Some port => [("1", url_port_node E port)]
                | None, None => []
                end)) ∧
  (last_of_type "url" attributes = None →
   ∃ e s', resolve_url_observable E attributes object_id s = (Raise e, s')).
Proof.
  assert (Hshape : ∀ observable s',
     resolve_url_observable E attributes object_id s = (Return observable, s') →
     ∃ url,
       last_of_type "url" attributes = Some url ∧
       observable
       = PDict (("0", PDict [("type", PStr "url"); ("value", PStr url)]) ::
                match last_of_type "domain" attributes, last_of_type "port" attributes with
                | Some domain, Some port =>
                    [("1", PDict [("type", PStr "domain-name"); ("value", PStr domain)]);
                     ("2", url_port_node E port)]
                | Some domain, None =>
                    [("1", PDict [("type", PStr "domain-name"); ("value", PStr domain)])]
                | None, Some port => [("1", url_port_node E port)]
                | None, None => []
                end)).
  { intros observable s' H. unfold resolve_url_observable in H.
    apply bind_Return in H as ([bound url_args] & s1 & Hloop & H).
    apply (url_observable_loop_Return E [] attributes) in Hloop as [Hurl Hargs];
      [|done|done].
    simpl in Hurl, Hargs.
    rewrite (Hargs "domain"), (Hargs "port") in H by done.
    destruct (last_of_type "url" attributes) as [url|]; simpl in Hurl; subst bound.
    - exists url. split; [done|].
      destruct (last_of_type "domain" attributes) as [domain|],
               (last_of_type "port" attributes) as [port|];
        simpl in H; by injection H as <- <-.
    - destruct (last_of_type "domain" attributes) as [domain|],
               (last_of_type "port" attributes) as [port|]; simpl in H; done. }
  split; [exact Hshape|].
  intros Hnone.
  destruct (resolve_url_observable E attributes object_id s) as [[observable|e] s'] eqn:Hrun.
  - destruct (Hshape _ _ eq_refl) as (url & Hurl & _). congruence.
  - by exists e, s'.
Qed.

Definition port_only : list Attribute :=
  [Demo.attribute "url" "a.example/x" "u1" false;
   Demo.attribute "port" "80" "u2" false].

Lemma url_observable_shape_witness :
  resolve_url_observable Demo.env port_only "observed-data--o1" __init__
  = (Return (PDict [("0", PDict [("type", PStr "url"); ("value", PStr "a.example/x")]);
                    ("1", PDict [("type", PStr "network-traffic"); ("dst_ref", PStr "1");
                                 ("protocols", PList [PStr "tcp"; PStr "http"]);
                                 ("dst_port", PStr "80")])]), __init__).
Proof.
  assert (Hrun : ∃ observable,
            resolve_url_observable Demo.env port_only "observed-data--o1" __init__
            = (Return observable, __init__)) by (eexists; vm_compute; reflexivity).
  destruct Hrun as [observable Hrun]. rewrite Hrun.
  destruct (proj1 (url_observable_shape Demo.env port_only "observed-data--o1" __init__)
              _ _ Hrun) as (url & Hurl & ->).
  vm_compute in Hurl. injection Hurl as <-. reflexivity.
Defined.

(** ** The attributes of a [user-account] object *)

Section UserAccount.
Context (E : Env).

(** The loop of [parse_user_account_attributes]; [tmp_attributes] is its
    [defaultdict(list)]. *)
Fixpoint user_account_loop (attributes : list Attribute) (object_id : string)
    (tmp_attributes : pydict) : M pydict :=
  match attributes with
  | [] => mret tmp_attributes
  | attribute :: rest =>
      parse_galaxies E (attr_Galaxy attribute) object_id;;
      let relation := attr_object_relation attribute in
      if decide (relation = "group") then
        match dict_get relation tmp_attributes with
        | None =>
            user_account_loop rest object_id
              (dict_set relation (PList [PStr (attr_value attribute)]) tmp_attributes)
        | Some (PList groups) =>
            user_account_loop rest object_id
              (dict_set relation (PList (groups ++ [PStr (attr_value attribute)]))
                 tmp_attributes)
        | Some _ => raise AttributeError
        end
      else
        user_account_loop rest object_id
          (dict_set relation (PStr (attr_value attribute)) tmp_attributes)
  end.

(** [parse_user_account_attributes] *)
Definition parse_user_account_attributes (attributes : list Attribute)
    (object_id : string) : M pydict :=
  tmp_attributes ← user_account_loop attributes object_id [];
  let tmp_attributes :=
    match dict_get "user-id" tmp_attributes, dict_get "username" tmp_attributes with
    | None, Some username => dict_set "user-id" username (dict_remove "username" tmp_attributes)
    | _, _ => tmp_attributes
    end in
  let tmp_attributes :=
    if dict_has "text" tmp_attributes then dict_remove "text" tmp_attributes
    else tmp_attributes in
  mret tmp_attributes.

End UserAccount.

(** The value of the last attribute of a relation. *)
Definition last_of_relation (relation : string) (attributes : list Attribute) :
    option string :=
  attr_value <$> last (filter (fun a => attr_object_relation a = relation) attributes).

(** The values of the attributes of a relation, in order. *)
Definition all_of_relation (relation : string) (attributes : list Attribute) :
    list string :=
  attr_value <$> filter (fun a => attr_object_relation a = relation) attributes.

Lemma dict_get_remove_eq {V} (k : string) (d : list (string * V)) :
  dict_get k (dict_remove k d) = None.
Proof.
  unfold dict_remove. induction d as [|[k' v'] d IH]; [done|].
  destruct (decide (k' = k)) as [->|Hne].
  - by rewrite filter_cons_False by (simpl; tauto).
  - rewrite filter_cons_True by done. simpl. by rewrite decide_False.
Qed.

Lemma dict_get_remove_ne {V} (k k' : string) (d : list (string * V)) :
  k ≠ k' → dict_get k (dict_remove k' d) = dict_get k d.
Proof.
  intros Hne. unfold dict_remove. induction d as [|[k0 v0] d IH]; [done|].
  destruct (decide (k0 = k')) as [->|Hne0].
  - rewrite filter_cons_False by (simpl; tauto). simpl. by rewrite decide_False.
  - rewrite filter_cons_True by done. simpl. by rewrite IH.
Qed.

Lemma user_account_loop_Return E (seen attributes : list Attribute) object_id
    tmp_attributes s tmp s' :
  (∀ relation, relation ≠ "group" →
     dict_get relation tmp_attributes = PStr <$> last_of_relation relation seen) →
  dict_get "group" tmp_attributes
    = match all_of_relation "group" seen with
      | [] => None
      | groups => Some (PList (PStr <$> groups))
      end →
  user_account_loop E attributes object_id tmp_attributes s = (Return tmp, s') →
  (∀ relation, relation ≠ "group" →
     dict_get relation tmp = PStr <$> last_of_relation relation (seen ++ attributes)) ∧
  dict_get "group" tmp
    = match all_of_relation "group" (seen ++ attributes) with
      | [] => None
      | groups => Some (PList (PStr <$> groups))
      end.
Proof.
  revert seen tmp_attributes s.
  induction attributes as [|a attributes IH]; intros seen tmp_attributes s Hothers Hgroup H.
  - injection H as <- <-. by rewrite app_nil_r.
  - simpl in H. apply bind_Return in H as ([] & s1 & _ & H).
    replace (seen ++ a :: attributes) with ((seen ++ [a]) ++ attributes)
      by (by rewrite <-app_assoc).
    assert (Hall : all_of_relation "group" (seen ++ [a])
                   = all_of_relation "group" seen
                     ++ (if decide (attr_object_relation a = "group")
                         then [attr_value a] else [])).
    { unfold all_of_relation. rewrite filter_app, fmap_app. f_equal.
      destruct (decide _); [by rewrite filter_cons_True|by rewrite filter_cons_False]. }
    destruct (decide (attr_object_relation a = "group")) as [Hrel|Hrel].
    + rewrite Hrel, Hgroup in H.
      assert (Hkeep : ∀ relation v, relation ≠ "group" →
                dict_get relation (dict_set "group" v tmp_attributes)
                = PStr <$> last_of_relation relation (seen ++ [a])).
      { intros relation v Hne. rewrite dict_get_set_ne by done.
        rewrite (Hothers _ Hne). unfold last_of_relation. rewrite last_snoc_filter.
        rewrite decide_False; [done|congruence]. }
      destruct (all_of_relation "group" seen) as [|group groups] eqn:Hseen.
      * apply (IH (seen ++ [a])) in H; [done|by intros; apply Hkeep|].
        by rewrite dict_get_set_eq, Hall.
      * apply (IH (seen ++ [a])) in H; [done|by intros; apply Hkeep|].
        rewrite dict_get_set_eq, Hall. csimpl. by rewrite fmap_app.
    + apply (IH (seen ++ [a])) in H; [done| |].
      * intros relation Hne. unfold last_of_relation. rewrite last_snoc_filter.
        destruct (decide (attr_object_relation a = relation)) as [<-|Hne'].
        -- by rewrite dict_get_set_eq.
        -- rewrite dict_get_set_ne by done. by apply Hothers.
      * rewrite dict_get_set_ne by done. by rewrite Hgroup, Hall, app_nil_r.
Qed.

(** What [parse_user_account_attributes] keeps of the attributes of a
    user-account object, relation by relation.  The attributes of relation
    [text] are dropped.  The user identifier is the last attribute of
    relation [user-id]; when there is none, the last [username] takes its
    place and is no longer reported as a username.  The attributes of
    relation [group] are gathered in one list, in order.  Any other relation
    keeps the value of its last attribute. *)
Theorem user_account_attributes_normalised (E : Env) (attributes : list Attribute)
    (object_id : string) (s s' : StixBuilder) (tmp : pydict) :
  parse_user_account_attributes E attributes object_id s = (Return tmp, s') →
  dict_get "text" tmp = None ∧
  dict_get "user-id" tmp
    = PStr <$> (match last_of_relation "user-id" attributes with
                | Some user_id => Some user_id
                | None => last_of_relation "username" attributes
                end) ∧
  dict_get "username" tmp
    = match last_of_relation "user-id" attributes with
      | Some _ => PStr <$> last_of_relation "username" attributes
      | None => None
      end ∧
  dict_get "group" tmp
    = match all_of_relation "group" attributes with
      | [] => None
      | groups => Some (PList (PStr <$> groups))
      end ∧
  (∀ relation, relation ∉ ["text"; "user-id"; "username"; "group"] →
     dict_get relation tmp = PStr <$> last_of_relation relation attributes).
Proof.
  unfold parse_user_account_attributes. intros H.
  apply bind_Return in H as (tmp0 & s1 & Hloop & H).
  apply (user_account_loop_Return E [] attributes) in Hloop as [Hothers Hgroup];
    [|done|done].
  simpl in Hothers, Hgroup. injection H as <- <-.
  set (tmp1 := match dict_get "user-id" tmp0, dict_get "username" tmp0 with
               | None, Some username =>
                   dict_set "user-id" username (dict_remove "username" tmp0)
               | _, _ => tmp0
               end).
  assert (Hfinal : ∀ relation, relation ≠ "text" →
            dict_get relation (if dict_has "text" tmp1 then dict_remove "text" tmp1 else tmp1)
            = dict_get relation tmp1).
  { intros relation Hne. destruct (dict_has "text" tmp1); [|done].
    by apply dict_get_remove_ne. }
  assert (Htext : dict_get "text"
                    (if dict_has "text" tmp1 then dict_remove "text" tmp1 else tmp1) = None).
  { destruct (dict_has "text" tmp1) eqn:Hhas; [apply dict_get_remove_eq|].
    unfold dict_has in Hhas. apply bool_decide_eq_false in Hhas.
    destruct (dict_get "text" tmp1); [|done]. destruct Hhas. by eexists. }
  split; [exact Htext|].
  assert (Hrel : ∀ relation, relation ∉ ["text"; "user-id"; "username"; "group"] →
            dict_get relation (if dict_has "text" tmp1 then dict_remove "text" tmp1 else tmp1)
            = PStr <$> last_of_relation relation attributes).
  { intros relation Hnot.
    assert (relation ≠ "text" ∧ relation ≠ "user-id" ∧ relation ≠ "username"
            ∧ relation ≠ "group") as (? & ? & ? & ?).
    { split_and!; intros ->; apply Hnot; set_solver. }
    rewrite Hfinal by done. unfold tmp1.
    destruct (dict_get "user-id" tmp0), (dict_get "username" tmp0);
      rewrite ?dict_get_set_ne, ?dict_get_remove_ne by done; by apply Hothers. }
  pose proof (Hothers "user-id" ltac:(done)) as Hid.
  pose proof (Hothers "username" ltac:(done)) as Hname.
  split_and!; [| | |exact Hrel]; rewrite Hfinal by done; unfold tmp1;
    destruct (last_of_relation "user-id" attributes) as [user_id|],
             (last_of_relation "username" attributes) as [username|];
    simpl in Hid, Hname; rewrite ?Hid; simpl; rewrite ?Hname; simpl;
    rewrite ?dict_get_set_eq, ?dict_get_set_ne, ?dict_get_remove_eq, ?dict_get_remove_ne
      by done;
    rewrite ?Hid, ?Hname, ?Hgroup; try done.
Qed.

Definition account : list Attribute :=
  [Demo.related "username" (Demo.attribute "text" "alice" "u1" false);
   Demo.related "text" (Demo.attribute "text" "seen on the dump" "u2" false);
   Demo.related "group" (Demo.attribute "text" "wheel" "u3" false);
   Demo.related "group" (Demo.attribute "text" "staff" "u4" false)].

Lemma user_account_attributes_witness :
  parse_user_account_attributes Demo.env account "observed-data--o1" __init__
  = (Return [("group", PList [PStr "wheel"; PStr "staff"]); ("user-id", PStr "alice")],
     __init__) ∧
  dict_get "text" [("group", PList [PStr "wheel"; PStr "staff"]); ("user-id", PStr "alice")]
    = None.
Proof.
  assert (Hrun : parse_user_account_attributes Demo.env account "observed-data--o1" __init__
                 = (Return [("group", PList [PStr "wheel"; PStr "staff"]);
                            ("user-id", PStr "alice")], __init__))
    by (vm_compute; reflexivity).
  split; [exact Hrun|].
  exact (proj1 (user_account_attributes_normalised Demo.env account "observed-data--o1"
                  __init__ __init__ _ Hrun)).
Defined.

(** ** The observable of a [network-connection] object *)

(** What the network builders import from [misp2stix2_mapping], which is not
    part of the reviewed source: the function that names the type of an
    address and the table of the fields of a network-traffic object. *)
Record NetworkTables := {
  define_address_type : string -> string;
  networkTrafficMapping : string -> option string }.

Section NetworkConnection.
Context (T : NetworkTables).

(** One turn of the first loop of [create_network_observable], for the
    feature [src] or [dst]. *)
Definition network_feature (attributes : list (string * string)) (feature : string)
    (state : nat * pydict * pydict) : nat * pydict * pydict :=
  let '(n, network_object, observable) := state in
  let ip_feature := "ip-" +:+ feature in
  let host_feature := "hostname-" +:+ feature in
  let refs : list string := [] in
  let '(n, observable, refs) :=
    match dict_get host_feature attributes with
    | Some host =>
        let str_n := Str.of_nat n in
        (n + 1,
         dict_set str_n (PDict [("type", PStr "domain-name"); ("value", PStr host)]) observable,
         refs ++ [str_n])
    | None => (n, observable, refs)
    end in
  let '(n, observable, refs) :=
    match dict_get ip_feature attributes with
    | Some feature_value =>
        let str_n := Str.of_nat n in
        (n + 1,
         dict_set str_n (PDict [("type", PStr (define_address_type T feature_value));
                                ("value", PStr feature_value)]) observable,
         refs ++ [str_n])
    | None => (n, observable, refs)
    end in
  let network_object :=
    match refs with
    | [] => network_object
    | [ref] => dict_set (feature +:+ "_ref") (PStr ref) network_object
    | _ => dict_set (feature +:+ "_refs") (PStrs refs) network_object
    end in
  (n, network_object, observable).

(** One turn of the second loop of [create_network_observable]. *)
Definition network_port (attributes : list (string * string)) (feature : string)
    (network_object : pydict) : outcome pydict :=
  match dict_get feature attributes with
  | Some port =>
      obind (of_option KeyError (networkTrafficMapping T feature)) (fun field =>
        Return (dict_set field (PStr port) network_object))
  | None => Return network_object
  end.

(** [create_network_observable] *)
Definition create_network_observable (attributes : list (string * string)) :
    outcome (nat * pydict * pydict) :=
  let '(n, network_object, observable) :=
    network_feature attributes "dst"
      (network_feature attributes "src" (0, [("type", PStr "network-traffic")], [])) in
  obind (network_port attributes "src-port" network_object) (fun network_object =>
  obind (network_port attributes "dst-port" network_object) (fun network_object =>
    Return (n, network_object, observable))).

(** [{attribute['object_relation']: attribute['value'] for attribute in attributes}] *)
Definition relation_values (attributes : list Attribute) : list (string * string) :=
  foldl (fun d attribute => dict_set (attr_object_relation attribute) (attr_value attribute) d)
    [] attributes.

(** The protocols of a connection: the layers given, or [tcp]. *)
Definition connection_protocols (attributes : list (string * string)) : list string :=
  omap (fun layer => dict_get layer attributes)
    ["layer3-protocol"; "layer4-protocol"; "layer7-protocol"].

(** [protocols if protocols else ['tcp']] *)
Definition protocols_or_tcp (protocols : list string) : list string :=
  match protocols with
  | [] => ["tcp"]
  | _ => protocols
  end.

(** [resolve_network_connection_observable] *)
Definition resolve_network_connection_observable (attributes : list Attribute)
    (object_id : string) : outcome pyval :=
  let attributes := relation_values attributes in
  obind (create_network_observable attributes) (fun '(n, network_object, observable) =>
    let protocols := connection_protocols attributes in
    let network_object :=
      dict_set "protocols" (PStrs (protocols_or_tcp protocols)) network_object in
    Return (PDict (dict_set (Str.of_nat n) (PDict network_object) observable))).

End NetworkConnection.

(** The references a network-traffic node holds to other nodes. *)
Definition traffic_references (traffic : pydict) : list pyval :=
  omap (fun key => dict_get key traffic) ["src_ref"; "dst_ref"] ++
  mjoin (omap (fun key => match dict_get key traffic with
                          | Some (PList refs) => Some refs
                          | _ => None
                          end) ["src_refs"; "dst_refs"]).

(** The node of a host name. *)
Definition host_node (host : string) : pyval :=
  PDict [("type", PStr "domain-name"); ("value", PStr host)].

(** The node of an address. *)
Definition address_node (T : NetworkTables) (address : string) : pyval :=
  PDict [("type", PStr (define_address_type T address)); ("value", PStr address)].

(** The nodes of the ends of a connection: the source host, the source
    address, the destination host and the destination address, in this
    order, for those that are given. *)
Definition endpoint_nodes (T : NetworkTables) (given : list (string * string)) :
    list pyval :=
  omap (fun '(relation, node) => node <$> dict_get relation given)
    [("hostname-src", host_node); ("ip-src", address_node T);
     ("hostname-dst", host_node); ("ip-dst", address_node T)].

(** The observable of a network connection holds one node for every source
    or destination host name and address given, numbered from 0 in the order
    source host, source address, destination host, destination address: a
    host is a [domain-name] node with the host name as its value, an address
    a node of the type [define_address_type] names, with the address as its
    value.  The network-traffic node follows and takes the next number.
    Every reference the network-traffic node holds is the number of one of
    the nodes before it.  Its protocols are the layer 3, 4 and 7 protocols
    given, and [tcp] alone when none is given.  The table is taken to name
    the port fields [src_port] and [dst_port]. *)
Theorem network_connection_observable_shape (T : NetworkTables)
    (attributes : list Attribute) (object_id : string) (observable : pyval) :
  networkTrafficMapping T "src-port" = Some "src_port" →
  networkTrafficMapping T "dst-port" = Some "dst_port" →
  resolve_network_connection_observable T attributes object_id = Return observable →
  let given := relation_values attributes in
  ∃ nodes traffic,
    observable = PDict (nodes ++ [(Str.of_nat (length nodes), PDict traffic)]) ∧
    dict_keys nodes = Str.of_nat <$> seq 0 (length nodes) ∧
    nodes.*2 = endpoint_nodes T given ∧
    dict_get "type" traffic = Some (PStr "network-traffic") ∧
    dict_get "protocols" traffic
      = Some (PStrs (protocols_or_tcp (connection_protocols given))) ∧
    Forall (fun ref => ∃ key, ref = PStr key ∧ key ∈ dict_keys nodes)
      (traffic_references traffic).
Proof.
  intros Hsrc Hdst H given. unfold resolve_network_connection_observable in H.
  fold given in H. unfold create_network_observable, network_feature, network_port in H.
  rewrite Hsrc, Hdst in H.
  change ("hostname-" +:+ "src") with "hostname-src" in H.
  change ("hostname-" +:+ "dst") with "hostname-dst" in H.
  change ("ip-" +:+ "src") with "ip-src" in H.
  change ("ip-" +:+ "dst") with "ip-dst" in H.
  generalize dependent (PStrs (protocols_or_tcp (connection_protocols given))).
  intros protocols H. clearbody given.
  unfold endpoint_nodes. cbn [omap list_omap].
  destruct (dict_get "hostname-src" given) as [host_src|],
           (dict_get "ip-src" given) as [ip_src|],
           (dict_get "hostname-dst" given) as [host_dst|],
           (dict_get "ip-dst" given) as [ip_dst|],
           (dict_get "src-port" given) as [src_port|],
           (dict_get "dst-port" given) as [dst_port|];
    vm_compute in H; injection H as <-;
    lazymatch goal with
    | |- ∃ nodes traffic, PDict ?l = _ ∧ _ =>
        let nodes := eval cbv [removelast] in (removelast l) in
        lazymatch eval cbv [last] in (last l) with
        | Some (_, PDict ?traffic) => exists nodes, traffic
        end
    end;
    (split; [reflexivity|]);
    (split; [reflexivity|]); (split; [reflexivity|]); (split; [reflexivity|]);
    (split; [reflexivity|]);
    unfold traffic_references; cbn;
    repeat constructor; eexists; (split; [reflexivity|]); set_solver.
Qed.

Definition demo_network : NetworkTables :=
  {| define_address_type := fun address =>
       if Str.contains ":" address then "ipv6-addr" else "ipv4-addr";
     networkTrafficMapping := fun feature =>
       if decide (feature = "src-port") then Some "src_port"
       else if decide (feature = "dst-port") then Some "dst_port"
       else None |}.

Definition connection : list Attribute :=
  [Demo.related "ip-src" (Demo.attribute "ip-src" "198.51.100.7" "n1" false);
   Demo.related "hostname-dst" (Demo.attribute "hostname" "a.example" "n2" false);
   Demo.related "ip-dst" (Demo.attribute "ip-dst" "2001:db8::1" "n3" false);
   Demo.related "dst-port" (Demo.attribute "port" "443" "n4" false)].

Definition connection_observable : pyval :=
  Eval vm_compute in
    match resolve_network_connection_observable demo_network connection "observed-data--n0" with
    | Return observable => observable
    | Raise _ => PNone
    end.

Lemma network_connection_observable_witness :
  ∃ nodes traffic,
    connection_observable = PDict (nodes ++ [("3", PDict traffic)]) ∧
    dict_keys nodes = ["0"; "1"; "2"] ∧
    nodes.*2 = [PDict [("type", PStr "ipv4-addr"); ("value", PStr "198.51.100.7")];
                PDict [("type", PStr "domain-name"); ("value", PStr "a.example")];
                PDict [("type", PStr "ipv6-addr"); ("value", PStr "2001:db8::1")]] ∧
    dict_get "protocols" traffic = Some (PStrs ["tcp"]) ∧
    traffic_references traffic = [PStr "0"; PStr "1"; PStr "2"].
Proof.
  assert (Hrun : resolve_network_connection_observable demo_network connection
                   "observed-data--n0" = Return connection_observable)
    by (vm_compute; reflexivity).
  destruct (network_connection_observable_shape demo_network connection "observed-data--n0"
              connection_observable eq_refl eq_refl Hrun)
    as (nodes & traffic & Hshape & Hkeys & Hnodes & _ & Hprotocols & _).
  vm_compute in Hnodes.
  destruct nodes as [|n0 [|n1 [|n2 [|n3 nodes]]]]; try discriminate Hnodes.
  vm_compute in Hshape. injection Hshape as <- <- <- <-.
  eexists [_; _; _], _. split; [reflexivity|]. split; [reflexivity|].
  split; [reflexivity|]. split; reflexivity.
Defined.

(** ** Several events of one organisation *)

Lemma handle_events_cons (E : Env) (event : Event) (rest : list Event) :
  handle_events E (event :: rest)
  = (sdos ← handler E event; more ← handle_events E rest; mret (sdos ++ more)).
Proof. reflexivity. Qed.

Lemma handle_events_Return (E : Env) (event : Event) (rest : list Event) s output s' :
  handle_events E (event :: rest) s = (Return output, s') →
  ∃ output1 s1 more,
    handler E event s = (Return output1, s1) ∧
    handle_events E rest s1 = (Return more, s') ∧
    output = output1 ++ more.
Proof.
  rewrite handle_events_cons. intros H.
  apply bind_Return in H as (output1 & s1 & Hfirst & H).
  apply bind_Return in H as (more & s2 & Hlater & H).
  injection H as <- <-. by exists output1, s1, more.
Qed.

Lemma buildEvent_Response (E : Env) (event : Event) (rest : list Event) :
  buildEvent E (Response (event :: rest)) = handle_events E (event :: rest).
Proof. reflexivity. Qed.

Lemma buildEvent_two (E : Env) (first later : Event) s output s' :
  buildEvent E (Response [first; later]) s = (Return output, s') →
  ∃ s1 output1 output2,
    handler E first s = (Return output1, s1) ∧
    handler E later s1 = (Return output2, s') ∧
    output = output1 ++ output2.
Proof.
  rewrite buildEvent_Response. intros H.
  apply handle_events_Return in H as (output1 & s1 & more & Hfirst & H & ->).
  apply handle_events_Return in H as (output2 & s3 & nothing & Hlater & H & ->).
  injection H as <- <-. rewrite app_nil_r.
  exists s1, output1, output2. split; [exact Hfirst|]. split; [exact Hlater|reflexivity].
Qed.

(** In the output of a run over two events of the same organisation, the
    part of the second event starts with its report: the identity of the
    organisation is not produced again, although the report of the second
    event is created by it, as that of the first.  The observable
    and pattern builders that [objects_mapping] names and that are not
    written out here are taken to produce objects only through
    [append_object]. *)
Theorem identity_emitted_once_per_run (E : Env) (first later : Event)
    (s s' : StixBuilder) (output : list stix_object) :
  (∀ method builder attributes object_id,
     resolve_method E method = Some builder → appends_only (builder attributes object_id)) →
  org_uuid (event_Orgc first) = org_uuid (event_Orgc later) →
  buildEvent E (Response [first; later]) s = (Return output, s') →
  ∃ s1 output1 report produced,
    handler E first s = (Return output1, s1) ∧
    handler E later s1 = (Return (report :: produced), s') ∧
    output = output1 ++ report :: produced ∧
    cls report = Report ∧
    getitem "id" report = Some (PStr ("report--" +:+ event_uuid later)) ∧
    getitem "created_by_ref" report
      = Some (PStr ("identity--" +:+ org_uuid (event_Orgc first))) ∧
    getitem "object_refs" report = Some (PStrs (stix_id <$> produced)).
Proof.
  intros builders Hsame H.
  apply buildEvent_two in H as (s1 & output1 & output2 & Hfirst & Hlater & ->).
  destruct (handler_output E first s s1 output1 builders Hfirst)
    as (_ & _ & _ & _ & _ & _ & _ & _ & _ & _ & Hmet).
  destruct (handler_output E later s1 s' output2 builders Hlater)
    as (identities & report & produced & Hout & _ & Hlen & Hcls & Hid & Hcreated & Hrefs & _).
  rewrite <-Hsame in Hlen, Hcreated. rewrite bool_decide_true in Hlen by exact Hmet.
  destruct identities as [|identity identities]; [|discriminate Hlen].
  rewrite app_nil_l in Hout. subst output2.
  exists s1, output1, report, produced.
  split; [exact Hfirst|]. split; [exact Hlater|]. split; [reflexivity|].
  split; [exact Hcls|]. split; [exact Hid|]. split; [exact Hcreated|exact Hrefs].
Qed.

Definition first_of_two : Event :=
  Demo.event "5a3cd604-0008" [Demo.attribute "domain" "a.example" "a1" true] [] [].

Definition second_of_two : Event :=
  Demo.event "5a3cd604-0009" [Demo.attribute "domain" "b.example" "b1" true] [] [].

Definition two_events_output : list stix_object :=
  Eval vm_compute in
    match (buildEvent Demo.env (Response [first_of_two; second_of_two]) __init__).1 with
    | Return output => output
    | Raise _ => []
    end.

Definition two_events_state : StixBuilder :=
  Eval vm_compute in
    (buildEvent Demo.env (Response [first_of_two; second_of_two]) __init__).2.

Lemma identity_emitted_once_witness :
  (cls <$> two_events_output) = [Identity; Report; Indicator; Report; Indicator] ∧
  ∃ output1 report produced,
    two_events_output = output1 ++ report :: produced ∧
    getitem "id" report = Some (PStr "report--5a3cd604-0009").
Proof.
  split; [vm_compute; reflexivity|].
  assert (Hrun : buildEvent Demo.env (Response [first_of_two; second_of_two]) __init__
                 = (Return two_events_output, two_events_state))
    by (vm_compute; reflexivity).
  destruct (identity_emitted_once_per_run Demo.env first_of_two second_of_two __init__
              two_events_state two_events_output demo_builders_append_only eq_refl Hrun)
    as (s1 & output1 & report & produced & _ & _ & Hout & _ & Hid & _).
  exists output1, report, produced. split; [exact Hout|exact Hid].
Defined.

(** ** Links *)

Section KeepsLinks.
Context (E : Env).

Lemma keeps_links_append_object o id_mapping : keeps links (append_object o id_mapping).
Proof. unfold append_object. keeping. Qed.

Lemma keeps_links_handle_tags_from marking_ids tags :
  keeps links (handle_tags_from E marking_ids tags).
Proof.
  revert marking_ids. induction tags as [|tag tags IH]; intros marking_ids; simpl.
  - keeping.
  - unfold create_marking, construct, fresh_uuid. keeping.
Qed.

Lemma keeps_refs_handle_tags_from marking_ids tags :
  keeps object_refs (handle_tags_from E marking_ids tags).
Proof.
  revert marking_ids. induction tags as [|tag tags IH]; intros marking_ids; simpl.
  - keeping.
  - unfold create_marking, construct, fresh_uuid. keeping.
Qed.

Lemma keeps_links_add_custom attribute : keeps links (add_custom E attribute).
Proof.
  pose proof keeps_links_handle_tags_from. pose proof keeps_links_append_object.
  unfold add_custom, handle_tags, construct. keeping.
Qed.

Lemma keeps_links_add_all_markings : keeps links add_all_markings.
Proof. pose proof keeps_links_append_object. unfold add_all_markings. keeping. Qed.

Lemma keeps_links_add_all_relationships : keeps links (add_all_relationships E).
Proof.
  pose proof keeps_links_append_object.
  unfold add_all_relationships, add_defined_edges, add_to_define_edges,
    add_defined_relationships, add_to_define_relationship, new_relationship, fresh_uuid.
  keeping.
Qed.

End KeepsLinks.

(** The identifier [add_custom] gives the object it builds for an
    attribute. *)
Definition custom_object_id (attribute : Attribute) : string :=
  "x-misp-object-"
  +:+ Str.lower (Str.replace " " "-" (Str.replace "|" "-" (attr_type attribute)))
  +:+ "--" +:+ attr_uuid attribute.

(** A call of [add_custom] that returns adds one reference, the identifier
    of the custom object. *)
Lemma add_custom_Return E attribute s s' :
  add_custom E attribute s = (Return tt, s') →
  object_refs s' = object_refs s ++ [custom_object_id attribute].
Proof.
  unfold add_custom. destruct (create_labels attribute) as [labels markings].
  intros H.
  apply bind_Return in H as (timestamp & ? & [_ ->]%lift_Return & H).
  apply bind_Return in H as (created_by & ? & [= <- <-] & H).
  apply bind_Return in H as ([marking_ids args] & s1 & Hargs & H).
  assert (Hkept : object_refs s1 = object_refs s ∧
                  dict_get "id" args = Some (PStr (custom_object_id attribute))).
  { destruct markings as [|marking markings].
    - injection Hargs as <- <- <-. split; [done|].
      by destruct (bool_decide (attr_comment attribute ≠ "")).
    - apply bind_Return in Hargs as (ids & s2 & Htags & [= <- <- <-]).
      split; [by apply (keeps_refs_handle_tags_from E _ _ _ _ _ Htags)|].
      rewrite dict_get_set_ne by done.
      by destruct (bool_decide (attr_comment attribute ≠ "")). }
  destruct Hkept as [Hrefs Hid].
  apply bind_Return in H as (known & ? & [= <- <-] & H).
  apply bind_Return in H as (custom & s3 & Hcustom & H).
  assert (Hrefs3 : object_refs s3 = object_refs s1).
  { match type of Hcustom with context [dict_get ?k ?d] => destruct (dict_get k d) end.
    - by injection Hcustom as _ <-.
    - destruct (CustomObject E _); [done|].
      apply bind_Return in Hcustom as ([] & ? & [= <-] & [= _ <-]). done. }
  apply bind_Return in H as (custom_object & ? & [-> ->]%construct_Return & H).
  apply append_object_Return in H as (_ & -> & _).
  rewrite Hrefs3, Hrefs. unfold stix_id, getitem. cbn [kwargs]. by rewrite Hid.
Qed.

(** When the report is built, the links of the event become its external
    references, each with the source name [url], followed by its comment
    when it has one.  One case apart: when nothing has been produced for the
    event and it has links, the first link is turned into a custom object,
    which is then the first object the report refers to, and only the other
    links become external references.  A report without a link left has no
    external references at all. *)
Theorem links_become_external_references (E : Env) (s s' : StixBuilder)
    (report : stix_object) :
  eventReport E s = (Return report, s') →
  let kept := match object_refs s, links s with
              | [], _ :: rest => rest
              | _, pending => pending
              end in
  links s' = kept ∧
  getitem "external_references" report
    = match kept with
      | [] => None
      | _ => Some (PList (__parse_link <$> kept))
      end ∧
  (∀ link rest, object_refs s = [] → links s = link :: rest →
     ∃ more, object_refs s' = custom_object_id link :: more).
Proof.
  intros H kept. unfold eventReport in H.
  apply bind_Return in H as (refs & ? & [= <- <-] & H).
  apply bind_Return in H as (pending & ? & [= <- <-] & H).
  apply bind_Return in H as ([] & s1 & Hlink & H).
  assert (Hkept : links s1 = kept ∧
            (∀ link rest, object_refs s = [] → links s = link :: rest →
               object_refs s1 = [custom_object_id link])).
  { unfold kept. destruct (object_refs s) as [|ref refs] eqn:Hrefs.
    - destruct (links s) as [|link rest] eqn:Hlinks.
      + injection Hlink as <-. by rewrite Hlinks.
      + apply bind_Return in Hlink as ([] & s0 & [= <-] & Hcustom). split.
        * by rewrite (keeps_links_add_custom E _ _ _ _ Hcustom).
        * intros ? ? _ [= <- <-]. apply add_custom_Return in Hcustom as ->.
          cbn. by rewrite Hrefs.
    - injection Hlink as <-. by split. }
  destruct Hkept as [Hlinks Hfirst]. clearbody kept.
  apply bind_Return in H as (pending1 & ? & [= <- <-] & H).
  apply bind_Return in H as (event & s2 & Hevent & H).
  apply bind_Return in Hevent as (? & ? & [= <- <-] & [_ ->]%lift_Return).
  apply bind_Return in H as (id & ? & [= <- <-] & H).
  apply bind_Return in H as (created_by & ? & [= <- <-] & H).
  apply bind_Return in H as (published & ? & [_ ->]%lift_Return & H).
  apply bind_Return in H as (modified & ? & [_ ->]%lift_Return & H).
  destruct (split_tags (event_Tag event) _MISP_event_tags []) as [labels markings].
  apply bind_Return in H as (report_args & s3 & Hargs & H).
  apply bind_Return in H as ([] & s4 & Hmarkings & H).
  apply bind_Return in H as ([] & s5 & Hrelationships & H).
  apply bind_Return in H as (refs1 & ? & [= <- <-] & H).
  apply construct_Return in H as [-> ->].
  assert (Hbase : dict_get "external_references" report_args = None ∧
                  links s3 = links s1 ∧
                  ∃ new, object_refs s3 = object_refs s1 ++ new).
  { destruct markings as [|marking markings].
    - injection Hargs as <- <-. split; [done|]. split; [done|].
      exists []. by rewrite app_nil_r.
    - apply bind_Return in Hargs as (marking_ids & s6 & Htags & [= <- <-]).
      split; [done|].
      split; [by apply (keeps_links_handle_tags_from E _ _ _ _ _ Htags)|].
      exists []. rewrite app_nil_r.
      by apply (keeps_refs_handle_tags_from E _ _ _ _ _ Htags). }
  destruct Hbase as (Hnone & Hlinks3 & new3 & Hrefs3).
  split_and!.
  - rewrite (keeps_links_add_all_relationships E _ _ _ Hrelationships).
    rewrite (keeps_links_add_all_markings _ _ _ Hmarkings). by rewrite Hlinks3.
  - unfold getitem. cbn [kwargs]. rewrite dict_get_set_ne by done.
    rewrite Hlinks. destruct kept as [|link kept].
    + cbn. by rewrite dict_get_set_ne.
    + cbn [fmap list_fmap]. by rewrite dict_get_set_eq.
  - intros link rest Hempty Hpending.
    destruct (appends_only_add_all_markings _ _ _ Hmarkings) as (new4 & _ & Hrefs4 & _).
    destruct (appends_only_add_all_relationships E _ _ _ Hrelationships)
      as (new5 & _ & Hrefs5 & _).
    rewrite Hrefs5, Hrefs4, Hrefs3, (Hfirst link rest Hempty Hpending).
    by eexists.
Qed.

Definition two_links : Event :=
  Demo.event "5a3cd604-000a"
    [{| attr_type := "link"; attr_category := "External analysis"; attr_to_ids := false;
        attr_value := "https://a.example/report"; attr_uuid := "l1";
        attr_timestamp := "1518707604"; attr_comment := ""; attr_data := None;
        attr_object_relation := ""; attr_first_seen := None; attr_last_seen := None;
        attr_Tag := []; attr_Galaxy := [] |};
     {| attr_type := "link"; attr_category := "External analysis"; attr_to_ids := false;
        attr_value := "https://b.example/analysis"; attr_uuid := "l2";
        attr_timestamp := "1518707604"; attr_comment := "vendor write-up"; attr_data := None;
        attr_object_relation := ""; attr_first_seen := None; attr_last_seen := None;
        attr_Tag := []; attr_Galaxy := [] |}] [] [].

Definition before_report : StixBuilder :=
  Eval vm_compute in
    ((handler_begin two_links;; __set_identity Demo.env;; event_body Demo.env two_links)
       __init__).2.

Definition links_report : stix_object :=
  Eval vm_compute in
    match (eventReport Demo.env before_report).1 with
    | Return report => report
    | Raise _ => {| cls := Report; kwargs := [] |}
    end.

Definition after_report : StixBuilder :=
  Eval vm_compute in (eventReport Demo.env before_report).2.

Lemma links_become_external_references_witness :
  getitem "external_references" links_report
    = Some (PList [PDict [("source_name", PStr "url - vendor write-up");
                          ("url", PStr "https://b.example/analysis")]]) ∧
  object_refs after_report = ["x-misp-object-link--l1"].
Proof.
  assert (Hrun : eventReport Demo.env before_report = (Return links_report, after_report))
    by (vm_compute; reflexivity).
  destruct (links_become_external_references Demo.env before_report after_report
              links_report Hrun) as (_ & Hrefs & _).
  split; [exact Hrefs|]. vm_compute. reflexivity.
Defined.

(** ** The repair of a socket extension *)

(** The repair [fix_enumeration_issues] applies to the socket extension of a
    [network-socket] object, when [SocketExt] is bound.  The repair always
    goes through.  Afterwards the address family is the one given when the
    enumeration allows it, and [AF_UNSPEC] when it does not or when none was
    given; the protocol family is kept only when the enumeration allows it.
    A value the enumeration refuses is not lost: the address family moves to
    [x_misp_text_address_family], the protocol family to
    [x_misp_text_domain_family].  No other key of the extension changes. *)
Theorem socket_extension_is_repaired (E : Env) (allowed : string → list string)
    (extension : pydict) :
  SocketExt_allowed E = Some allowed →
  ∃ fixed,
    fix_socket_extension E extension = Return fixed ∧
    dict_get "address_family" fixed
      = Some (match dict_get "address_family" extension with
              | Some family =>
                  if allowed_in (allowed "address_family") family then family
                  else PStr "AF_UNSPEC"
              | None => PStr "AF_UNSPEC"
              end) ∧
    dict_get "x_misp_text_address_family" fixed
      = match dict_get "address_family" extension with
        | Some family =>
            if allowed_in (allowed "address_family") family
            then dict_get "x_misp_text_address_family" extension
            else Some family
        | None => dict_get "x_misp_text_address_family" extension
        end ∧
    dict_get "protocol_family" fixed
      = match dict_get "protocol_family" extension with
        | Some family =>
            if allowed_in (allowed "protocol_family") family then Some family else None
        | None => None
        end ∧
    dict_get "x_misp_text_domain_family" fixed
      = match dict_get "protocol_family" extension with
        | Some family =>
            if allowed_in (allowed "protocol_family") family
            then dict_get "x_misp_text_domain_family" extension
            else Some family
        | None => dict_get "x_misp_text_domain_family" extension
        end ∧
    ∀ key, key ∉ ["address_family"; "x_misp_text_address_family"; "protocol_family";
                  "x_misp_text_domain_family"] →
      dict_get key fixed = dict_get key extension.
Proof.
  intros Hallowed. unfold fix_socket_extension. rewrite Hallowed.
  change ("x_misp_text_" +:+ "address_family") with "x_misp_text_address_family".
  assert (Hkeys : ∀ key : string,
            key ∉ ["address_family"; "x_misp_text_address_family"; "protocol_family";
                   "x_misp_text_domain_family"] →
            key ≠ "address_family" ∧ key ≠ "x_misp_text_address_family" ∧
            key ≠ "protocol_family" ∧ key ≠ "x_misp_text_domain_family").
  { intros key Hnot. split_and!; intros ->; apply Hnot; set_solver. }
  destruct (dict_get "address_family" extension) as [address|] eqn:Haddress;
    cbn [obind of_option];
    [destruct (allowed_in (allowed "address_family") address) eqn:Hfamily|];
    cbn [obind];
    rewrite ?(dict_get_set_ne "protocol_family") by done;
    (destruct (dict_get "protocol_family" extension) as [protocol|] eqn:Hprotocol;
       cbn [obind of_option];
       [destruct (allowed_in (allowed "protocol_family") protocol) eqn:Hdomain|]);
    eexists; (split; [reflexivity|]);
    (split_and!;
     [..|intros key (? & ? & ? & ?)%Hkeys];
     rewrite ?dict_get_set_eq, ?dict_get_set_ne, ?dict_get_remove_eq, ?dict_get_remove_ne,
       ?dict_get_set_eq, ?dict_get_set_ne
       by done;
     rewrite ?dict_get_set_eq, ?dict_get_set_ne by done;
     done).
Qed.

(** An environment in which [SocketExt] is bound. *)
Definition socket_env : Env :=
  {| validate := validate Demo.env;
     CustomObject := CustomObject Demo.env;
     uuid4 := uuid4 Demo.env;
     TLP_WHITE := TLP_WHITE Demo.env;
     TLP_GREEN := TLP_GREEN Demo.env;
     TLP_AMBER := TLP_AMBER Demo.env;
     TLP_RED := TLP_RED Demo.env;
     SocketExt_allowed := Some (fun feature =>
       if decide (feature = "address_family") then ["AF_UNSPEC"; "AF_INET"; "AF_INET6"]
       else if decide (feature = "protocol_family") then ["PF_INET"; "PF_INET6"]
       else []);
     re_match := re_match Demo.env;
     str_format := str_format Demo.env;
     repr := repr Demo.env;
     mispTypesMapping := mispTypesMapping Demo.env;
     objectsMapping := objectsMapping Demo.env;
     tlp_markings := tlp_markings Demo.env;
     relationshipsSpecifications := relationshipsSpecifications Demo.env;
     defineProtocols := defineProtocols Demo.env;
     fileMapping := fileMapping Demo.env;
     hash_types := hash_types Demo.env;
     peMapping := peMapping Demo.env;
     peSectionMapping := peSectionMapping Demo.env;
     attackPatternObjectMapping := attackPatternObjectMapping Demo.env;
     attack_pattern_reference_mapping := attack_pattern_reference_mapping Demo.env;
     vulnerabilityMapping := vulnerabilityMapping Demo.env;
     category_type_mappings := category_type_mappings Demo.env;
     resolve_method := resolve_method Demo.env |}.

Definition raw_socket : pydict :=
  [("is_listening", PBool true); ("address_family", PStr "AF_IRDA");
   ("protocol_family", PStr "PF_IRDA")].

Lemma socket_extension_is_repaired_witness :
  fix_socket_extension socket_env raw_socket
  = Return [("is_listening", PBool true); ("address_family", PStr "AF_UNSPEC");
            ("x_misp_text_address_family", PStr "AF_IRDA");
            ("x_misp_text_domain_family", PStr "PF_IRDA")].
Proof.
  destruct (socket_extension_is_repaired socket_env _ raw_socket eq_refl)
    as (fixed & Hrun & _).
  rewrite Hrun. vm_compute in Hrun. injection Hrun as <-. reflexivity.
Defined.

(** ** The fields of a vulnerability object *)

(** The reference built for an attribute of relation [references]. *)
Definition url_reference (attribute : Attribute) : pyval :=
  PDict [("source_name", PStr "url"); ("url", PStr (attr_value attribute))].

(** The reference built for the name of the vulnerability. *)
Definition cve_reference (name : pyval) : pyval :=
  PDict [("source_name", PStr "cve"); ("external_id", name)].

(** The value of the last attribute whose relation is mapped to [name]. *)
Definition vulnerability_name (E : Env) (attributes : list Attribute) : option string :=
  attr_value <$>
    last (filter (fun a => vulnerabilityMapping E (attr_object_relation a) = Some "name")
            attributes).

(** The references of a vulnerability object: one per attribute of relation
    [references], in order, then the one of its name. *)
Definition vulnerability_references (E : Env) (attributes : list Attribute) : list pyval :=
  (url_reference <$> filter (fun a => attr_object_relation a = "references") attributes)
  ++ match vulnerability_name E attributes with
     | Some name => [cve_reference (PStr name)]
     | None => []
     end.

Lemma dict_keys_single_or_list (custom_args : list (string * list pyval)) :
  dict_keys (prod_map id single_or_list <$> custom_args) = dict_keys custom_args.
Proof.
  unfold dict_keys. induction custom_args as [|[k v] custom_args IH]; csimpl; [done|].
  by rewrite IH.
Qed.

Section Vulnerability.
Context (E : Env).
Hypothesis no_references : vulnerabilityMapping E "references" = None.
Hypothesis plain_fields :
  ∀ relation, vulnerabilityMapping E relation ≠ Some "external_references".

Lemma parse_vulnerability_fields_from_spec (seen attributes : list Attribute)
    (vulnerability : pydict) (references : list pyval)
    (custom_args : list (string * list pyval)) :
  dict_get "name" vulnerability = PStr <$> vulnerability_name E seen →
  references
    = url_reference <$> filter (fun a => attr_object_relation a = "references") seen →
  dict_get "external_references" vulnerability = None →
  Forall (fun key => ∃ rest, key = "x_misp_" +:+ rest) (dict_keys custom_args) →
  let fields := parse_vulnerability_fields_from E vulnerability references custom_args
                  attributes in
  dict_get "name" fields = PStr <$> vulnerability_name E (seen ++ attributes) ∧
  dict_get "external_references" fields
    = match vulnerability_references E (seen ++ attributes) with
      | [] => None
      | references => Some (PList references)
      end.
Proof.
  revert seen vulnerability references custom_args.
  induction attributes as [|a attributes IH];
    intros seen vulnerability references custom_args Hname Hrefs Hnone Hkeys.
  - rewrite app_nil_r. cbn [parse_vulnerability_fields_from]. cbv zeta.
    assert (Hcustom : ∀ key : string, key ∈ ["name"; "external_references"] →
              key ∉ dict_keys (prod_map id single_or_list <$> custom_args)).
    { intros key Hkey Hin. rewrite dict_keys_single_or_list in Hin.
      rewrite Forall_forall in Hkeys. destruct (Hkeys _ Hin) as [rest ->].
      apply elem_of_cons in Hkey as [Hkey|Hkey]; [done|].
      by apply list_elem_of_singleton in Hkey. }
    rewrite !dict_get_update_ne
      by (apply Hcustom; repeat first [by left|right]).
    unfold vulnerability_references. rewrite Hname, <-Hrefs.
    destruct (vulnerability_name E seen) as [name|]; cbn [fmap option_fmap option_map].
    + destruct references as [|reference references]; cbn [app].
      * by rewrite dict_get_set_ne, dict_get_set_eq, Hname.
      * by rewrite dict_get_set_ne, dict_get_set_eq, Hname.
    + rewrite app_nil_r. destruct references as [|reference references].
      * by rewrite Hname, Hnone.
      * by rewrite dict_get_set_ne, dict_get_set_eq, Hname.
  - replace (seen ++ a :: attributes) with ((seen ++ [a]) ++ attributes)
      by (by rewrite <-app_assoc).
    cbn [parse_vulnerability_fields_from]. cbv zeta.
    destruct (vulnerabilityMapping E (attr_object_relation a)) as [field|] eqn:Hfield.
    + assert (Hrelation : attr_object_relation a ≠ "references").
      { intros Heq. rewrite Heq, no_references in Hfield. done. }
      apply IH; [| |
        |done].
      * unfold vulnerability_name. rewrite last_snoc_filter.
        destruct (decide (field = "name")) as [->|Hne].
        -- by rewrite dict_get_set_eq, decide_True.
        -- rewrite dict_get_set_ne by done. rewrite decide_False; [done|congruence].
      * rewrite Hrefs, filter_app, filter_cons_False, filter_nil, app_nil_r by done. done.
      * rewrite dict_get_set_ne; [done|]. intros <-. by apply (plain_fields _ Hfield).
    + assert (Hnamed : vulnerability_name E (seen ++ [a]) = vulnerability_name E seen).
      { unfold vulnerability_name. rewrite last_snoc_filter.
        rewrite decide_False; [done|]. by rewrite Hfield. }
      destruct (decide (attr_object_relation a = "references")) as [Hrelation|Hrelation].
      * apply IH; [by rewrite Hnamed| |done|done].
        rewrite Hrefs, filter_app, filter_cons_True, filter_nil by done.
        by rewrite fmap_app.
      * apply IH.
        -- by rewrite dict_get_set_ne, Hnamed.
        -- rewrite Hrefs, filter_app, filter_cons_False, filter_nil, app_nil_r by done.
           done.
        -- by rewrite dict_get_set_ne.
        -- unfold dict_append. rewrite dict_keys_set.
           destruct (dict_has _ custom_args); [done|].
           apply Forall_app. split; [done|]. apply Forall_singleton. by eexists.
Qed.

End Vulnerability.

(** The external references of a vulnerability object are the links of its
    attributes of relation [references], in the order of the attributes,
    followed by the CVE reference of its name when an attribute gives one;
    the name is the value of the last attribute mapped to [name].  Without
    either the object has no external references.  The mapping is taken to
    have no entry for [references] and none that writes the field
    [external_references]. *)
Theorem vulnerability_references_end_with_cve (E : Env) (attributes : list Attribute) :
  vulnerabilityMapping E "references" = None →
  (∀ relation, vulnerabilityMapping E relation ≠ Some "external_references") →
  let fields := parse_vulnerability_fields E attributes in
  dict_get "name" fields = PStr <$> vulnerability_name E attributes ∧
  dict_get "external_references" fields
    = match vulnerability_references E attributes with
      | [] => None
      | references => Some (PList references)
      end.
Proof.
  intros no_references plain_fields.
  apply (parse_vulnerability_fields_from_spec E no_references plain_fields [] attributes);
    by try constructor.
Qed.

Definition heartbleed : list Attribute :=
  [Demo.related "references" (Demo.attribute "link" "https://heartbleed.com" "v1" false);
   Demo.related "id" (Demo.attribute "vulnerability" "CVE-2014-0160" "v2" false);
   Demo.related "credit" (Demo.attribute "text" "Neel Mehta" "v3" false);
   Demo.related "references" (Demo.attribute "link" "https://a.example/advisory" "v4" false)].

Lemma vulnerability_references_witness :
  dict_get "external_references" (parse_vulnerability_fields Demo.env heartbleed)
  = Some (PList [PDict [("source_name", PStr "url"); ("url", PStr "https://heartbleed.com")];
                 PDict [("source_name", PStr "url");
                        ("url", PStr "https://a.example/advisory")];
                 PDict [("source_name", PStr "cve");
                        ("external_id", PStr "CVE-2014-0160")]]).
Proof.
  assert (Hplain : ∀ relation,
            vulnerabilityMapping Demo.env relation ≠ Some "external_references").
  { intros relation. simpl. repeat case_decide; done. }
  exact (proj2 (vulnerability_references_end_with_cve Demo.env heartbleed eq_refl Hplain)).
Defined.

(** ** The values of a custom object *)

(** The key under which [fetch_custom_values] files an attribute. *)
Definition custom_key (attribute : Attribute) : string :=
  attr_type attribute +:+ "_" +:+ attr_object_relation attribute.

(** The values of the attributes filed under a key, in order. *)
Definition values_under (key : string) (attributes : list Attribute) : list pyval :=
  (fun a => PStr (attr_value a)) <$> filter (fun a => custom_key a = key) attributes.

Lemma dict_get_single_or_list (key : string) (values : list (string * list pyval)) :
  dict_get key (prod_map id single_or_list <$> values)
  = single_or_list <$> dict_get key values.
Proof.
  induction values as [|[k v] values IH]; csimpl; [done|].
  by destruct (decide (key = k)).
Qed.

Lemma fetch_custom_values_from_Return E (seen attributes : list Attribute) object_id
    (values : list (string * list pyval)) s custom s' :
  (∀ key, dict_get key values
          = match values_under key seen with
            | [] => None
            | given => Some given
            end) →
  fetch_custom_values_from E values attributes object_id s = (Return custom, s') →
  ∀ key, dict_get key custom
         = match values_under key (seen ++ attributes) with
           | [] => None
           | given => Some (single_or_list given)
           end.
Proof.
  revert seen values s.
  induction attributes as [|a attributes IH]; intros seen values s Hvalues H key.
  - injection H as <- <-. rewrite app_nil_r, dict_get_single_or_list, Hvalues.
    by destruct (values_under key seen).
  - cbn [fetch_custom_values_from] in H. apply bind_Return in H as ([] & s1 & _ & H).
    replace (seen ++ a :: attributes) with ((seen ++ [a]) ++ attributes)
      by (by rewrite <-app_assoc).
    apply (IH (seen ++ [a])) with (key := key) in H; [done|].
    clear H. intros k. fold (custom_key a). unfold dict_append, values_under.
    rewrite filter_app, fmap_app. fold (values_under k seen).
    destruct (decide (custom_key a = k)) as [<-|Hne].
    + rewrite dict_get_set_eq, filter_cons_True, filter_nil by done.
      rewrite Hvalues. by destruct (values_under (custom_key a) seen).
    + rewrite dict_get_set_ne, filter_cons_False, filter_nil, app_nil_r by done.
      apply Hvalues.
Qed.

(** [fetch_custom_values] files the value of every attribute under the key
    made of its type and its relation.  A key met once holds that one value;
    a key met several times holds the list of all its values, in the order
    of the attributes; every other key is absent. *)
Theorem custom_values_are_grouped (E : Env) (attributes : list Attribute)
    (object_id : string) (s s' : StixBuilder) (custom : pydict) :
  fetch_custom_values E attributes object_id s = (Return custom, s') →
  ∀ key, dict_get key custom
         = match values_under key attributes with
           | [] => None
           | [value] => Some value
           | given => Some (PList given)
           end.
Proof.
  intros H key.
  rewrite (fetch_custom_values_from_Return E [] attributes _ [] _ _ _ (fun _ => eq_refl) H).
  cbn [app]. by destruct (values_under key attributes) as [|? [|? ?]].
Qed.

Definition contacts : list Attribute :=
  [Demo.related "email" (Demo.attribute "text" "a@a.example" "c1" false);
   Demo.related "alias" (Demo.attribute "text" "ann" "c2" false);
   Demo.related "email" (Demo.attribute "text" "b@a.example" "c3" false)].

Lemma custom_values_are_grouped_witness :
  ∃ custom,
    fetch_custom_values Demo.env contacts "x-misp-object--c0" __init__
    = (Return custom, __init__) ∧
    dict_get "text_email" custom = Some (PList [PStr "a@a.example"; PStr "b@a.example"]) ∧
    dict_get "text_alias" custom = Some (PStr "ann") ∧
    dict_get "text_name" custom = None.
Proof.
  assert (Hrun : ∃ custom,
            fetch_custom_values Demo.env contacts "x-misp-object--c0" __init__
            = (Return custom, __init__)) by (eexists; vm_compute; reflexivity).
  destruct Hrun as [custom Hrun]. exists custom. split; [exact Hrun|].
  pose proof (custom_values_are_grouped Demo.env contacts "x-misp-object--c0"
                __init__ __init__ custom Hrun) as Hkeys.
  split; [exact (Hkeys "text_email")|]. split; [exact (Hkeys "text_alias")|].
  exact (Hkeys "text_name").
Defined.

(** ** The object a galaxy edge points to *)

Lemma dict_get_Some_values {V} (k : string) (v : V) (d : list (string * V)) :
  dict_get k d = Some v → v ∈ dict_values d.
Proof.
  unfold dict_values. induction d as [|[k' v'] d IH]; csimpl; [done|].
  destruct (decide (k = k')).
  - intros [= ->]. apply list_elem_of_here.
  - intros H. by apply list_elem_of_further, IH.
Qed.

(** The entries of [galaxies_mapping]: seven kinds, each with its method. *)
Lemma known_family_cases (galaxy : Galaxy) (stix_type to_call : string) :
  known_family galaxy = Some (stix_type, to_call) →
  (stix_type, to_call) ∈
    [("vulnerability", "add_vulnerability_from_galaxy");
     ("attack-pattern", "add_attack_pattern");
     ("course-of-action", "add_course_of_action");
     ("intrusion-set", "add_intrusion_set"); ("malware", "add_malware");
     ("threat-actor", "add_threat_actor"); ("tool", "add_tool")].
Proof.
  unfold known_family. destruct (galaxy_type galaxy) as [t|]; [|done].
  cbn [mbind option_bind]. intros H%dict_get_Some_values.
  set (entries := dict_values galaxies_mapping) in H.
  vm_compute in entries. subst entries.
  repeat match type of H with
         | _ ∈ _ :: _ => apply elem_of_cons in H as [->|H]
         end;
    [repeat first [apply list_elem_of_here|apply list_elem_of_further]..|].
  by apply elem_of_nil in H.
Qed.

Lemma generate_galaxy_args_id galaxy cluster b_killchain b_alias sdo_type s args s' :
  head (galaxy_GalaxyCluster galaxy) = Some cluster →
  generate_galaxy_args galaxy b_killchain b_alias sdo_type s = (Return args, s') →
  dict_get "id" args = Some (PStr (sdo_type +:+ "--" +:+ collection_uuid cluster)).
Proof.
  unfold generate_galaxy_args, get_misp_event. intros Hcluster H. rewrite Hcluster in H.
  apply bind_Return in H as (? & ? & [[= <-] ->]%lift_Return & H).
  apply bind_Return in H as (? & ? & [_ ->]%lift_Return & H).
  apply bind_Return in H as (? & ? & He & H).
  apply bind_Return in He as (? & ? & [= <- <-] & [_ ->]%lift_Return).
  apply bind_Return in H as (? & ? & [_ ->]%lift_Return & H).
  apply bind_Return in H as (sdo_args & sk & Hk & H).
  assert (Hid : dict_get "id" sdo_args
                = Some (PStr (sdo_type +:+ "--" +:+ collection_uuid cluster))).
  { destruct b_killchain.
    - apply bind_Return in Hk as (? & ? & _ & [= <- _]). done.
    - by injection Hk as <- _. }
  apply bind_Return in H as (meta & ? & _ & H). injection H as <- _.
  rewrite dict_get_set_ne by done.
  destruct (dict_get "synonyms" meta); [destruct b_alias|]; by rewrite ?dict_get_set_ne.
Qed.

Ltac galaxy_identifier H Hcluster :=
  apply bind_Return in H as (? & ? & Hargs & H);
  pose proof (generate_galaxy_args_id _ _ _ _ _ _ _ _ Hcluster Hargs) as Hid;
  apply generate_galaxy_args_state in Hargs as ->;
  apply bind_Return in H as (? & ? & [= <- <-] & H);
  apply bind_Return in H as (? & ? & [-> ->]%construct_Return & H);
  apply append_object_Return in H as (? & _);
  eexists; split; [eassumption|];
  unfold stix_id, getitem; cbn [kwargs];
  rewrite dict_get_set_ne by done; by rewrite Hid.

(** The edge [parse_galaxy] records for a galaxy names its target by the
    kind of the galaxy and the collection identifier of its first cluster.
    The object built for a cluster met for the first time carries that very
    identifier for every kind but one: a vulnerability built from a galaxy is
    named after the identifier of the galaxy itself, so the edge points to it
    only when the two identifiers agree. *)
Theorem galaxy_edge_names_built_object (E : Env) (galaxy : Galaxy)
    (cluster : GalaxyCluster) (stix_type to_call source_id : string)
    (s s' : StixBuilder) :
  head (galaxy_GalaxyCluster galaxy) = Some cluster →
  known_family galaxy = Some (stix_type, to_call) →
  collection_uuid cluster ∉ galaxies s →
  parse_galaxy E galaxy source_id s = (Return tt, s') →
  ∃ o,
    SDOs s' = SDOs s ++ [o] ∧
    stix_id o = stix_type +:+ "--" +:+
                (if decide (stix_type = "vulnerability") then galaxy_uuid galaxy
                 else collection_uuid cluster) ∧
    dict_get source_id (defined s')
      = Some (default [] (dict_get source_id (defined s))
              ++ [stix_type +:+ "--" +:+ collection_uuid cluster]).
Proof.
  intros Hcluster Hfamily Hnew H.
  pose proof (known_family_cases _ _ _ Hfamily) as Hcases.
  unfold parse_galaxy in H. rewrite Hcluster in H.
  apply bind_Return in H as (? & ? & [[= <-] ->]%lift_Return & H).
  change (galaxy_type galaxy ≫= _) with (known_family galaxy) in H. rewrite Hfamily in H.
  apply bind_Return in H as (seen & ? & [= <- <-] & H).
  rewrite bool_decide_false in H by done.
  apply bind_Return in H as ([] & s1 & Hadd & H).
  apply bind_Return in Hadd as ([] & s0 & Hcall & Hadd).
  injection Hadd as <-. injection H as <-.
  unfold set_defined, set_galaxies. cbn [SDOs defined galaxies].
  assert (Hbuilt : ∃ o, SDOs s0 = SDOs s ++ [o] ∧
            stix_id o = stix_type +:+ "--" +:+
                        (if decide (stix_type = "vulnerability") then galaxy_uuid galaxy
                         else collection_uuid cluster)).
  { unfold call_galaxy_method in Hcall.
    repeat match type of Hcases with
           | _ ∈ _ :: _ => apply elem_of_cons in Hcases as [[= -> ->]|Hcases]
           end;
      [..|by apply elem_of_nil in Hcases];
      repeat (rewrite decide_False in Hcall by done);
      rewrite decide_True in Hcall by done.
    - unfold add_vulnerability_from_galaxy in Hcall.
      apply bind_Return in Hcall as (? & ? & [_ ->]%lift_Return & Hcall).
      apply bind_Return in Hcall as (meta & ? & [_ ->]%lift_Return & Hcall).
      apply bind_Return in Hcall as (aliases & sa & Ha & Hcall).
      assert (sa = s) as ->.
      { destruct meta; [by injection Ha as _ <-|by apply lift_Return in Ha as [_ ->]]. }
      apply bind_Return in Hcall as (? & ? & [_ ->]%lift_Return & Hcall).
      apply bind_Return in Hcall as (? & ? & [= <- <-] & Hcall).
      apply bind_Return in Hcall as (? & ? & [-> ->]%construct_Return & Hcall).
      apply append_object_Return in Hcall as (? & _).
      eexists. split; [eassumption|]. done.
    - unfold add_attack_pattern in Hcall. galaxy_identifier Hcall Hcluster.
    - unfold add_course_of_action, add_coa_stix_object in Hcall.
      apply bind_Return in Hcall as (coa_args & ? & Hargs & Hcall).
      pose proof (generate_galaxy_args_id _ _ _ _ _ _ _ _ Hcluster Hargs) as Hid.
      apply generate_galaxy_args_state in Hargs as ->.
      apply bind_Return in Hcall as (? & ? & [= <- <-] & Hcall).
      apply bind_Return in Hcall as (? & ? & [-> ->]%construct_Return & Hcall).
      apply append_object_Return in Hcall as (? & _).
      eexists. split; [eassumption|].
      unfold stix_id, getitem. cbn [kwargs].
      assert (Hfirst : ∀ (d d' : pydict) v, dict_get "id" d = Some v →
                dict_get "id" (d ++ d') = Some v).
      { intros d d' v. induction d as [|[k w] d IH]; csimpl; [done|].
        by destruct (decide ("id" = k)). }
      rewrite (Hfirst _ _ (PStr ("course-of-action--" +:+ collection_uuid cluster)));
        [done|].
      by rewrite dict_get_set_ne.
    - unfold add_intrusion_set in Hcall. galaxy_identifier Hcall Hcluster.
    - unfold add_malware in Hcall. galaxy_identifier Hcall Hcluster.
    - unfold add_threat_actor in Hcall. galaxy_identifier Hcall Hcluster.
    - unfold add_tool in Hcall. galaxy_identifier Hcall Hcluster. }
  destruct Hbuilt as (o & HS & Hid). exists o. split; [exact HS|]. split; [exact Hid|].
  apply call_galaxy_method_Return in Hcall as (? & _ & _ & ->).
  unfold dict_append. by rewrite dict_get_set_eq.
Qed.

Definition branded : Galaxy :=
  {| galaxy_type := Some "branded-vulnerability"; galaxy_name := "Branded Vulnerability";
     galaxy_description := Some "List of known vulnerabilities"; galaxy_uuid := "g7";
     galaxy_GalaxyCluster :=
       [{| collection_uuid := "c7"; cluster_description := "OpenSSL heartbeat";
           cluster_value := "Heartbleed"; cluster_tag_name := "";
           cluster_meta := Some [("aliases", ["CVE-2014-0160"])] |}] |}.

Definition branded_state : StixBuilder :=
  Eval vm_compute in
    ((handler_begin first_of_two;; __set_identity Demo.env;;
      parse_galaxy Demo.env branded "indicator--a1") __init__).2.

Definition before_branded : StixBuilder :=
  Eval vm_compute in
    ((handler_begin first_of_two;; __set_identity Demo.env) __init__).2.

Lemma galaxy_edge_witness :
  ∃ o,
    SDOs branded_state = SDOs before_branded ++ [o] ∧
    stix_id o = "vulnerability--g7" ∧
    dict_get "indicator--a1" (defined branded_state) = Some ["vulnerability--c7"].
Proof.
  assert (Hrun : parse_galaxy Demo.env branded "indicator--a1" before_branded
                 = (Return tt, branded_state)) by (vm_compute; reflexivity).
  assert (Hnew : collection_uuid
                   {| collection_uuid := "c7"; cluster_description := "OpenSSL heartbeat";
                      cluster_value := "Heartbleed"; cluster_tag_name := "";
                      cluster_meta := Some [("aliases", ["CVE-2014-0160"])] |}
                 ∉ galaxies before_branded).
  { vm_compute. by intros ?%elem_of_nil. }
  destruct (galaxy_edge_names_built_object Demo.env branded _ "vulnerability"
              "add_vulnerability_from_galaxy" "indicator--a1" before_branded branded_state
              eq_refl eq_refl Hnew Hrun) as (o & HS & Hid & Hedge).
  exists o. split; [exact HS|]. split; [exact Hid|exact Hedge].
Defined.

(** ** Quotes in pattern values *)









(** ** The sections of a pe extension *)

(** A section object as the pe extension holds it: built by
    [WindowsPESection], and named. *)
Definition named_section (v : pyval) : Prop :=
  ∃ kw name, v = PObj WindowsPESection kw ∧ dict_get "name" kw = Some name.

Lemma section_is_named (d_section : pydict) (fallback : pyval) :
  named_section (PObj WindowsPESection
                   (if dict_has "name" d_section then d_section
                    else dict_set "name" fallback d_section)).
Proof.
  unfold named_section. destruct (dict_has "name" d_section) eqn:Hhas.
  - unfold dict_has in Hhas. apply bool_decide_eq_true in Hhas as [name Hname].
    by exists d_section, name.
  - eexists _, fallback. split; [reflexivity|]. by rewrite dict_get_set_eq.
Qed.

Lemma pe_sections_observable_sections E sections todo extension extension' built :
  dict_get "sections" extension = Some (PList built) →
  pe_sections_observable E sections todo extension = Return extension' →
  ∃ new, dict_get "sections" extension' = Some (PList (built ++ new)) ∧
         length new = length todo ∧ Forall named_section new.
Proof.
  revert extension built.
  induction todo as [|section todo IH]; intros extension built Hbuilt H; simpl in H.
  - injection H as <-. exists []. by rewrite app_nil_r.
  - apply obind_Return in H as (d_section & _ & H).
    destruct (validate E WindowsPESection _); [done|].
    apply obind_Return in H as (extension1 & Happ & H).
    unfold append_section in Happ. rewrite Hbuilt in Happ. injection Happ as <-.
    apply IH with (built := built ++ [PObj WindowsPESection
             (if dict_has "name" d_section then d_section
              else dict_set "name"
                     (PStr ("Section " +:+ Str.of_nat (index_of section sections)))
                     d_section)]) in H; [|by rewrite dict_get_set_eq].
    destruct H as (new & Hnew & Hlen & Hnamed). eexists (_ :: new).
    split; [by rewrite Hnew, <-app_assoc|]. split; [by cbn; rewrite Hlen|].
    constructor; [|done]. apply section_is_named.
Qed.

(** The pe extension built for a pe object with sections holds one
    [WindowsPESection] per section, in one list, and every one of them has a
    name, also when the attributes of the section give none. *)
Theorem pe_sections_are_named (E : Env) (pe_object : MispObject)
    (sections : list MispObject) (pe_type : string) (fields : pydict) :
  sections ≠ [] →
  parse_pe_extensions_observable E pe_object sections pe_type
    = Return (PDict [("windows-pebinary-ext", PDict fields)]) →
  ∃ built,
    dict_get "sections" fields = Some (PList built) ∧
    length built = length sections ∧
    Forall named_section built.
Proof.
  intros Hsome H. unfold parse_pe_extensions_observable in H.
  apply obind_Return in H as (extension & Hsections & H).
  apply obind_Return in H as (count & _ & H).
  assert (Hfields : dict_get "sections" fields = dict_get "sections" extension).
  { injection H as <-. case_bool_decide; [by rewrite dict_get_set_ne|done]. }
  rewrite Hfields. clear H Hfields.
  destruct sections as [|section rest]; [done|]. clear Hsome.
  remember (section :: rest) as sections eqn:Hall.
  rewrite Hall in Hsections at 2. cbn [pe_sections_observable] in Hsections.
  apply obind_Return in Hsections as (d_section & _ & Hsections).
  destruct (validate E WindowsPESection _); [done|].
  apply obind_Return in Hsections as (extension1 & Happ & Hsections).
  unfold append_section in Happ. rewrite pe_fields_get in Happ.
  destruct (last _) as [a|]; [done|]. cbn in Happ. injection Happ as <-.
  eapply pe_sections_observable_sections in Hsections as (new & Hnew & Hlen & Hnamed);
    [|by rewrite dict_get_set_eq].
  eexists. split; [exact Hnew|]. rewrite Hall. split; [by cbn; rewrite Hlen|].
  constructor; [|done]. apply section_is_named.
Qed.

Definition unnamed_section : MispObject :=
  Demo.object "pe-section" "s2"
    [Demo.related "entropy" (Demo.attribute "float" "7.2" "t2" false)] [].

Definition sections_extension : pydict :=
  Eval vm_compute in
    match parse_pe_extensions_observable Demo.env packed_pe
            [packed_section "s1" false; unnamed_section] "exe" with
    | Return (PDict [(_, PDict fields)]) => fields
    | _ => []
    end.

Lemma pe_sections_are_named_witness :
  ∃ built,
    dict_get "sections" sections_extension = Some (PList built) ∧
    length built = 2 ∧
    (λ v, match v with PObj _ kw => dict_get "name" kw | _ => None end) <$> built
    = [Some (PStr ".text"); Some (PStr "Section 1")].
Proof.
  assert (Hrun : parse_pe_extensions_observable Demo.env packed_pe
                   [packed_section "s1" false; unnamed_section] "exe"
                 = Return (PDict [("windows-pebinary-ext", PDict sections_extension)]))
    by (vm_compute; reflexivity).
  destruct (pe_sections_are_named Demo.env packed_pe
              [packed_section "s1" false; unnamed_section] "exe" sections_extension
              ltac:(discriminate) Hrun) as (built & Hbuilt & Hlen & _).
  exists built. split; [exact Hbuilt|]. split; [exact Hlen|].
  vm_compute in Hbuilt. injection Hbuilt as <-. vm_compute. reflexivity.
Defined.
